(** * CareerPilot: profile metrics, roadmap reconciliation, focus resolution
      and the persistence boundary, embedded from the TypeScript sources.

    Conventions of the embedding.
    - A JavaScript string is a [string]: a sequence of code units.  The
      character classes below are the ones of ECMAScript restricted to the
      code units 0..255 (Latin-1).
    - A JavaScript number is modelled by its exact value in [Q] (or [Z] where
      the code only produces integers); the rounding, overflow and underflow
      of binary64 are outside the model.  Binary64 can round a value next
      to a half the other way: the properties of the interior points of the
      trend series and of the learning hours bound the integers the code
      rounds to instead of fixing them.
    - [undefined] or a missing property is [None].
    - A thrown exception is the [Throw] outcome of the [result] type. *)

From Stdlib Require Import ZArith QArith Qround Ascii String List Lia Lqa Bool.
From stdpp Require Import base option list strings gmap.

Local Open Scope string_scope.

(* ===================================================================== *)
(** * Part I: definitions                                                 *)
(* ===================================================================== *)

(** ** Outcomes of code that may throw *)

Inductive result (A : Type) : Type :=
| Ok (a : A)
| Throw (e : string).
Arguments Ok {A} a.
Arguments Throw {A} e.

(** The exception monad; [x ← m; k] is stdpp's notation for [mbind]. *)
#[global] Instance result_ret : MRet result := fun A a => Ok a.
#[global] Instance result_bind : MBind result := fun A B k m =>
  match m with
  | Ok a => k a
  | Throw e => Throw e
  end.

(** [try { body } catch (e) { handler }] *)
Definition tryCatch {A} (body : result A) (handler : string -> A) : A :=
  match body with
  | Ok a => a
  | Throw e => handler e
  end.

(** ** JavaScript string primitives used by the pages *)
Module JsString.

Definition code (c : ascii) : N := N_of_ascii c.

(** The double quote, and a text between double quotes. *)
Definition quoteChar : ascii := ascii_of_N 34.
Definition quote (s : string) : string :=
  String quoteChar (s ++ String quoteChar EmptyString).

(** [\d] *)
Definition isDigit (c : ascii) : bool :=
  ((48 <=? code c) && (code c <=? 57))%N.

(** [\s], and the set stripped by [String.prototype.trim]:
    TAB, LF, VT, FF, CR, SPACE and NBSP. *)
Definition isSpace (c : ascii) : bool :=
  (((9 <=? code c) && (code c <=? 13)) || (code c =? 32) || (code c =? 160))%N.

(** [String.prototype.toLowerCase] on one code unit: A-Z and the upper-case
    Latin-1 letters (U+00C0..U+00DE except the multiplication sign). *)
Definition lowerChar (c : ascii) : ascii :=
  let n := code c in
  if (((65 <=? n) && (n <=? 90)) ||
      ((192 <=? n) && (n <=? 222) && negb (n =? 215)))%N
  then ascii_of_N (n + 32) else c.

Fixpoint toLowerCase (s : string) : string :=
  match s with
  | EmptyString => EmptyString
  | String c r => String (lowerChar c) (toLowerCase r)
  end.

Fixpoint trimStart (s : string) : string :=
  match s with
  | EmptyString => EmptyString
  | String c r => if isSpace c then trimStart r else s
  end.

Fixpoint trimEnd (s : string) : string :=
  match s with
  | EmptyString => EmptyString
  | String c r =>
      match trimEnd r with
      | EmptyString => if isSpace c then EmptyString else String c EmptyString
      | r' => String c r'
      end
  end.

Definition trim (s : string) : string := trimEnd (trimStart s).

(** [s.startsWith(p)] returning the remainder. *)
Fixpoint stripPrefix (p s : string) : option string :=
  match p, s with
  | EmptyString, _ => Some s
  | String a p', String b s' => if Ascii.eqb a b then stripPrefix p' s' else None
  | String _ _, EmptyString => None
  end.

(** [s.includes(p)] *)
Fixpoint includes (p s : string) : bool :=
  match stripPrefix p s with
  | Some _ => true
  | None => match s with
            | EmptyString => false
            | String _ r => includes p r
            end
  end.

(** The longest prefix of digits, and what follows it. *)
Fixpoint spanDigits (s : string) : string * string :=
  match s with
  | EmptyString => (EmptyString, EmptyString)
  | String c r =>
      if isDigit c
      then let '(ds, rest) := spanDigits r in (String c ds, rest)
      else (EmptyString, s)
  end.

Definition digitVal (c : ascii) : Z := Z.of_N (code c) - 48.

(** Value of a digit string read left to right, from the accumulator. *)
Fixpoint digitsFrom (acc : Z) (s : string) : Z :=
  match s with
  | EmptyString => acc
  | String c r => digitsFrom (10 * acc + digitVal c) r
  end.

Definition digitsValue (s : string) : Z := digitsFrom 0 s.

(** Exact value of the decimal literal [ip.fp]. *)
Definition decimalValue (ip fp : string) : Q :=
  (inject_Z (digitsValue (ip ++ fp)) / inject_Z (10 ^ Z.of_nat (String.length fp)))%Q.

(** An optional sign: whether it is a minus, and what follows it. *)
Definition readSign (s : string) : bool * string :=
  match s with
  | String c r =>
      if Ascii.eqb c "+" then (false, r)
      else if Ascii.eqb c "-" then (true, r)
      else (false, s)
  | EmptyString => (false, s)
  end.

(** What follows a leading dot, if there is one. *)
Definition afterDot (s : string) : option string :=
  match s with
  | String c r => if Ascii.eqb c "." then Some r else None
  | EmptyString => None
  end.

(** The exponent part [e[+-]digits] at the start of [s], or 0 when there is
    no complete one. *)
Definition readExponent (s : string) : Z :=
  match s with
  | String e r =>
      if (Ascii.eqb e "e" || Ascii.eqb e "E")%bool then
        let '(eneg, r') := readSign r in
        let '(es, _) := spanDigits r' in
        match es with
        | EmptyString => 0%Z
        | _ => if eneg then (- digitsValue es)%Z else digitsValue es
        end
      else 0%Z
  | EmptyString => 0%Z
  end.

(** [parseFloat]: leading white space is skipped, then the longest prefix
    that is a StrDecimalLiteral is read; [None] is NaN.  The literal
    [Infinity] is not modelled: the callers pass lower-cased text, in which
    it cannot occur. *)
Definition parseFloat (s : string) : option Q :=
  let s0 := trimStart s in
  let '(neg, s1) := readSign s0 in
  let '(ip, r1) := spanDigits s1 in
  let mant :=
    match afterDot r1 with
    | Some r2 =>
        let '(fp, r3) := spanDigits r2 in
        match ip, fp with
        | EmptyString, EmptyString => None
        | _, _ => Some (decimalValue ip fp, r3)
        end
    | None =>
        match ip with
        | EmptyString => None
        | _ => Some (decimalValue ip EmptyString, r1)
        end
    end in
  match mant with
  | None => None
  | Some (m, r) =>
      let v := (m * Qpower (inject_Z 10) (readExponent r))%Q in
      Some (if neg then (- v)%Q else v)
  end.

End JsString.

(** ** MetricsEngine: the dashboard helpers *)
Module Metrics.
Import JsString.

(** The regular expression [/(\d+(\.\d+)?)\s*u/] tried at the start of [s]:
    the digits, the optional fraction, white space, then the unit letter.
    Every quantifier is greedy and no shorter choice can succeed, because the
    unit letter is neither a digit, a dot nor white space: the greedy parse is
    the only one the engine can accept at a given start.  The result is
    capture group 1, as its integer and fraction digit strings. *)
Definition matchHere (u : ascii) (s : string) : option (string * string) :=
  let '(ip, r1) := spanDigits s in
  match ip with
  | EmptyString => None
  | _ =>
      let '(fp, r2) :=
        match afterDot r1 with
        | Some t =>
            let '(fp, r3) := spanDigits t in
            match fp with
            | EmptyString => (EmptyString, r1)
            | _ => (fp, r3)
            end
        | None => (EmptyString, r1)
        end in
      match trimStart r2 with
      | String c _ => if Ascii.eqb c u then Some (ip, fp) else None
      | EmptyString => None
      end
  end.

(** The language of the expression, stated on the text: a non-empty run of
    digits, an optional dot with a non-empty run of digits, any white space,
    the unit letter. *)
Fixpoint allDigits (s : string) : bool :=
  match s with
  | EmptyString => true
  | String c r => isDigit c && allDigits r
  end.

Fixpoint allSpaces (s : string) : bool :=
  match s with
  | EmptyString => true
  | String c r => isSpace c && allSpaces r
  end.

Fixpoint noDigits (s : string) : bool :=
  match s with
  | EmptyString => true
  | String c r => negb (isDigit c) && noDigits r
  end.

Definition fraction (fp : string) : string :=
  match fp with
  | EmptyString => EmptyString
  | _ => String "." fp
  end.

(** The text starts with a character that fails [p], or is empty. *)
Definition headFails (p : ascii -> bool) (s : string) : Prop :=
  match s with
  | EmptyString => True
  | String c _ => p c = false
  end.

(** The unit letters of the two expressions are ordinary letters. *)
Definition unitLetter (u : ascii) : Prop :=
  isDigit u = false /\ isSpace u = false /\ u <> "."%char.

Definition MatchesAt (u : ascii) (s ip fp : string) : Prop :=
  exists ws post,
    s = ip ++ fraction fp ++ ws ++ String u post
    /\ ip <> EmptyString
    /\ allDigits ip = true /\ allDigits fp = true /\ allSpaces ws = true.

(** [d.match(re)]: the first start position at which the expression matches. *)
Fixpoint regexMatch (u : ascii) (s : string) : option (string * string) :=
  match matchHere u s with
  | Some g => Some g
  | None => match s with
            | EmptyString => None
            | String _ r => regexMatch u r
            end
  end.

(** [parseFloat(m[1])] on a capture of the expression. *)
Definition captureValue (g : string * string) : Q := decimalValue (fst g) (snd g).

Definition isZero (q : Q) : bool := Qeq_bool q 0.

(** The amount a match contributes: the value of its capture, or nothing. *)
Definition amountOf (m : option (string * string)) : Q :=
  match m with
  | Some g => captureValue g
  | None => 0
  end.

Definition parseDuration (duration : string) : Q :=
  match duration with
  | EmptyString => 0
  | _ =>
      let d := trim (toLowerCase duration) in
      let hours := 0%Q in
      let hourMatch := regexMatch "h" d in
      let minMatch := regexMatch "m" d in
      let hours := match hourMatch with
                   | Some g => (hours + captureValue g)%Q
                   | None => hours
                   end in
      let hours := match minMatch with
                   | Some g => (hours + captureValue g / 60)%Q
                   | None => hours
                   end in
      let hours := match isZero hours, parseFloat d with
                   | true, Some v => v
                   | _, _ => hours
                   end in
      let hours := if isZero hours then 1%Q else hours in
      hours
  end.

End Metrics.

(** ** The data model of [types.ts] (the fields the modelled code reads) *)
Module Types.

Inductive SkillCategory := Technical | Tools | Soft | Domain | SystemDesign.
Inductive SkillLevel := Beginner | Intermediate | Advanced | Expert.

Record Skill := {
  skill_name : string;
  skill_category : SkillCategory;
  skill_level : SkillLevel;
  skill_verified : option bool
}.

Record WorkExperience := {
  exp_id : string;
  exp_company : string;
  exp_role : string;
  exp_startDate : string;
  exp_endDate : string;
  exp_description : string;
  exp_skillsUsed : list string;
  exp_type : option string
}.

Record Education := {
  edu_id : string;
  edu_institution : string;
  edu_degree : string;
  edu_year : string
}.

Record Certification := {
  cert_id : string;
  cert_name : string;
  cert_issuer : string;
  cert_date : string
}.

Record Project := {
  proj_id : string;
  proj_name : string;
  proj_type : string;
  proj_description : string;
  proj_techStack : list string;
  proj_image : option string
}.

(** A profile as the pages receive it.  A field that is [null], [undefined]
    or not a string at run time is [None]. *)
Record UserProfile := {
  name : option string;
  role : option string;
  avatarUrl : option string;
  bio : option string;
  location : option string;
  targetRole : option string;
  joinedDate : string;
  skills : option (list Skill);
  experience : option (list WorkExperience);
  education : option (list Education);
  certifications : option (list Certification);
  projects : option (list Project)
}.

Inductive TaskType := Learning | Practice | Building | Reading.
Inductive TaskStatus := Todo | TaskInProgress | Done.
Inductive Difficulty := Easy | Medium | Hard.

Record Task := {
  task_id : string;
  task_title : string;
  task_type : TaskType;
  task_duration : string;
  task_status : TaskStatus;
  task_difficulty : Difficulty;
  task_description : string
}.

(** ['Completed' | 'In Progress' | 'Locked'] *)
Inductive RoadmapStatus := Completed | InProgress | Locked.

Record RoadmapItem := {
  item_title : string;
  item_status : RoadmapStatus;
  item_subtitle : option string;
  item_progress : option Z
}.

Record RoadmapPhase := {
  phase_id : string;
  phase_title : string;
  phase_status : RoadmapStatus;
  phase_duration : string;
  phase_items : list RoadmapItem
}.

End Types.

(** ** MetricsEngine, continued: profile strength and the trend series *)
Module Dashboard.
Import JsString Types.

Definition requiredFields : list string :=
  ["name"; "role"; "location"; "bio"; "targetRole"].

(** [user[field]] for the keys of [requiredFields], when it is a string. *)
Definition stringField (user : UserProfile) (field : string) : option string :=
  if String.eqb field "name" then name user
  else if String.eqb field "role" then role user
  else if String.eqb field "location" then location user
  else if String.eqb field "bio" then bio user
  else if String.eqb field "targetRole" then targetRole user
  else None.

Definition strlen (s : string) : Z := Z.of_nat (String.length s).

(** [xs?.length] compared with [>=] or [>]: an absent array compares false. *)
Definition lengthAtLeast {A} (xs : option (list A)) (n : Z) : bool :=
  match xs with
  | Some l => (n <=? Z.of_nat (length l))%Z
  | None => false
  end.

Definition calculateProfileStrength (user : UserProfile) : Z :=
  let score := 0%Z in
  let score :=
    fold_left
      (fun score field =>
         match stringField user field with
         | Some val => if (2 <? strlen val)%Z then (score + 10)%Z else score
         | None => score
         end)
      requiredFields score in
  let score :=
    match avatarUrl user with
    | Some a => if (negb (String.eqb a "") && (50 <? strlen a)%Z)%bool
                then (score + 10)%Z else score
    | None => score
    end in
  let score :=
    if lengthAtLeast (skills user) 3 then (score + 15)%Z
    else if lengthAtLeast (skills user) 1 then (score + 5)%Z
    else score in
  let score := if lengthAtLeast (experience user) 1 then (score + 15)%Z else score in
  let score := if lengthAtLeast (education user) 1 then (score + 5)%Z else score in
  let score := if lengthAtLeast (projects user) 1 then (score + 5)%Z else score in
  Z.min 100 score.

(** *** The score as the specification words it (section 4.1) *)

(** "Populated": a string of length greater than 2. *)
Definition populated (f : option string) : bool :=
  match f with
  | Some s => (2 <? strlen s)%Z
  | None => false
  end.

Definition points (w : Z) (b : bool) : Z := if b then w else 0%Z.

Definition count {A} (xs : option (list A)) : Z :=
  match xs with
  | Some l => Z.of_nat (length l)
  | None => 0%Z
  end.

Definition spec_weights (user : UserProfile) : Z :=
  (points 10 (populated (name user))
   + points 10 (populated (role user))
   + points 10 (populated (location user))
   + points 10 (populated (bio user))
   + points 10 (populated (targetRole user))
   + points 10 (match avatarUrl user with
                | Some a => 50 <? strlen a
                | None => false
                end)
   + (if 3 <=? count (skills user) then 15
      else if 1 <=? count (skills user) then 5 else 0)
   + points 15 (1 <=? count (experience user))
   + points 5 (1 <=? count (education user))
   + points 5 (1 <=? count (projects user)))%Z.

Definition spec_profileStrength (user : UserProfile) : Z :=
  Z.min 100 (spec_weights user).

(** *** Dates: the local calendar fields [generateTrendChart] reads *)

Record Date := { year : Z; month : Z; day : Z }.   (* month is 0-based *)

Definition isLeap (y : Z) : bool :=
  (((y mod 4 =? 0) && negb (y mod 100 =? 0)) || (y mod 400 =? 0))%Z.

Definition daysInMonth (y m : Z) : Z :=
  if (m =? 1)%Z then (if isLeap y then 29 else 28)%Z
  else if ((m =? 3) || (m =? 5) || (m =? 8) || (m =? 10))%Z then 30%Z
  else 31%Z.

(** [d.setMonth(m)]: the month may lie outside 0..11 and carries into the
    year; a day the target month does not have runs over into the next. *)
Definition setMonth (d : Date) (m : Z) : Date :=
  let y' := (year d + m / 12)%Z in
  let m' := (m mod 12)%Z in
  let dim := daysInMonth y' m' in
  if (day d <=? dim)%Z then {| year := y'; month := m'; day := day d |}
  else {| year := y'; month := (m' + 1)%Z; day := (day d - dim)%Z |}.

Definition monthShort (m : Z) : string :=
  nth (Z.to_nat m)
    ["Jan"; "Feb"; "Mar"; "Apr"; "May"; "Jun";
     "Jul"; "Aug"; "Sep"; "Oct"; "Nov"; "Dec"] "".

Record ChartPoint := { point_name : string; point_score : Z }.

(** [Math.round] *)
Definition round (x : Q) : Z := Qfloor (x + (1 # 2)).

Section TrendChart.

(** [new Date(text)]: the platform's date parser; [None] is an Invalid Date. *)
Variable Date_parse : string -> option Date.
(** The clock, read by [new Date()]. *)
Variable now : Date.
(** The successive results of [Math.random()]. *)
Variable random : nat -> Q.

Definition parseJoined (joinedDateStr : string) : Date :=
  match Date_parse joinedDateStr with
  | Some joined => joined
  | None =>
      match Date_parse ("1 " ++ joinedDateStr) with
      | Some joined => joined
      | None => setMonth now (month now - 6)
      end
  end.

Definition monthsDiff (joined : Date) : Z :=
  ((year now - year joined) * 12 + (month now - month joined))%Z.

Definition pointsToGenerate (joined : Date) : Z :=
  Z.max 3 (Z.min 12 (monthsDiff joined + 1)).

(** The body of the [for] loop at index [i]; [calls] counts the draws made
    from [Math.random] so far. *)
Definition chartStep (joined : Date) (n : Z) (currentScore : Q)
    (i : Z) (calls : nat) : ChartPoint * nat :=
  let progress := (inject_Z i / inject_Z (n - 1))%Q in
  let d := setMonth joined (month joined + i) in
  let monthLabel := monthShort (month d) in
  let startScore := 10%Q in
  let calculated := (startScore + (currentScore - startScore) * progress)%Q in
  let '(calculated, calls) :=
    if ((i <? n - 1) && (0 <? i))%Z
    then ((calculated + (random calls * 10 - 5))%Q, S calls)
    else (calculated, calls) in
  ({| point_name := monthLabel; point_score := Z.max 0 (round calculated) |}, calls).

(** [for (let i = ...; i < pointsToGenerate; i++) data.push(...)], with
    [todo] iterations left. *)
Fixpoint chartLoop (joined : Date) (n : Z) (currentScore : Q)
    (todo : nat) (i : Z) (calls : nat) (data : list ChartPoint) : list ChartPoint :=
  match todo with
  | O => data
  | S todo' =>
      let '(pt, calls') := chartStep joined n currentScore i calls in
      chartLoop joined n currentScore todo' (i + 1)%Z calls' (data ++ [pt])%list
  end.

(** The point the loop pushes at index [i]: before it, every interior index
    below [i] has drawn once from [Math.random]. *)
Definition pointAt (joined : Date) (n : Z) (currentScore : Q) (i : Z) : ChartPoint :=
  fst (chartStep joined n currentScore i (Z.to_nat (i - 1))).

Definition generateTrendChart (joinedDateStr : string) (currentScore : Q) : list ChartPoint :=
  let joined := parseJoined joinedDateStr in
  let n := pointsToGenerate joined in
  chartLoop joined n currentScore (Z.to_nat n) 0%Z O [].

End TrendChart.

(** Profiles and a clock for the examples. *)
Definition emptyProfile : UserProfile :=
  {| name := Some ""; role := Some ""; avatarUrl := None; bio := Some "";
     location := Some ""; targetRole := Some ""; joinedDate := "";
     skills := Some []; experience := Some []; education := Some [];
     certifications := Some []; projects := Some [] |}.

Definition fullProfile : UserProfile :=
  {| name := Some "Alex Mercer"; role := Some "Senior Product Designer";
     avatarUrl := Some "https://images.example.com/avatars/alex-mercer-512x512.png";
     bio := Some "Designs accessible products.";
     location := Some "San Francisco, CA"; targetRole := Some "Staff Product Designer";
     joinedDate := "March 2023";
     skills := Some [ {| skill_name := "UI Design"; skill_category := Domain;
                         skill_level := Expert; skill_verified := Some true |};
                      {| skill_name := "Figma"; skill_category := Tools;
                         skill_level := Expert; skill_verified := Some true |};
                      {| skill_name := "React"; skill_category := Technical;
                         skill_level := Intermediate; skill_verified := None |} ];
     experience := Some [ {| exp_id := "1"; exp_company := "TechFlow Inc.";
                             exp_role := "Senior Product Designer";
                             exp_startDate := "2021"; exp_endDate := "Present";
                             exp_description := "Redesigned the core platform.";
                             exp_skillsUsed := ["Figma"; "React"];
                             exp_type := Some "Full-time" |} ];
     education := Some [ {| edu_id := "1";
                            edu_institution := "California College of the Arts";
                            edu_degree := "BA Interaction Design";
                            edu_year := "2014 - 2018" |} ];
     certifications := Some [];
     projects := Some [ {| proj_id := "1"; proj_name := "FinTech Dashboard";
                           proj_type := "Professional";
                           proj_description := "Financial analytics tool.";
                           proj_techStack := ["Figma"; "React"];
                           proj_image := None |} ] |}.

(** A date parser that knows one text, and a clock. *)
Definition sampleParse (text : string) : option Date :=
  if String.eqb text "1 March 2023"
  then Some {| year := 2023; month := 2; day := 1 |} else None.

Definition sampleNow : Date := {| year := 2023; month := 7; day := 31 |}.

End Dashboard.

(** ** TaskStore: the status toggle of [TaskContext] *)
Module TaskStore.
Import Types.

Definition setStatus (t : Task) (s : TaskStatus) : Task :=
  {| task_id := task_id t; task_title := task_title t; task_type := task_type t;
     task_duration := task_duration t; task_status := s;
     task_difficulty := task_difficulty t; task_description := task_description t |}.

Definition isDone (s : TaskStatus) : bool :=
  match s with Done => true | _ => false end.

(** The optimistic update of [toggleTaskStatus]: the new task list. *)
Definition toggleTaskStatus (tasks : list Task) (taskId : string) : list Task :=
  map (fun t =>
         if String.eqb (task_id t) taskId
         then setStatus t (if isDone (task_status t) then Todo else Done)
         else t)
      tasks.

(** A task for the examples. *)
Definition sampleTask (st : TaskStatus) : Task :=
  {| task_id := "t1"; task_title := "Read the React docs"; task_type := Reading;
     task_duration := "2 hours"; task_status := st; task_difficulty := Easy;
     task_description := "" |}.

End TaskStore.

(** ** RoadmapReconciler: step 3 of [fetchData] on the analysis page *)
Module Roadmap.
Import JsString Types.

(** A phase as it arrives from [JSON.parse(...) as RoadmapPhase[]]: the cast
    checks nothing, so the [items] property may be absent.  The module
    [Reconcile] below has the same step on arbitrary parsed values. *)
Record Phase := {
  title : string;
  status : RoadmapStatus;
  duration : string;
  items : option (list RoadmapItem)
}.

Definition received (p : RoadmapPhase) : Phase :=
  {| title := phase_title p; status := phase_status p;
     duration := phase_duration p; items := Some (phase_items p) |}.

Record Entry := {
  item : RoadmapItem;
  phaseTitle : string;
  phaseDuration : string
}.

Record ActionItem := {
  action_id : Z;
  action_title : string;
  action_duration : string;
  action_tag : string;
  action_type : string
}.

Definition isCompleted (s : RoadmapStatus) : bool :=
  match s with Completed => true | _ => false end.

(** [phase.status === 'In Progress' || ... === 'Locked' || ... === 'Completed'] *)
Definition statusGuard (s : RoadmapStatus) : bool :=
  match s with
  | InProgress => true
  | Locked => true
  | Completed => true
  end.

(** [phase.items.forEach(cb)]: reading [forEach] off an absent array throws. *)
Definition forEachItem (phase : Phase)
    (cb : RoadmapItem -> list Entry -> list Entry) (allItems : list Entry)
    : result (list Entry) :=
  match items phase with
  | None => Throw "TypeError: Cannot read properties of undefined (reading 'forEach')"
  | Some its => Ok (fold_left (fun acc it => cb it acc) its allItems)
  end.

Definition pushEntry (phase : Phase) (it : RoadmapItem) (allItems : list Entry) : list Entry :=
  (allItems ++ [{| item := it; phaseTitle := title phase; phaseDuration := duration phase |}])%list.

(** [roadmapResult.forEach(phase => ...)] *)
Fixpoint collectActive (phases : list Phase) (allItems : list Entry) : result (list Entry) :=
  match phases with
  | [] => Ok allItems
  | phase :: rest =>
      if statusGuard (status phase) then
        allItems' ← forEachItem phase
                       (fun it acc =>
                          if negb (isCompleted (item_status it))
                          then pushEntry phase it acc else acc)
                       allItems;
        collectActive rest allItems'
      else collectActive rest allItems
  end.

Definition classify (itemTitle : string) : string :=
  let lowerTitle := toLowerCase itemTitle in
  if (includes "project" lowerTitle || includes "build" lowerTitle)%bool then "project"
  else if (includes "mentor" lowerTitle || includes "review" lowerTitle
           || includes "interview" lowerTitle)%bool then "mentor"
  else "course".

(** [entry.item.subtitle || entry.phaseDuration] *)
Definition orElse (a : option string) (b : string) : string :=
  match a with
  | Some (String c r) => String c r
  | _ => b
  end.

Definition toAction (entry : Entry) (idx : Z) : ActionItem :=
  {| action_id := idx;
     action_title := item_title (item entry);
     action_duration := orElse (item_subtitle (item entry)) (phaseDuration entry);
     action_tag := if (idx =? 0)%Z then "High Impact" else "";
     action_type := classify (item_title (item entry)) |}.

(** [xs.map((entry, idx) => f(entry, idx))], from index [idx]. *)
Fixpoint mapIndexed {A B} (f : A -> Z -> B) (idx : Z) (xs : list A) : list B :=
  match xs with
  | [] => []
  | x :: r => f x idx :: mapIndexed f (idx + 1)%Z r
  end.

Definition fallbackAction : ActionItem :=
  {| action_id := 1; action_title := "Start Foundation Phase";
     action_duration := "4 Weeks"; action_tag := "High Impact";
     action_type := "course" |}.

(** The body of the [try] block from "3. Process Roadmap" on: the value
    handed to [setRecommendedActions], or the exception the [catch] gets. *)
Definition recommendedActions (roadmapResult : list Phase) : result (list ActionItem) :=
  allItems ← collectActive roadmapResult [];
  allItems ←
    match allItems, roadmapResult with
    | [], first :: _ => forEachItem first (fun it acc => pushEntry first it acc) allItems
    | _, _ => Ok allItems
    end;
  let topItems := firstn 3 allItems in
  let actions := mapIndexed toAction 0%Z topItems in
  let actions := match actions with
                 | [] => (actions ++ [fallbackAction])%list
                 | _ => actions
                 end in
  Ok actions.

(** *** The algorithm of the specification (section 4.2), in its words *)

Definition entryOf (p : RoadmapPhase) (it : RoadmapItem) : Entry :=
  {| item := it; phaseTitle := phase_title p; phaseDuration := phase_duration p |}.

(** Steps 1 and 2. *)
Definition spec_candidates (roadmap : list RoadmapPhase) : list Entry :=
  let open :=
    flat_map (fun p => List.map (entryOf p)
                         (List.filter (fun it => negb (isCompleted (item_status it)))
                                      (phase_items p)))
             roadmap in
  match open, roadmap with
  | [], first :: _ => List.map (entryOf first) (phase_items first)
  | _, _ => open
  end.

(** Steps 3 to 7: at most three entries; the first tagged, the others not;
    the foundation action when nothing is left. *)
Definition spec_actions (roadmap : list RoadmapPhase) : list ActionItem :=
  match firstn 3 (spec_candidates roadmap) with
  | [] => [fallbackAction]
  | e0 :: others =>
      {| action_id := 0; action_title := item_title (item e0);
         action_duration := orElse (item_subtitle (item e0)) (phaseDuration e0);
         action_tag := "High Impact";
         action_type := classify (item_title (item e0)) |}
      :: List.map (fun '(i, e) =>
                     {| action_id := Z.of_nat (S i);
                        action_title := item_title (item e);
                        action_duration := orElse (item_subtitle (item e)) (phaseDuration e);
                        action_tag := "";
                        action_type := classify (item_title (item e)) |})
                  (combine (seq 0 (length others)) others)
  end.

(** Roadmaps for the examples. *)
Definition sampleRoadmap : list RoadmapPhase :=
  [ {| phase_id := "p1"; phase_title := "Foundation"; phase_status := Completed;
       phase_duration := "4 Weeks";
       phase_items := [ {| item_title := "HTML and CSS"; item_status := Completed;
                           item_subtitle := None; item_progress := Some 100%Z |} ] |};
    {| phase_id := "p2"; phase_title := "Core Tech"; phase_status := InProgress;
       phase_duration := "6 Weeks";
       phase_items := [ {| item_title := "Advanced React patterns";
                           item_status := InProgress;
                           item_subtitle := Some "2 Weeks"; item_progress := Some 40%Z |};
                        {| item_title := "Build a dashboard project";
                           item_status := Locked;
                           item_subtitle := None; item_progress := None |};
                        {| item_title := "Mock interview with a mentor";
                           item_status := Locked;
                           item_subtitle := Some ""; item_progress := None |};
                        {| item_title := "System design basics";
                           item_status := Locked;
                           item_subtitle := None; item_progress := None |} ] |} ].

End Roadmap.

(** ** JSON values, [JSON.parse] and the property reads made on them *)
Module Json.
Import JsString.

#[local] Unset Elimination Schemes.
Inductive json : Type :=
| JNull
| JBool (b : bool)
| JNum (q : Q)
| JStr (s : string)
| JArr (elems : list json)
| JObj (fields : list (string * json)).
#[local] Set Elimination Schemes.

(** A JavaScript value that came out of [JSON.parse], or [undefined]. *)
Abbreviation jsval := (option json).

(** The own property [k] of a parsed object: a later duplicate key wins. *)
Fixpoint lookupField (k : string) (fields : list (string * json)) : option json :=
  match fields with
  | [] => None
  | (k', v) :: rest =>
      match lookupField k rest with
      | Some w => Some w
      | None => if String.eqb k k' then Some v else None
      end
  end.

(** ToBoolean *)
Definition truthy (v : jsval) : bool :=
  match v with
  | None => false
  | Some JNull => false
  | Some (JBool b) => b
  | Some (JNum q) => negb (Qeq_bool q 0)
  | Some (JStr s) => negb (String.eqb s "")
  | Some (JArr _) => true
  | Some (JObj _) => true
  end.

(** [v.k] and [v[0]] for the keys the pages read off parsed values:
    [status], [title], [duration], [items], [subtitle], [criticalGaps],
    [name], [length] and [0].  Only [length] and [0] exist on arrays and
    strings; none of the keys is inherited by a plain object. *)
Definition getProp (v : jsval) (k : string) : result jsval :=
  match v with
  | None => Throw "TypeError: Cannot read properties of undefined"
  | Some JNull => Throw "TypeError: Cannot read properties of null"
  | Some (JObj fields) => Ok (lookupField k fields)
  | Some (JArr elems) =>
      if String.eqb k "length" then Ok (Some (JNum (inject_Z (Z.of_nat (length elems)))))
      else if String.eqb k "0" then Ok (head elems)
      else Ok None
  | Some (JStr s) =>
      if String.eqb k "length" then Ok (Some (JNum (inject_Z (Z.of_nat (String.length s)))))
      else if String.eqb k "0" then
        Ok (match s with
            | String c _ => Some (JStr (String c EmptyString))
            | EmptyString => None
            end)
      else Ok None
  | Some (JBool _) => Ok None
  | Some (JNum _) => Ok None
  end.

(** [v === text] *)
Definition strictEqStr (v : jsval) (text : string) : bool :=
  match v with
  | Some (JStr s) => String.eqb s text
  | _ => false
  end.

(** [arr.find(cb)] on a parsed (dense) array. *)
Fixpoint arrayFind (cb : json -> result bool) (elems : list json) : result jsval :=
  match elems with
  | [] => Ok None
  | x :: rest =>
      hit ← cb x;
      if hit : bool then Ok (Some x) else arrayFind cb rest
  end.

(** [v.find(cb)]: only an array has the method. *)
Definition find (v : json) (cb : json -> result bool) : result jsval :=
  match v with
  | JArr elems => arrayFind cb elems
  | JNull => Throw "TypeError: Cannot read properties of null"
  | _ => Throw "TypeError: find is not a function"
  end.

(** *** A reader for JSON texts

    Used to exhibit concrete cache contents.  The resolver itself is stated
    over an arbitrary [JSON.parse].  Escapes [\uXXXX] above [ÿ] have no
    code unit in [string] and are refused. *)

Definition isJsonSpace (c : ascii) : bool :=
  ((code c =? 32) || (code c =? 9) || (code c =? 10) || (code c =? 13))%N.

Fixpoint skipSpace (s : string) : string :=
  match s with
  | String c r => if isJsonSpace c then skipSpace r else s
  | EmptyString => EmptyString
  end.

Definition hexVal (c : ascii) : option N :=
  let n := code c in
  if ((48 <=? n) && (n <=? 57))%N then Some (n - 48)%N
  else if ((97 <=? n) && (n <=? 102))%N then Some (n - 87)%N
  else if ((65 <=? n) && (n <=? 70))%N then Some (n - 55)%N
  else None.

(** The characters of a string literal after its opening quote. *)
Fixpoint readString (s : string) : option (string * string) :=
  match s with
  | EmptyString => None
  | String c r =>
      if Ascii.eqb c quoteChar then Some (EmptyString, r)
      else if Ascii.eqb c "\" then
        match r with
        | String e r' =>
            let plain (x : ascii) :=
              match readString r' with
              | Some (t, rest) => Some (String x t, rest)
              | None => None
              end in
            if Ascii.eqb e quoteChar then plain quoteChar
            else if Ascii.eqb e "\" then plain "\"%char
            else if Ascii.eqb e "/" then plain "/"%char
            else if Ascii.eqb e "b" then plain (ascii_of_N 8)
            else if Ascii.eqb e "f" then plain (ascii_of_N 12)
            else if Ascii.eqb e "n" then plain (ascii_of_N 10)
            else if Ascii.eqb e "r" then plain (ascii_of_N 13)
            else if Ascii.eqb e "t" then plain (ascii_of_N 9)
            else if Ascii.eqb e "u" then
              match r' with
              | String h1 (String h2 (String h3 (String h4 r''))) =>
                  match hexVal h1, hexVal h2, hexVal h3, hexVal h4 with
                  | Some 0%N, Some 0%N, Some a, Some b =>
                      match readString r'' with
                      | Some (t, rest) => Some (String (ascii_of_N (16 * a + b)) t, rest)
                      | None => None
                      end
                  | _, _, _, _ => None
                  end
              | _ => None
              end
            else None
        | EmptyString => None
        end
      else if (code c <? 32)%N then None
      else match readString r with
           | Some (t, rest) => Some (String c t, rest)
           | None => None
           end
  end.

(** A number literal: [-? int frac? exp?], no leading zero. *)
Definition readNumber (s : string) : option (Q * string) :=
  let '(neg, s1) := match s with
                    | String "-" r => (true, r)
                    | _ => (false, s)
                    end in
  let '(ip, r1) := spanDigits s1 in
  match ip with
  | EmptyString => None
  | String "0" (String _ _) => None
  | _ =>
      let frac :=
        match r1 with
        | String "." t =>
            let '(fp, r2) := spanDigits t in
            match fp with
            | EmptyString => None
            | _ => Some (fp, r2)
            end
        | _ => Some (EmptyString, r1)
        end in
      match frac with
      | None => None
      | Some (fp, r2) =>
          let expo :=
            match r2 with
            | String e t =>
                if (Ascii.eqb e "e" || Ascii.eqb e "E")%bool then
                  let '(eneg, t') := match t with
                                     | String "+" u => (false, u)
                                     | String "-" u => (true, u)
                                     | _ => (false, t)
                                     end in
                  let '(es, r3) := spanDigits t' in
                  match es with
                  | EmptyString => None
                  | _ => Some ((if eneg then - digitsValue es else digitsValue es)%Z, r3)
                  end
                else Some (0%Z, r2)
            | EmptyString => Some (0%Z, r2)
            end in
          match expo with
          | None => None
          | Some (ex, r3) =>
              let v := (decimalValue ip fp * Qpower (inject_Z 10) ex)%Q in
              Some (Qred (if neg then (- v)%Q else v), r3)
          end
      end
  end.

Fixpoint readValue (fuel : nat) (s : string) {struct fuel} : option (json * string) :=
  match fuel with
  | O => None
  | S fuel' =>
      match skipSpace s with
      | EmptyString => None
      | String c r =>
          if Ascii.eqb c "n" then
            match stripPrefix "ull" r with Some t => Some (JNull, t) | None => None end
          else if Ascii.eqb c "t" then
            match stripPrefix "rue" r with Some t => Some (JBool true, t) | None => None end
          else if Ascii.eqb c "f" then
            match stripPrefix "alse" r with Some t => Some (JBool false, t) | None => None end
          else if Ascii.eqb c quoteChar then
            match readString r with Some (t, rest) => Some (JStr t, rest) | None => None end
          else if Ascii.eqb c "[" then
            match skipSpace r with
            | String "]" rest => Some (JArr [], rest)
            | _ => match readElements fuel' r with
                   | Some (elems, rest) => Some (JArr elems, rest)
                   | None => None
                   end
            end
          else if Ascii.eqb c "{" then
            match skipSpace r with
            | String "}" rest => Some (JObj [], rest)
            | _ => match readMembers fuel' r with
                   | Some (fields, rest) => Some (JObj fields, rest)
                   | None => None
                   end
            end
          else
            match readNumber (String c r) with
            | Some (q, rest) => Some (JNum q, rest)
            | None => None
            end
      end
  end
with readElements (fuel : nat) (s : string) {struct fuel} : option (list json * string) :=
  match fuel with
  | O => None
  | S fuel' =>
      match readValue fuel' s with
      | None => None
      | Some (v, r) =>
          match skipSpace r with
          | String "]" rest => Some ([v], rest)
          | String "," rest =>
              match readElements fuel' rest with
              | Some (vs, rest') => Some (v :: vs, rest')
              | None => None
              end
          | _ => None
          end
      end
  end
with readMembers (fuel : nat) (s : string) {struct fuel} : option (list (string * json) * string) :=
  match fuel with
  | O => None
  | S fuel' =>
      match skipSpace s with
      | String q r =>
          match (if Ascii.eqb q quoteChar then readString r else None) with
          | None => None
          | Some (k, r1) =>
              match skipSpace r1 with
              | String ":" r2 =>
                  match readValue fuel' r2 with
                  | None => None
                  | Some (v, r3) =>
                      match skipSpace r3 with
                      | String "}" rest => Some ([(k, v)], rest)
                      | String "," rest =>
                          match readMembers fuel' rest with
                          | Some (fs, rest') => Some ((k, v) :: fs, rest')
                          | None => None
                          end
                      | _ => None
                      end
                  end
              | _ => None
              end
          end
      | _ => None
      end
  end.

(** The whole text must be one value; [None] is a [SyntaxError]. *)
Definition readJson (text : string) : option json :=
  match readValue (2 * String.length text + 2) text with
  | Some (v, rest) =>
      match skipSpace rest with
      | EmptyString => Some v
      | _ => None
      end
  | None => None
  end.

End Json.

(** ** FocusResolver: [getSmartFocusArea] of the tasks page *)
Module FocusResolver.
Import JsString Json.

Section Resolver.

(** [JSON.parse]; [None] is the [SyntaxError] it throws. *)
Variable JSON_parse : string -> option json.
(** String conversion inside the template literal, for the values whose
    conversion the embedding leaves to the platform (numbers, arrays,
    objects); it may throw. *)
Variable ToString_other : json -> result string.
(** [w > 0] for the values whose numeric conversion is left to the platform
    (strings, arrays, objects); it may throw. *)
Variable gtZero_other : json -> result bool.

(** [`${v}`] *)
Definition toTemplateString (v : jsval) : result string :=
  match v with
  | None => Ok "undefined"
  | Some JNull => Ok "null"
  | Some (JBool true) => Ok "true"
  | Some (JBool false) => Ok "false"
  | Some (JStr s) => Ok s
  | Some other => ToString_other other
  end.

(** [w > 0] *)
Definition gtZero (w : jsval) : result bool :=
  match w with
  | None => Ok false
  | Some JNull => Ok false
  | Some (JBool b) => Ok b
  | Some (JNum q) => Ok (if Qlt_le_dec 0 q then true else false)
  | Some other => gtZero_other other
  end.

(** [p => p.status === 'In Progress'] *)
Definition isActive (p : json) : result bool :=
  st ← getProp (Some p) "status";
  Ok (strictEqStr st "In Progress").

(** The first [try] block: [Some v] when it executes [return v]. *)
Definition roadmapRule (cachedRoadmap : string) : result (option jsval) :=
  match JSON_parse cachedRoadmap with
  | None => Throw "SyntaxError"
  | Some roadmap =>
      activePhase ← find roadmap isActive;
      if truthy activePhase
      then t ← getProp activePhase "title"; Ok (Some t)
      else Ok None
  end.

(** The second [try] block. *)
Definition analysisRule (cachedAnalysis : string) : result (option jsval) :=
  match JSON_parse cachedAnalysis with
  | None => Throw "SyntaxError"
  | Some analysis =>
      gaps ← getProp (Some analysis) "criticalGaps";
      if truthy gaps then
        len ← getProp gaps "length";
        positive ← gtZero len;
        if positive : bool then
          gap ← getProp gaps "0";
          gapName ← getProp gap "name";
          text ← toTemplateString gapName;
          Ok (Some (Some (JStr ("Closing Skill Gap: " ++ text))))
        else Ok None
      else Ok None
  end.

(** [if (cached) { try { rule } catch (e) { console.error(...) } }]:
    [localStorage.getItem] gives [null] for a missing key, and the empty
    text is falsy too. *)
Definition guarded (cached : option string) (rule : string -> result (option jsval))
    : option jsval :=
  match cached with
  | None => None
  | Some EmptyString => None
  | Some text => tryCatch (rule text) (fun _ => None)
  end.

Definition roadmapKey (email role targetRole : string) : string :=
  "careerpilot_roadmap_v2_" ++ email ++ "_" ++ role ++ "_" ++ targetRole.

Definition analysisKey (email role targetRole : string) : string :=
  "careerpilot_analysis_v2_" ++ email ++ "_" ++ role ++ "_" ++ targetRole.

Definition fallbackFocus : string := "Core Competencies & Growth".

(** [email], [role] and [targetRole] are the texts the key templates render
    for [user.email], [user.role] and [user.targetRole]. *)
Definition getSmartFocusArea (localStorage : gmap string string)
    (email role targetRole : string) : jsval :=
  let cachedRoadmap := localStorage !! roadmapKey email role targetRole in
  match guarded cachedRoadmap roadmapRule with
  | Some v => v
  | None =>
      let cachedAnalysis := localStorage !! analysisKey email role targetRole in
      match guarded cachedAnalysis analysisRule with
      | Some v => v
      | None => Some (JStr fallbackFocus)
      end
  end.

(** *** The cache states the rules distinguish *)

(** [p] is an object whose [status] is the text "In Progress". *)
Definition inProgress (p : json) : bool :=
  match p with
  | JObj fields => strictEqStr (lookupField "status" fields) "In Progress"
  | _ => false
  end.

(** The phase the first rule settles on, read off the parsed array: the
    first object whose [status] is "In Progress".  Elements that are not
    objects carry no [status] and are passed over, except [null]: reading
    [status] off it throws, which ends the scan without a phase. *)
Fixpoint firstActive (elems : list json) : option (list (string * json)) :=
  match elems with
  | [] => None
  | JNull :: _ => None
  | JObj fields :: rest =>
      if strictEqStr (lookupField "status" fields) "In Progress"
      then Some fields
      else firstActive rest
  | _ :: rest => firstActive rest
  end.

(** The active phase of a cache entry: a missing, empty or unparseable
    entry has none, nor has one that does not hold an array. *)
Definition activePhaseOf (cached : option string) : option (list (string * json)) :=
  match cached with
  | None => None
  | Some EmptyString => None
  | Some raw =>
      match JSON_parse raw with
      | Some (JArr elems) => firstActive elems
      | _ => None
      end
  end.

(** What the second rule finds: no gap, or a first gap and the value of its
    [name] ([undefined] when it has none). *)
Inductive GapOutcome :=
| NoGap
| FirstGap (name : jsval).

(** The [name] of the first gap: none can be read off a missing or [null]
    element; values that are not objects have no [name]. *)
Definition nameOf (gap : jsval) : GapOutcome :=
  match gap with
  | None => NoGap
  | Some JNull => NoGap
  | Some (JObj fields) => FirstGap (lookupField "name" fields)
  | Some _ => FirstGap None
  end.

(** The first gap of a [criticalGaps] value: the first element of a list
    that is not empty; the first character of a text that is not empty; for
    an object, its property [0] when its property [length] compares above
    0.  Every other value has none. *)
Definition gapOf (gaps : jsval) : GapOutcome :=
  match gaps with
  | Some (JArr (gap :: _)) => nameOf (Some gap)
  | Some (JStr (String _ _)) => FirstGap None
  | Some (JObj fields) =>
      match gtZero (lookupField "length" fields) with
      | Ok true => nameOf (lookupField "0" fields)
      | _ => NoGap
      end
  | _ => NoGap
  end.

(** The first gap of a cache entry: a missing, empty or unparseable entry
    has none, nor has one that does not hold an object. *)
Definition firstGap (cached : option string) : GapOutcome :=
  match cached with
  | None => NoGap
  | Some EmptyString => NoGap
  | Some raw =>
      match JSON_parse raw with
      | Some (JObj fields) => gapOf (lookupField "criticalGaps" fields)
      | _ => NoGap
      end
  end.

(** What the second rule returns for a first gap: the name is rendered as
    the template literal renders it, and a rendering that throws leaves the
    rule through its [catch]. *)
Definition gapFocus (g : GapOutcome) : option jsval :=
  match g with
  | NoGap => None
  | FirstGap name =>
      match toTemplateString name with
      | Ok text => Some (Some (JStr ("Closing Skill Gap: " ++ text)))
      | Throw _ => None
      end
  end.

End Resolver.

(** Cache contents for the examples. *)
Definition sampleRoadmapText : string :=
  "[{" ++ quote "status" ++ ":" ++ quote "Completed" ++ ","
       ++ quote "title" ++ ":" ++ quote "Foundation" ++ "},{"
       ++ quote "status" ++ ":" ++ quote "In Progress" ++ ","
       ++ quote "title" ++ ":" ++ quote "Core Tech" ++ "}]".

Definition sampleCache : gmap string string :=
  {[ roadmapKey "alex@example.com" "Designer" "Staff Designer" := sampleRoadmapText ]}.

Definition emptyTitleCache : gmap string string :=
  {[ roadmapKey "alex@example.com" "Designer" "Staff Designer" :=
       "[{" ++ quote "status" ++ ":" ++ quote "In Progress" ++ ","
            ++ quote "title" ++ ":" ++ quote EmptyString ++ "}]" ]}.

(** A roadmap entry whose array starts with [null], ahead of a phase In
    Progress, and an analysis entry whose first critical gap is [null]. *)
Definition nullFirstCache : gmap string string :=
  <[ roadmapKey "alex@example.com" "Designer" "Staff Designer" :=
       "[null,{" ++ quote "status" ++ ":" ++ quote "In Progress" ++ ","
                 ++ quote "title" ++ ":" ++ quote "Core Tech" ++ "}]" ]>
  {[ analysisKey "alex@example.com" "Designer" "Staff Designer" :=
       "{" ++ quote "criticalGaps" ++ ":[null]}" ]}.

(** No roadmap entry, and an analysis entry with two critical gaps. *)
Definition gapCache : gmap string string :=
  {[ analysisKey "alex@example.com" "Designer" "Staff Designer" :=
       "{" ++ quote "criticalGaps" ++ ":[{" ++ quote "name" ++ ":" ++ quote "GraphQL"
           ++ "},{" ++ quote "name" ++ ":" ++ quote "Docker" ++ "}]}" ]}.

End FocusResolver.

(** ** RoadmapReconciler on the value the roadmap text parses to

    [generateRoadmap] resolves to [JSON.parse(response.text || "[]") as
    RoadmapPhase[]].  The cast checks nothing: step 3 of [fetchData] runs on
    whatever value the text parsed to. *)
Module Reconcile.
Import JsString Json.

(** An element of [allItems]. *)
Record Entry := {
  item : json;
  phaseTitle : jsval;
  phaseDuration : jsval
}.

Record ActionItem := {
  action_id : Z;
  action_title : string;
  action_duration : jsval;
  action_tag : string;
  action_type : string
}.

(** The loop of [forEach] over the elements; the callback may throw. *)
Fixpoint forEachElem {S} (cb : json -> S -> result S) (elems : list json) (s : S)
    : result S :=
  match elems with
  | [] => Ok s
  | x :: rest => s' ← cb x s; forEachElem cb rest s'
  end.

(** [v.forEach(cb)]: only an array has the method. *)
Definition forEach {S} (v : jsval) (cb : json -> S -> result S) (s : S) : result S :=
  match v with
  | Some (JArr elems) => forEachElem cb elems s
  | None => Throw "TypeError: Cannot read properties of undefined (reading 'forEach')"
  | Some JNull => Throw "TypeError: Cannot read properties of null (reading 'forEach')"
  | Some _ => Throw "TypeError: forEach is not a function"
  end.

(** [status === 'In Progress' || status === 'Locked' || status === 'Completed'] *)
Definition statusGuard (st : jsval) : bool :=
  strictEqStr st "In Progress" || strictEqStr st "Locked" || strictEqStr st "Completed".

(** [allItems.push({ item, phaseTitle: phase.title, phaseDuration: phase.duration })] *)
Definition pushEntry (phase : json) (it : json) (allItems : list Entry)
    : result (list Entry) :=
  t ← getProp (Some phase) "title";
  d ← getProp (Some phase) "duration";
  Ok (allItems ++ [{| item := it; phaseTitle := t; phaseDuration := d |}])%list.

(** [item => { if (item.status !== 'Completed') allItems.push(...) }] *)
Definition visitItem (phase : json) (it : json) (allItems : list Entry)
    : result (list Entry) :=
  st ← getProp (Some it) "status";
  if negb (strictEqStr st "Completed") then pushEntry phase it allItems
  else Ok allItems.

(** [phase => { if (guard on phase.status) phase.items.forEach(...) }] *)
Definition visitPhase (phase : json) (allItems : list Entry) : result (list Entry) :=
  st ← getProp (Some phase) "status";
  if statusGuard st then
    its ← getProp (Some phase) "items";
    forEach its (visitItem phase) allItems
  else Ok allItems.

(** The callback of [topItems.map]: [toLowerCase] is a method of texts
    only. *)
Definition toAction (entry : Entry) (idx : Z) : result ActionItem :=
  t ← getProp (Some (item entry)) "title";
  match t with
  | Some (JStr itemTitle) =>
      subtitle ← getProp (Some (item entry)) "subtitle";
      Ok {| action_id := idx;
            action_title := itemTitle;
            action_duration := if truthy subtitle then subtitle else phaseDuration entry;
            action_tag := if (idx =? 0)%Z then "High Impact" else EmptyString;
            action_type := Roadmap.classify itemTitle |}
  | None => Throw "TypeError: Cannot read properties of undefined (reading 'toLowerCase')"
  | Some JNull => Throw "TypeError: Cannot read properties of null (reading 'toLowerCase')"
  | Some _ => Throw "TypeError: entry.item.title.toLowerCase is not a function"
  end.

(** [xs.map((entry, idx) => f(entry, idx))], from index [idx], with a
    callback that may throw. *)
Fixpoint mapIndexed {A B} (f : A -> Z -> result B) (idx : Z) (xs : list A)
    : result (list B) :=
  match xs with
  | [] => Ok []
  | x :: r =>
      y ← f x idx;
      ys ← mapIndexed f (idx + 1)%Z r;
      Ok (y :: ys)
  end.

Definition fallbackAction : ActionItem :=
  {| action_id := 1; action_title := "Start Foundation Phase";
     action_duration := Some (JStr "4 Weeks"); action_tag := "High Impact";
     action_type := "course" |}.

(** The body of the [try] block from "3. Process Roadmap" on: the value
    handed to [setRecommendedActions], or the exception the [catch] gets. *)
Definition recommendedActions (roadmapResult : json) : result (list ActionItem) :=
  allItems ← forEach (Some roadmapResult) visitPhase [];
  allItems ←
    match allItems, roadmapResult with
    | [], JArr (first :: _) =>
        its ← getProp (Some first) "items";
        forEach its (pushEntry first) allItems
    | _, _ => Ok allItems
    end;
  let topItems := firstn 3 allItems in
  actions ← mapIndexed toAction 0%Z topItems;
  let actions := match actions with
                 | [] => (actions ++ [fallbackAction])%list
                 | _ => actions
                 end in
  Ok actions.

(** *** The shapes the reconciliation distinguishes *)

(** The property [k] of an object; other values have none of the
    properties read here. *)
Definition field (k : string) (v : json) : jsval :=
  match v with
  | JObj fields => lookupField k fields
  | _ => None
  end.

Definition isObject (v : json) : bool :=
  match v with
  | JObj _ => true
  | _ => false
  end.

(** The [items] array of a phase object, if it has one. *)
Definition itemsOf (phase : json) : option (list json) :=
  match field "items" phase with
  | Some (JArr its) => Some its
  | _ => None
  end.

(** A phase object that carries an [items] array of objects. *)
Definition shaped (phase : json) : bool :=
  isObject phase &&
  match itemsOf phase with
  | Some its => forallb isObject its
  | None => false
  end.

(** An item with a text for [title]. *)
Definition titled (it : json) : bool :=
  match field "title" it with
  | Some (JStr _) => true
  | _ => false
  end.

(** An item whose [status] is not the text "Completed". *)
Definition isOpen (it : json) : bool :=
  negb (strictEqStr (field "status" it) "Completed").

Definition entryOf (phase it : json) : Entry :=
  {| item := it; phaseTitle := field "title" phase;
     phaseDuration := field "duration" phase |}.

(** The entries one phase contributes: its open items, when its status is
    one of the three. *)
Definition openEntries (p : json) : list Entry :=
  if statusGuard (field "status" p)
  then entryOf p <$> List.filter isOpen (default [] (itemsOf p))
  else [].

(** The entries step 3 works on: those of the phases, in phase order and
    then item order; when there is none, all items of the first phase. *)
Definition candidates (phases : list json) : list Entry :=
  let open := flat_map openEntries phases in
  match open, phases with
  | [], first :: _ => entryOf first <$> default [] (itemsOf first)
  | _, _ => open
  end.

(** [entry.item.subtitle || entry.phaseDuration] *)
Definition durationOf (e : Entry) : jsval :=
  if truthy (field "subtitle" (item e)) then field "subtitle" (item e)
  else phaseDuration e.

(** *** Well-typed roadmaps as parsed values

    The value a roadmap of the declared type is: every property the type
    requires is present, [subtitle] is present or not.  [progress] and
    [resources], which step 3 does not read, are left out. *)

Definition statusText (s : Types.RoadmapStatus) : string :=
  match s with
  | Types.Completed => "Completed"
  | Types.InProgress => "In Progress"
  | Types.Locked => "Locked"
  end.

Definition itemValue (it : Types.RoadmapItem) : json :=
  JObj (("title", JStr (Types.item_title it))
        :: ("status", JStr (statusText (Types.item_status it)))
        :: match Types.item_subtitle it with
           | Some s => [("subtitle", JStr s)]
           | None => []
           end).

Definition phaseValue (p : Types.RoadmapPhase) : json :=
  JObj [ ("id", JStr (Types.phase_id p)); ("title", JStr (Types.phase_title p));
         ("status", JStr (statusText (Types.phase_status p)));
         ("duration", JStr (Types.phase_duration p));
         ("items", JArr (itemValue <$> Types.phase_items p)) ].

Definition entryValue (e : Roadmap.Entry) : Entry :=
  {| item := itemValue (Roadmap.item e);
     phaseTitle := Some (JStr (Roadmap.phaseTitle e));
     phaseDuration := Some (JStr (Roadmap.phaseDuration e)) |}.

Definition actionValue (a : Roadmap.ActionItem) : ActionItem :=
  {| action_id := Roadmap.action_id a;
     action_title := Roadmap.action_title a;
     action_duration := Some (JStr (Roadmap.action_duration a));
     action_tag := Roadmap.action_tag a;
     action_type := Roadmap.action_type a |}.

(** Values for the examples: a phase In Progress whose second item has
    neither [subtitle] nor [status], and the same phase without [items]. *)
Definition sampleItems : json :=
  JArr [ JObj [("title", JStr "Advanced React patterns");
               ("status", JStr "In Progress"); ("subtitle", JStr "2 Weeks")];
         JObj [("title", JStr "Build a dashboard project")] ].

Definition sampleRoadmap : json :=
  JArr [ JObj [("title", JStr "Core Tech"); ("status", JStr "In Progress");
               ("duration", JStr "6 Weeks"); ("items", sampleItems)] ].

Definition missingItems : json :=
  JArr [ JObj [("title", JStr "Core Tech"); ("status", JStr "In Progress");
               ("duration", JStr "6 Weeks")] ].

(** A phase whose only item has no [title]. *)
Definition untitledItem : json :=
  JArr [ JObj [("title", JStr "Core Tech"); ("status", JStr "In Progress");
               ("duration", JStr "6 Weeks");
               ("items", JArr [JObj [("status", JStr "Locked")]])] ].

End Reconcile.

(** ** The mock persistence boundary: [MockBackend] of [services/api.ts] *)
Module MockBackend.
Import JsString Json.

(** An object in memory: a present property may hold [undefined]. *)
Abbreviation JsObject := (gmap string jsval).
(** An object as [JSON.stringify] writes it and [JSON.parse] reads it back. *)
Abbreviation JsonObject := (gmap string json).

(** [JSON.stringify] drops the properties that hold [undefined]. *)
Definition stringifyObject (o : JsObject) : JsonObject := omap id o.
Definition parseObject (o : JsonObject) : JsObject := Some <$> o.

(** The [careerpilot_v7_users_db] entry of [localStorage]. *)
Inductive UsersEntry :=
| NoEntry                                  (* no entry, or the empty text *)
| BadJson                                  (* a text [JSON.parse] rejects *)
| Entry (users : list JsonObject).         (* [Entry []] is the text [[]] *)

Definition str (s : string) : jsval := Some (JStr s).
Definition num (z : Z) : jsval := Some (JNum (inject_Z z)).
Definition strs (l : list string) : json := JArr (JStr <$> l).

Section Mock.

(** [DEFAULT_AVATAR] of [utils/constants]. *)
Variable DEFAULT_AVATAR : string.
(** [new Date().toLocaleDateString('en-US', {month: 'long', year: 'numeric'})] *)
Variable joinedNow : string.

Definition DEFAULT_USER_DATA : JsObject :=
  list_to_map [
    ("name", str "Alex Mercer");
    ("role", str "Senior Product Designer");
    ("location", str "San Francisco, CA");
    ("avatarUrl", str DEFAULT_AVATAR);
    ("bio", str "Passionate Senior Product Designer with over 7 years of experience building accessible, user-centric digital products. I specialize in design systems, prototyping, and user research.");
    ("email", str "alex@example.com");
    ("phone", str "+1 (555) 012-3456");
    ("joinedDate", str "March 2023");
    ("openToOpportunities", Some (JBool true));
    ("targetRole", str "Staff Product Designer");
    ("targetIndustry", str "SaaS / FinTech");
    ("timelineGoal", str "6 Months");
    ("readinessScore", num 85);
    ("profileStrength", num 85);
    ("level", str "Senior");
    ("resumeLastUpdated", str "Oct 24, 2023");
    ("insights", Some (JArr [
       JObj [("type", JStr "Success"); ("message", JStr ("Strong experience description in " ++ quote "TechFlow" ++ "."))];
       JObj [("type", JStr "Warning"); ("message", JStr ("Consider adding metric outcomes to your project "
                             ++ quote "EcoTrack" ++ "."))]]));
    ("skills", Some (JArr [
       JObj [("name", JStr "UI Design"); ("category", JStr "Domain"); ("level", JStr "Expert");
             ("verified", JBool true); ("source", JStr "Resume"); ("confidence", JNum 95)];
       JObj [("name", JStr "Figma"); ("category", JStr "Tools"); ("level", JStr "Expert");
             ("verified", JBool true); ("source", JStr "Project"); ("confidence", JNum 98)];
       JObj [("name", JStr "Prototyping"); ("category", JStr "Domain"); ("level", JStr "Expert");
             ("verified", JBool true); ("source", JStr "Resume"); ("confidence", JNum 90)];
       JObj [("name", JStr "React"); ("category", JStr "Technical"); ("level", JStr "Intermediate");
             ("verified", JBool false); ("source", JStr "Task"); ("confidence", JNum 65)]]));
    ("experience", Some (JArr [
       JObj [("id", JStr "1"); ("company", JStr "TechFlow Inc.");
             ("role", JStr "Senior Product Designer"); ("startDate", JStr "2021");
             ("endDate", JStr "Present"); ("type", JStr "Full-time");
             ("description", JStr "Spearheaded the redesign of the core SaaS platform.");
             ("skillsUsed", strs ["Figma"; "React"]);
             ("impactMetrics", strs ["25% increase in user retention"])]]));
    ("education", Some (JArr [
       JObj [("id", JStr "1"); ("institution", JStr "California College of the Arts");
             ("degree", JStr "BA Interaction Design"); ("year", JStr "2014 - 2018")]]));
    ("certifications", Some (JArr [
       JObj [("id", JStr "1"); ("name", JStr "Google UX Design");
             ("issuer", JStr "Google"); ("date", JStr "Jan 2023")]]));
    ("projects", Some (JArr [
       JObj [("id", JStr "1"); ("name", JStr "FinTech Dashboard"); ("type", JStr "Professional");
             ("description", JStr "Financial analytics tool.");
             ("techStack", strs ["Figma"; "React"]);
             ("image", JStr "https://picsum.photos/seed/fintech/400/200")]]));
    ("preferences", Some (JObj [
       ("weeklyHours", JNum 15); ("learningStyle", JStr "Visual");
       ("remotePreference", JStr "Hybrid"); ("targetLocations", strs ["San Francisco"]);
       ("salaryRange", JStr "$180k+"); ("availability", JStr "3-6 Months");
       ("companySize", JStr "Scale-up")]))
  ].

Definition EMPTY_USER_DATA : JsObject :=
  list_to_map [
    ("name", str ""); ("role", str ""); ("location", str "");
    ("avatarUrl", str DEFAULT_AVATAR);
    ("bio", str ""); ("email", str ""); ("phone", str ""); ("linkedinUrl", str "");
    ("joinedDate", str "");
    ("openToOpportunities", Some (JBool false));
    ("targetRole", str ""); ("targetIndustry", str "");
    ("targetCompanies", Some (JArr []));
    ("timelineGoal", None);
    ("readinessScore", num 0); ("level", str ""); ("profileStrength", num 0);
    ("insights", Some (JArr []));
    ("skills", Some (JArr [])); ("experience", Some (JArr []));
    ("education", Some (JArr [])); ("certifications", Some (JArr []));
    ("projects", Some (JArr []));
    ("preferences", Some (JObj [
       ("weeklyHours", JNum 0); ("learningStyle", JStr "Visual");
       ("remotePreference", JStr "Remote"); ("targetLocations", JArr []);
       ("salaryRange", JStr ""); ("availability", JStr "Immediate");
       ("companySize", JStr "Startup")]))
  ].

(** The two seeds of [getUsersDB]. *)
Definition seedFull : list JsObject :=
  [ <["password" := str "password"]> DEFAULT_USER_DATA;
    <["joinedDate" := str joinedNow]>
      (<["password" := str "password"]>
        (<["email" := str "umeshchapala@gmail.com"]>
          (<["name" := str "Umesh Chapala"]> EMPTY_USER_DATA))) ].

Definition seedDefault : list JsObject :=
  [ <["password" := str "password"]> DEFAULT_USER_DATA ].

Definition saveUsersDB (users : list JsObject) : UsersEntry :=
  Entry (stringifyObject <$> users).

(** [getUsersDB]: the array it returns and the entry it leaves behind. *)
Definition getUsersDB (entry : UsersEntry) : list JsObject * UsersEntry :=
  match entry with
  | NoEntry => (seedFull, saveUsersDB seedFull)
  | Entry [] => (seedFull, saveUsersDB seedFull)
  | BadJson => (seedDefault, saveUsersDB seedDefault)
  | Entry users => (parseObject <$> users, entry)
  end.

(** [u.email === email] *)
Definition hasEmail (email : string) (u : JsObject) : bool :=
  strictEqStr (u !!! "email") email.

Definition hasPassword (password : string) (u : JsObject) : bool :=
  strictEqStr (u !!! "password") password.

(** [const { password, ...profile } = user] *)
Definition withoutPassword (user : JsObject) : JsObject := delete "password" user.

Definition login (entry : UsersEntry) (email password : string)
    : result JsObject * UsersEntry :=
  let '(users, entry') := getUsersDB entry in
  match List.find (fun u => hasEmail email u && hasPassword password u) users with
  | Some user => (Ok (withoutPassword user), entry')
  | None => (Throw "Invalid credentials", entry')
  end.

Definition getUser (entry : UsersEntry) (email : option string)
    : JsObject * UsersEntry :=
  match email with
  | Some (String c r) =>
      let '(users, entry') := getUsersDB entry in
      match List.find (hasEmail (String c r)) users with
      | Some user => (withoutPassword user, entry')
      | None => (DEFAULT_USER_DATA, entry')
      end
  | _ => (DEFAULT_USER_DATA, entry)
  end.

(** [users.findIndex(cb)]; [None] is [-1]. *)
Fixpoint findIndex {A} (cb : A -> bool) (l : list A) : option nat :=
  match l with
  | [] => None
  | x :: r => if cb x then Some O else S <$> findIndex cb r
  end.

(** [{ ...a, ...b }]: the properties of [b] override those of [a]. *)
Definition spread (a b : JsObject) : JsObject := b ∪ a.

Definition updateUser (entry : UsersEntry) (email : string) (updates : JsObject)
    : JsObject * UsersEntry :=
  let '(users, entry') := getUsersDB entry in
  match findIndex (hasEmail email) users with
  | Some index =>
      match users !! index with
      | Some stored =>
          let updatedUser := spread stored updates in
          let users := <[index := updatedUser]> users in
          (withoutPassword updatedUser, saveUsersDB users)
      | None => (DEFAULT_USER_DATA, entry')
      end
  | None => (DEFAULT_USER_DATA, entry')
  end.

End Mock.

(** A stored user for the examples. *)
Definition sampleStoredUser : JsonObject :=
  {[ "email" := JStr "sam@example.com"; "password" := JStr "hunter2";
     "bio" := JStr "Old bio" ]}.

End MockBackend.

(** ** The backend: [PUT /api/user/:email] of the Express server *)
Module Server.
Import Types.

(** *** The relational schema (the [CREATE TABLE] statements) *)

Record UserRow := {
  u_id : Z;
  u_name : option string;
  u_email : string;
  u_password : string;
  u_role : option string;
  u_bio : option string;
  u_location : option string;
  u_avatar_url : option string;
  u_target_role : option string;
  u_joined_date : option string;
  u_open_to_opportunities : option bool;
  u_readiness_score : option Z;
  u_profile_strength : option Z
}.

Record SkillRow := {
  sk_id : Z; sk_user_id : Z;
  sk_name : string; sk_category : SkillCategory; sk_level : SkillLevel;
  sk_verified : bool
}.

Record ExperienceRow := {
  ex_id : Z; ex_user_id : Z;
  ex_company : string; ex_role : string; ex_start_date : string;
  ex_end_date : string; ex_description : string; ex_type : option string;
  ex_skills_used : string
}.

Record ProjectRow := {
  pr_id : Z; pr_user_id : Z;
  pr_name : string; pr_type : string; pr_description : string;
  pr_tech_stack : string; pr_image : string
}.

Record EducationRow := {
  ed_id : Z; ed_user_id : Z;
  ed_institution : string; ed_degree : string; ed_year : string
}.

Record CertificationRow := {
  ce_id : Z; ce_user_id : Z;
  ce_name : string; ce_issuer : string; ce_date : string
}.

Record Tables := {
  users : list UserRow;
  skills : list SkillRow;
  experience : list ExperienceRow;
  projects : list ProjectRow;
  education : list EducationRow;
  certifications : list CertificationRow
}.

(** The [AUTO_INCREMENT] counters.  They are not transactional: a rollback
    does not give back the identifiers it used. *)
Record Counters := {
  next_skill : Z;
  next_experience : Z;
  next_project : Z;
  next_education : Z;
  next_certification : Z
}.

(** A pooled connection: what is committed, the working copy of the open
    transaction if there is one, and the number of calls made on it. *)
Record Conn := {
  committed : Tables;
  pending : option Tables;
  counters : Counters;
  calls : nat
}.

(** The request body, a [Partial<UserProfile>]. *)
Record Updates := {
  up_name : option string;
  up_role : option string;
  up_bio : option string;
  up_location : option string;
  up_targetRole : option string;
  up_avatarUrl : option string;
  up_openToOpportunities : option bool;
  up_profileStrength : option Z;
  up_skills : option (list Skill);
  up_experience : option (list WorkExperience);
  up_projects : option (list Project);
  up_education : option (list Education);
  up_certifications : option (list Certification)
}.

(** What the handler does with the request: it sends one of its two JSON
    bodies, or its promise is rejected before it has sent anything.  What the
    framework does with such a rejection is not in this file. *)
Inductive Response :=
| Json200 (message : string)
| Json500 (error : string)
| NoResponse.

(** The [userFields] object: one column assignment per key. *)
Inductive Assignment :=
| SetName (v : string)
| SetRole (v : string)
| SetBio (v : string)
| SetLocation (v : string)
| SetTargetRole (v : string)
| SetAvatarUrl (v : string)
| SetOpenToOpportunities (v : bool)
| SetProfileStrength (v : Z).

Definition assign (r : UserRow) (a : Assignment) : UserRow :=
  let mk n ro b l t av o ps :=
    {| u_id := u_id r; u_name := n; u_email := u_email r; u_password := u_password r;
       u_role := ro; u_bio := b; u_location := l; u_avatar_url := av;
       u_target_role := t; u_joined_date := u_joined_date r;
       u_open_to_opportunities := o; u_readiness_score := u_readiness_score r;
       u_profile_strength := ps |} in
  let n := u_name r in let ro := u_role r in let b := u_bio r in
  let l := u_location r in let t := u_target_role r in let av := u_avatar_url r in
  let o := u_open_to_opportunities r in let ps := u_profile_strength r in
  match a with
  | SetName v => mk (Some v) ro b l t av o ps
  | SetRole v => mk n (Some v) b l t av o ps
  | SetBio v => mk n ro (Some v) l t av o ps
  | SetLocation v => mk n ro b (Some v) t av o ps
  | SetTargetRole v => mk n ro b l (Some v) av o ps
  | SetAvatarUrl v => mk n ro b l t (Some v) o ps
  | SetOpenToOpportunities v => mk n ro b l t av (Some v) ps
  | SetProfileStrength v => mk n ro b l t av o (Some v)
  end.

(** [if (updates.k) userFields.col = updates.k]: a string counts when it is
    not empty, a number when it is not zero. *)
Definition whenText (mk : string -> Assignment) (v : option string) : list Assignment :=
  match v with
  | Some (String c r) => [mk (String c r)]
  | _ => []
  end.

Definition buildUserFields (updates : Updates) : list Assignment :=
  (whenText SetName (up_name updates)
   ++ whenText SetRole (up_role updates)
   ++ whenText SetBio (up_bio updates)
   ++ whenText SetLocation (up_location updates)
   ++ whenText SetTargetRole (up_targetRole updates)
   ++ whenText SetAvatarUrl (up_avatarUrl updates)
   ++ match up_openToOpportunities updates with
      | Some b => [SetOpenToOpportunities b]
      | None => []
      end
   ++ match up_profileStrength updates with
      | Some z => if (z =? 0)%Z then [] else [SetProfileStrength z]
      | None => []
      end)%list.

(** [xs.join(',')] *)
Fixpoint join (xs : list string) : string :=
  match xs with
  | [] => ""
  | [x] => x
  | x :: rest => x ++ "," ++ join rest
  end.

Definition setUsers (t : Tables) (v : list UserRow) : Tables :=
  {| users := v; skills := skills t; experience := experience t;
     projects := projects t; education := education t;
     certifications := certifications t |}.
Definition setSkills (t : Tables) (v : list SkillRow) : Tables :=
  {| users := users t; skills := v; experience := experience t;
     projects := projects t; education := education t;
     certifications := certifications t |}.
Definition setExperience (t : Tables) (v : list ExperienceRow) : Tables :=
  {| users := users t; skills := skills t; experience := v;
     projects := projects t; education := education t;
     certifications := certifications t |}.
Definition setProjects (t : Tables) (v : list ProjectRow) : Tables :=
  {| users := users t; skills := skills t; experience := experience t;
     projects := v; education := education t;
     certifications := certifications t |}.
Definition setEducation (t : Tables) (v : list EducationRow) : Tables :=
  {| users := users t; skills := skills t; experience := experience t;
     projects := projects t; education := v;
     certifications := certifications t |}.
Definition setCertifications (t : Tables) (v : list CertificationRow) : Tables :=
  {| users := users t; skills := skills t; experience := experience t;
     projects := projects t; education := education t;
     certifications := v |}.

(** *** Calls on the connection *)

(** A computation on the connection: it ends normally or throws, and leaves
    the connection in some state either way. *)
Definition Tx (A : Type) : Type := Conn -> result A * Conn.

Definition txRet {A} (a : A) : Tx A := fun c => (Ok a, c).
Definition txThrow {A} (e : string) : Tx A := fun c => (Throw e, c).
Definition txBind {A B} (m : Tx A) (k : A -> Tx B) : Tx B :=
  fun c => match m c with
           | (Ok a, c') => k a c'
           | (Throw e, c') => (Throw e, c')
           end.

Notation "'await' m 'as' x '>>' k" := (txBind m (fun x => k))
  (at level 10, x name, m at level 100, k at level 200).
Notation "'await' m '>>' k" := (txBind m (fun _ => k))
  (at level 10, m at level 100, k at level 200).

(** [for (const x of xs) { await body(x) }] *)
Fixpoint forOf {A} (xs : list A) (body : A -> Tx unit) : Tx unit :=
  match xs with
  | [] => txRet tt
  | x :: rest => await body x >> forOf rest body
  end.

(** What the connection reads: its own uncommitted changes included. *)
Definition view (c : Conn) : Tables :=
  match pending c with
  | Some t => t
  | None => committed c
  end.

(** A write goes to the open transaction, or is committed at once when
    there is none (autocommit). *)
Definition write (f : Tables -> Tables) (c : Conn) : Conn :=
  match pending c with
  | Some t => {| committed := committed c; pending := Some (f t);
                 counters := counters c; calls := calls c |}
  | None => {| committed := f (committed c); pending := None;
                counters := counters c; calls := calls c |}
  end.

Definition setCounters (k : Counters) (c : Conn) : Conn :=
  {| committed := committed c; pending := pending c; counters := k; calls := calls c |}.

(** *** The five sub-collection tables

    For a table holding rows [R] made from submitted elements [A]: how to
    read and replace its rows, the [user_id] column, its [AUTO_INCREMENT]
    counter, and the column list of its [INSERT] statement. *)
Record Collection (A R : Type) := {
  rowsOf : Tables -> list R;
  setRows : Tables -> list R -> Tables;
  owner : R -> Z;
  nextId : Counters -> Z;
  bumpId : Counters -> Counters;
  toRow : Z -> Z -> A -> R
}.
Arguments rowsOf {A R} _ _.
Arguments setRows {A R} _ _ _.
Arguments owner {A R} _ _.
Arguments nextId {A R} _ _.
Arguments bumpId {A R} _ _.
Arguments toRow {A R} _ _ _ _.

Definition skillsTable : Collection Skill SkillRow :=
  {| rowsOf := skills; setRows := setSkills; owner := sk_user_id;
     nextId := next_skill;
     bumpId := fun k =>
       {| next_skill := (next_skill k + 1)%Z; next_experience := next_experience k;
          next_project := next_project k; next_education := next_education k;
          next_certification := next_certification k |};
     toRow := fun id userId s =>
       {| sk_id := id; sk_user_id := userId;
          sk_name := skill_name s; sk_category := skill_category s;
          sk_level := skill_level s;
          sk_verified := default false (skill_verified s) |} |}.

Definition experienceTable : Collection WorkExperience ExperienceRow :=
  {| rowsOf := experience; setRows := setExperience; owner := ex_user_id;
     nextId := next_experience;
     bumpId := fun k =>
       {| next_skill := next_skill k; next_experience := (next_experience k + 1)%Z;
          next_project := next_project k; next_education := next_education k;
          next_certification := next_certification k |};
     toRow := fun id userId e =>
       let skillsUsedStr := join (exp_skillsUsed e) in
       {| ex_id := id; ex_user_id := userId;
          ex_company := exp_company e; ex_role := exp_role e;
          ex_start_date := exp_startDate e; ex_end_date := exp_endDate e;
          ex_description := exp_description e; ex_type := exp_type e;
          ex_skills_used := skillsUsedStr |} |}.

Definition projectsTable : Collection Project ProjectRow :=
  {| rowsOf := projects; setRows := setProjects; owner := pr_user_id;
     nextId := next_project;
     bumpId := fun k =>
       {| next_skill := next_skill k; next_experience := next_experience k;
          next_project := (next_project k + 1)%Z; next_education := next_education k;
          next_certification := next_certification k |};
     toRow := fun id userId p =>
       let stackStr := join (proj_techStack p) in
       {| pr_id := id; pr_user_id := userId;
          pr_name := proj_name p; pr_type := proj_type p;
          pr_description := proj_description p; pr_tech_stack := stackStr;
          pr_image := match proj_image p with
                      | Some (String a b) => String a b
                      | _ => ""
                      end |} |}.

Definition educationTable : Collection Education EducationRow :=
  {| rowsOf := education; setRows := setEducation; owner := ed_user_id;
     nextId := next_education;
     bumpId := fun k =>
       {| next_skill := next_skill k; next_experience := next_experience k;
          next_project := next_project k; next_education := (next_education k + 1)%Z;
          next_certification := next_certification k |};
     toRow := fun id userId edu =>
       {| ed_id := id; ed_user_id := userId;
          ed_institution := edu_institution edu; ed_degree := edu_degree edu;
          ed_year := edu_year edu |} |}.

Definition certificationsTable : Collection Certification CertificationRow :=
  {| rowsOf := certifications; setRows := setCertifications; owner := ce_user_id;
     nextId := next_certification;
     bumpId := fun k =>
       {| next_skill := next_skill k; next_experience := next_experience k;
          next_project := next_project k; next_education := next_education k;
          next_certification := (next_certification k + 1)%Z |};
     toRow := fun id userId cert =>
       {| ce_id := id; ce_user_id := userId;
          ce_name := cert_name cert; ce_issuer := cert_issuer cert;
          ce_date := cert_date cert |} |}.

(** The rows a run of [INSERT]s adds for the elements [xs], the first one
    getting the identifier [start]. *)
Fixpoint rowsFrom {A R} (T : Collection A R) (userId start : Z) (xs : list A) : list R :=
  match xs with
  | [] => []
  | x :: rest => toRow T start userId x :: rowsFrom T userId (start + 1)%Z rest
  end.

(** The rows of a table once a submitted collection has replaced those of
    the user; an absent collection leaves the table alone. *)
Definition replaced {A R} (T : Collection A R) (userId start : Z)
    (xs : option (list A)) (old : list R) : list R :=
  match xs with
  | Some l => (List.filter (fun r => negb (owner T r =? userId)%Z) old
               ++ rowsFrom T userId start l)%list
  | None => old
  end.

Definition tick (c : Conn) : Conn :=
  {| committed := committed c; pending := pending c;
     counters := counters c; calls := S (calls c) |}.

Section Handler.

(** Which calls on the connection are rejected by the database, counted
    from the state of the connection: the failure injected into a run. *)
Variable fails : nat -> bool.
(** Equality of the [email] column under the table's collation. *)
Variable sameEmail : string -> string -> bool.

(** One awaited call: it is rejected, or it runs. *)
Definition dbCall {A} (run : Conn -> A * Conn) : Tx A :=
  fun c =>
    if fails (calls c) then (Throw "database error", tick c)
    else let '(a, c') := run (tick c) in (Ok a, c').

(** [START TRANSACTION] commits what an earlier transaction left open. *)
Definition beginTransaction : Tx unit :=
  dbCall (fun c => (tt, {| committed := view c; pending := Some (view c);
                           counters := counters c; calls := calls c |})).

Definition commit : Tx unit :=
  dbCall (fun c => (tt, {| committed := view c; pending := None;
                           counters := counters c; calls := calls c |})).

(** [ROLLBACK], awaited in the [catch] block: one more call on the
    connection, which the database can reject like any other. *)
Definition rollback : Tx unit :=
  dbCall (fun c => (tt, {| committed := committed c; pending := None;
                           counters := counters c; calls := calls c |})).

(** [SELECT id FROM users WHERE email = ?] *)
Definition selectUserIds (email : string) : Tx (list Z) :=
  dbCall (fun c => (u_id <$> List.filter (fun r => sameEmail (u_email r) email) (users (view c)), c)).

(** [UPDATE users SET ... WHERE id = ?] *)
Definition updateUsers (userFields : list Assignment) (userId : Z) : Tx unit :=
  dbCall (fun c =>
    (tt, write (fun t => setUsers t
                  ((fun r => if (u_id r =? userId)%Z
                             then fold_left assign userFields r else r) <$> users t)) c)).

(** [DELETE FROM table WHERE user_id = ?] *)
Definition deleteWhere {A R} (T : Collection A R) (userId : Z) : Tx unit :=
  dbCall (fun c =>
    (tt, write (fun t => setRows T t
                  (List.filter (fun r => negb (owner T r =? userId)%Z) (rowsOf T t))) c)).

(** [INSERT INTO table (user_id, ...) VALUES (?, ...)] *)
Definition insertInto {A R} (T : Collection A R) (userId : Z) (x : A) : Tx unit :=
  dbCall (fun c =>
    let k := counters c in
    let row := toRow T (nextId T k) userId x in
    (tt, write (fun t => setRows T t (rowsOf T t ++ [row])%list)
           (setCounters (bumpId T k) c))).

Definition deleteSkills := deleteWhere skillsTable.
Definition insertSkill := insertInto skillsTable.
Definition deleteExperience := deleteWhere experienceTable.
Definition insertExperience := insertInto experienceTable.
Definition deleteProjects := deleteWhere projectsTable.
Definition insertProject := insertInto projectsTable.
Definition deleteEducation := deleteWhere educationTable.
Definition insertEducation := insertInto educationTable.
Definition deleteCertifications := deleteWhere certificationsTable.
Definition insertCertification := insertInto certificationsTable.

(** [if (updates.xs) { DELETE ...; for (const x of updates.xs) INSERT ... }]:
    an array is truthy even when it is empty. *)
Definition replaceAll {A} (xs : option (list A)) (delete : Tx unit)
    (insert : A -> Tx unit) : Tx unit :=
  match xs with
  | Some l => await delete >> forOf l insert
  | None => txRet tt
  end.

(** The statements of the handler between [beginTransaction] and [commit]. *)
Definition changes (email : string) (updates : Updates) : Tx unit :=
  await selectUserIds email as found >>
  match found with
  | [] => txThrow "User not found"
  | userId :: _ =>
      let userFields := buildUserFields updates in
      await (match userFields with
             | [] => txRet tt
             | _ => updateUsers userFields userId
             end) >>
      await replaceAll (up_skills updates) (deleteSkills userId) (insertSkill userId) >>
      await replaceAll (up_experience updates) (deleteExperience userId)
              (insertExperience userId) >>
      await replaceAll (up_projects updates) (deleteProjects userId) (insertProject userId) >>
      await replaceAll (up_education updates) (deleteEducation userId)
              (insertEducation userId) >>
      replaceAll (up_certifications updates) (deleteCertifications userId)
        (insertCertification userId)
  end.

(** The [try] block. *)
Definition tryBlock (email : string) (updates : Updates) : Tx unit :=
  await beginTransaction >>
  await changes email updates >>
  commit.

(** The [try], [catch] and [finally] of [app.put('/api/user/:email', ...)]:
    the response sent and the state in which the connection goes back to the
    pool.  The [catch] block awaits the rollback before it sends the 500: when
    the rollback is rejected the block is left at once, nothing is sent, and
    [finally] releases the connection as it is. *)
Definition putUser (email : string) (updates : Updates) (c : Conn) : Response * Conn :=
  match tryBlock email updates c with
  | (Ok _, c') => (Json200 "Profile updated successfully", c')
  | (Throw _, c') =>
      match rollback c' with
      | (Ok _, c'') => (Json500 "Update failed", c'')
      | (Throw _, c'') => (NoResponse, c'')
      end
  end.

(** The whole handler: [pool.getConnection()] is awaited before the [try],
    so when the pool rejects, neither [catch] nor [finally] runs. *)
Definition putRoute (email : string) (updates : Updates) (acquired : result Conn)
    : Response * option Conn :=
  match acquired with
  | Ok c => let '(resp, c') := putUser email updates c in (resp, Some c')
  | Throw _ => (NoResponse, None)
  end.

End Handler.

(** *** What a committed update amounts to *)

(** A run in which the database rejects nothing. *)
Definition never : nat -> bool := fun _ => false.

(** A text column once the request has been applied: the submitted text
    when there is one and it is not empty, the stored value otherwise. *)
Definition textOr (submitted stored : option string) : option string :=
  match submitted with
  | Some (String c s) => Some (String c s)
  | _ => stored
  end.

(** The base row of the user after [UPDATE users SET ...]. *)
Definition updatedRow (updates : Updates) (r : UserRow) : UserRow :=
  fold_left assign (buildUserFields updates) r.

(** The identifiers the five runs of [INSERT]s start from. *)
Record Starts := {
  start_skill : Z;
  start_experience : Z;
  start_project : Z;
  start_education : Z;
  start_certification : Z
}.

(** Every table change of one request, for the user [userId]. *)
Definition updatedTables (userId : Z) (updates : Updates) (s : Starts) (t : Tables) : Tables :=
  {| users := (fun r => if (u_id r =? userId)%Z then updatedRow updates r else r)
                <$> users t;
     skills := replaced skillsTable userId (start_skill s)
                 (up_skills updates) (skills t);
     experience := replaced experienceTable userId (start_experience s)
                     (up_experience updates) (experience t);
     projects := replaced projectsTable userId (start_project s)
                   (up_projects updates) (projects t);
     education := replaced educationTable userId (start_education s)
                    (up_education updates) (education t);
     certifications := replaced certificationsTable userId (start_certification s)
                         (up_certifications updates) (certifications t) |}.

(** What holds of every statement run inside the transaction, whatever its
    outcome: it leaves the committed tables alone and the transaction open,
    it only adds to the calls made, and when it ends normally none of its
    calls was rejected. *)
Definition isOk {A} (r : result A) : Prop :=
  match r with
  | Ok _ => True
  | Throw _ => False
  end.

Definition WellBehaved (fails : nat -> bool) {A} (m : Tx A) : Prop :=
  forall c r c',
    m c = (r, c') ->
    (is_Some (pending c) -> committed c' = committed c /\ is_Some (pending c'))
    /\ calls c <= calls c'
    /\ (isOk r -> forall k, calls c <= k < calls c' -> fails k = false).

(** The same for what a call does once it is accepted. *)
Definition InTransaction {A} (run : Conn -> A * Conn) : Prop :=
  forall c,
    calls (run c).2 = calls c
    /\ (is_Some (pending c) ->
        committed (run c).2 = committed c /\ is_Some (pending (run c).2)).

(** The laws of a table accessor. *)
Record Lawful {A R} (T : Collection A R) : Prop := {
  rows_set : forall t v, rowsOf T (setRows T t v) = v;
  set_rows : forall t, setRows T t (rowsOf T t) = t;
  set_set : forall t v w, setRows T (setRows T t v) w = setRows T t w;
  next_bump : forall k, nextId T (bumpId T k) = (nextId T k + 1)%Z
}.

(** A database and requests for the examples. *)
Definition sampleUser : UserRow :=
  {| u_id := 7; u_name := Some "Alex Mercer"; u_email := "alex@example.com";
     u_password := "password"; u_role := Some "Designer"; u_bio := Some "Old bio";
     u_location := None; u_avatar_url := None; u_target_role := None;
     u_joined_date := Some "March 2023"; u_open_to_opportunities := Some false;
     u_readiness_score := Some 0%Z; u_profile_strength := Some 0%Z |}.

Definition sampleTables : Tables :=
  {| users := [sampleUser];
     skills := [ {| sk_id := 1; sk_user_id := 7; sk_name := "Figma";
                    sk_category := Tools; sk_level := Expert; sk_verified := true |} ];
     experience := []; projects := []; education := []; certifications := [] |}.

Definition sampleConn : Conn :=
  {| committed := sampleTables; pending := None;
     counters := {| next_skill := 2; next_experience := 1; next_project := 1;
                    next_education := 1; next_certification := 1 |};
     calls := 0 |}.

Definition noUpdates : Updates :=
  {| up_name := None; up_role := None; up_bio := None; up_location := None;
     up_targetRole := None; up_avatarUrl := None; up_openToOpportunities := None;
     up_profileStrength := None; up_skills := None; up_experience := None;
     up_projects := None; up_education := None; up_certifications := None |}.

(** The bio is cleared. *)
Definition clearBio : Updates :=
  {| up_name := None; up_role := None; up_bio := Some ""; up_location := None;
     up_targetRole := None; up_avatarUrl := None; up_openToOpportunities := None;
     up_profileStrength := None; up_skills := None; up_experience := None;
     up_projects := None; up_education := None; up_certifications := None |}.

(** A new role and a new skill set. *)
Definition newRoleAndSkills : Updates :=
  {| up_name := None; up_role := Some "Staff Designer"; up_bio := None;
     up_location := None; up_targetRole := None; up_avatarUrl := None;
     up_openToOpportunities := None; up_profileStrength := None;
     up_skills := Some [ {| skill_name := "React"; skill_category := Technical;
                            skill_level := Intermediate; skill_verified := None |} ];
     up_experience := None; up_projects := None; up_education := None;
     up_certifications := None |}.

End Server.

(** ** The dashboard snapshot: [calculateMetrics] and [getQualitativeScore] *)
Module Snapshot.
Import JsString Types Metrics Dashboard TaskStore.

Record MetricsState := {
  m_strength : Z;
  m_completionRate : Z;
  m_completedTasks : Z;
  m_totalTasks : Z;
  m_learningHours : Z;
  m_readinessScore : Z;
  m_hoursThisWeek : Z
}.

(** The state of the page that [calculateMetrics] writes. *)
Record DashboardState := {
  d_metrics : MetricsState;
  d_chartData : list ChartPoint;
  d_loading : bool
}.

(** [Math.max] on two numbers. *)
Definition qmax (a b : Q) : Q := if Qle_bool a b then b else a.

(** [tasks.filter(t => t.status === 'Done')] *)
Definition completedOf (tasks : list Task) : list Task :=
  List.filter (fun t => isDone (task_status t)) tasks.

(** [completed.reduce((acc, t) => acc + parseDuration(t.duration), 0)] *)
Definition totalHoursOf (completed : list Task) : Q :=
  fold_left (fun acc t => (acc + parseDuration (task_duration t))%Q) completed 0%Q.

(** [Math.round((compCount / totCount) * 100)], with [totCount] the number
    of tasks or 1 when there is none. *)
Definition completionRateOf (tasks : list Task) : Z :=
  let compCount := Z.of_nat (length (completedOf tasks)) in
  let totCount := match tasks with
                  | [] => 1%Z
                  | _ => Z.of_nat (length tasks)
                  end in
  round ((inject_Z compCount / inject_Z totCount) * 100).

(** [Math.round(totalHours > 0 ? Math.max(1, totalHours * 0.2) : 0)] *)
Definition weekHoursOf (totalHours : Q) : Z :=
  round (if Qlt_le_dec 0 totalHours then qmax 1 (totalHours * (1 # 5)) else 0).

(** [Math.round(strength * 0.3 + rate * 0.5 + baseKnowledge)] *)
Definition rScoreOf (strength rate baseKnowledge : Z) : Z :=
  round (inject_Z strength * (3 # 10) + inject_Z rate * (1 # 2) + inject_Z baseKnowledge).

Section Calculate.

Variable Date_parse : string -> option Date.
Variable now : Date.
Variable random : nat -> Q.

(** The [try] block of [calculateMetrics]: the metrics handed to
    [setMetrics] and the series handed to [setChartData].  Reading [length]
    off an absent [user.experience] throws; nothing has been set by then. *)
Definition calculateMetricsBody (user : UserProfile) (tasks : list Task)
    : result (MetricsState * list ChartPoint) :=
  let strength := calculateProfileStrength user in
  let completed := completedOf tasks in
  let compCount := Z.of_nat (length completed) in
  let rate := completionRateOf tasks in
  let totalHours := totalHoursOf completed in
  let weekHours := weekHoursOf totalHours in
  experienceLength ←
    match experience user with
    | Some l => Ok (Z.of_nat (length l))
    | None => Throw "TypeError: Cannot read properties of undefined (reading 'length')"
    end;
  let baseKnowledge := if (0 <? experienceLength)%Z then 20%Z else 0%Z in
  let rScore := rScoreOf strength rate baseKnowledge in
  Ok ({| m_strength := strength;
         m_completionRate := rate;
         m_completedTasks := compCount;
         m_totalTasks := Z.of_nat (length tasks);
         m_learningHours := round totalHours;
         m_readinessScore := Z.min 100 rScore;
         m_hoursThisWeek := weekHours |},
      generateTrendChart Date_parse now random (joinedDate user)
        (inject_Z (Z.min 100 rScore))).

(** [calculateMetrics]: the [catch] only logs, the [finally] clears the
    loading flag. *)
Definition calculateMetrics (user : UserProfile) (tasks : list Task)
    (st : DashboardState) : DashboardState :=
  tryCatch
    (out ← calculateMetricsBody user tasks;
     Ok {| d_metrics := out.1; d_chartData := out.2; d_loading := false |})
    (fun _ => {| d_metrics := d_metrics st; d_chartData := d_chartData st;
                 d_loading := false |}).

End Calculate.

Inductive Qualitative := Developing | Good | Strong | Excellent.

Definition getQualitativeScore (score : Z) : Qualitative :=
  if (80 <? score)%Z then Excellent
  else if (60 <? score)%Z then Strong
  else if (40 <? score)%Z then Good
  else Developing.

Definition rank (q : Qualitative) : nat :=
  match q with
  | Developing => 0 | Good => 1 | Strong => 2 | Excellent => 3
  end.

(** The state the page starts in. *)
Definition initialState : DashboardState :=
  {| d_metrics := {| m_strength := 0; m_completionRate := 0; m_completedTasks := 0;
                     m_totalTasks := 0; m_learningHours := 0; m_readinessScore := 0;
                     m_hoursThisWeek := 0 |};
     d_chartData := [];
     d_loading := true |}.

(** A profile that has no [experience] property, for the examples. *)
Definition profileWithoutExperience : UserProfile :=
  {| name := Some "Sam"; role := None; avatarUrl := None; bio := None;
     location := None; targetRole := None; joinedDate := "March 2023";
     skills := None; experience := None; education := None;
     certifications := None; projects := None |}.

End Snapshot.

(** ** The readiness gauge of the analysis page: [calculateScore] *)
Module GapScore.

(** An analysis as [JSON.parse(response.text || "{}")] gives it: the
    [criticalGaps] property may be absent.  Only its length is read. *)
Record Analysis (Gap : Type) := {
  criticalGaps : option (list Gap)
}.
Arguments criticalGaps {Gap} _.

(** [calculateScore]; [None] is the [null] state before any analysis. *)
Definition calculateScore {Gap} (analysis : option (Analysis Gap)) : result Z :=
  match analysis with
  | None => Ok 0%Z
  | Some a =>
      match criticalGaps a with
      | None => Throw "TypeError: Cannot read properties of undefined (reading 'length')"
      | Some gaps =>
          let gaps := Z.of_nat (length gaps) in
          Ok (Z.max 15 (90 - gaps * 15))
      end
  end.

End GapScore.

(** ** The task provider: [fetchTasks] and [generateNewTasks] *)
Module TaskProvider.
Import Types TaskStore.

Record State := {
  tasks : list Task;
  loading : bool;
  error : option string
}.

(** [fetchTasks]: without an email the list is emptied and nothing else is
    touched; otherwise [api.tasks.getAll] is awaited. *)
Definition fetchTasks (email : option string) (fetched : result (list Task))
    (st : State) : State :=
  match email with
  | Some (String c r) =>
      match fetched with
      | Ok data => {| tasks := data; loading := false; error := None |}
      | Throw _ => {| tasks := tasks st; loading := false;
                      error := Some "Failed to load tasks" |}
      end
  | _ => {| tasks := []; loading := loading st; error := error st |}
  end.

(** [generated.map(t => ({...t, status: 'Todo'}))] *)
Definition sanitize (generated : list Task) : list Task :=
  List.map (fun t => setStatus t Todo) generated.

(** [generateNewTasks]: [generated] is the outcome of the AI call and
    [saved] that of [api.tasks.saveBatch], awaited after [setTasks]. *)
Definition generateNewTasks (generated : result (list Task)) (saved : result unit)
    (st : State) : State :=
  match generated with
  | Throw _ => {| tasks := tasks st; loading := false;
                  error := Some "Failed to generate tasks" |}
  | Ok g =>
      match saved with
      | Ok _ => {| tasks := sanitize g; loading := false; error := None |}
      | Throw _ => {| tasks := sanitize g; loading := false;
                      error := Some "Failed to generate tasks" |}
      end
  end.

(** The optimistic update of [toggleTaskStatus] on the state. *)
Definition toggle (taskId : string) (st : State) : State :=
  {| tasks := toggleTaskStatus (tasks st) taskId; loading := loading st;
     error := error st |}.

(** A run of toggles, one task id after the other. *)
Definition toggles (ids : list string) (st : State) : State :=
  fold_left (fun s id => toggle id s) ids st.

(** No task is In Progress. *)
Definition binary (l : list Task) : Prop :=
  Forall (fun t => task_status t <> TaskInProgress) l.

End TaskProvider.

(** ** The profile page: the handlers that edit a collection *)
Module ProfilePage.
Import Types.

(** [handleAddSkill]: the list sent to [updateUser], if any. *)
Definition handleAddSkill (skills : list Skill) (skillName : string)
    (category : SkillCategory) : option (list Skill) :=
  match skillName with
  | EmptyString => None
  | _ =>
      let newSkill := {| skill_name := skillName; skill_category := category;
                         skill_level := Intermediate; skill_verified := Some false |} in
      Some (skills ++ [newSkill])%list
  end.

(** [handleRemoveSkill] *)
Definition handleRemoveSkill (skills : list Skill) (skillName : string) : list Skill :=
  List.filter (fun s => negb (String.eqb (skill_name s) skillName)) skills.

(** [formData.id || Date.now().toString()] *)
Definition idOr (id : string) (nowText : string) : string :=
  match id with
  | EmptyString => nowText
  | _ => id
  end.

Definition withEducationId (e : Education) (id : string) : Education :=
  {| edu_id := id; edu_institution := edu_institution e;
     edu_degree := edu_degree e; edu_year := edu_year e |}.

(** [handleSaveEducation]: [editing] tells whether an item is being edited;
    [nowText] is [Date.now().toString()]. *)
Definition handleSaveEducation (education : list Education) (editing : bool)
    (formData : Education) (nowText : string) : list Education :=
  let newItem := withEducationId formData (idOr (edu_id formData) nowText) in
  if editing
  then List.map (fun item => if String.eqb (edu_id item) (edu_id newItem)
                             then newItem else item) education
  else (education ++ [newItem])%list.

(** [handleDeleteEducation], once the user has confirmed. *)
Definition handleDeleteEducation (education : list Education) (id : string)
    : list Education :=
  List.filter (fun e => negb (String.eqb (edu_id e) id)) education.

End ProfilePage.

(** ** The mock boundary: registration, tasks, and the [api] object over it *)
Module MockApi.
Import JsString Json Types TaskStore MockBackend.

(** [stored === given], for a value read from the users database and a value
    of the caller: texts, numbers, booleans, [null] and [undefined] compare
    by value; an array or an object of the database is never the caller's. *)
Definition strictEq (stored given : jsval) : bool :=
  match stored, given with
  | None, None => true
  | Some JNull, Some JNull => true
  | Some (JBool a), Some (JBool b) => Bool.eqb a b
  | Some (JNum a), Some (JNum b) => Qeq_bool a b
  | Some (JStr a), Some (JStr b) => String.eqb a b
  | _, _ => false
  end.

(** [v || ''] *)
Definition orEmpty (v : jsval) : jsval := if truthy v then v else str "".

Section Api.

Variable DEFAULT_AVATAR : string.
Variable joinedNow : string.

(** [MockBackend.register] *)
Definition register (entry : UsersEntry) (user : JsObject) (password : string)
    : result JsObject * UsersEntry :=
  let '(users, entry') := getUsersDB DEFAULT_AVATAR joinedNow entry in
  match List.find (fun u => strictEq (u !!! "email") (user !!! "email")) users with
  | Some _ => (Throw "User already exists", entry')
  | None =>
      let newUser :=
        <["joinedDate" := str joinedNow]>
          (<["email" := orEmpty (user !!! "email")]>
            (<["name" := orEmpty (user !!! "name")]> (EMPTY_USER_DATA DEFAULT_AVATAR))) in
      (Ok newUser, saveUsersDB (users ++ [<["password" := str password]> newUser])%list)
  end.

(** [MockBackend.updateUser] for an [email] argument of any value. *)
Definition updateUserBy (entry : UsersEntry) (email : jsval) (updates : JsObject)
    : JsObject * UsersEntry :=
  let '(users, entry') := getUsersDB DEFAULT_AVATAR joinedNow entry in
  match findIndex (fun u => strictEq (u !!! "email") email) users with
  | Some index =>
      match users !! index with
      | Some stored =>
          let updatedUser := spread stored updates in
          let users := <[index := updatedUser]> users in
          (withoutPassword updatedUser, saveUsersDB users)
      | None => (DEFAULT_USER_DATA DEFAULT_AVATAR, entry')
      end
  | None => (DEFAULT_USER_DATA DEFAULT_AVATAR, entry')
  end.

(** [api.user.update], with [USE_REAL_BACKEND] false. *)
Definition user_update (entry : UsersEntry) (updates : JsObject)
    : JsObject * UsersEntry :=
  let email := if truthy (updates !!! "email") then updates !!! "email"
               else DEFAULT_USER_DATA DEFAULT_AVATAR !!! "email" in
  updateUserBy entry email updates.

(** What [updateUser] of the user context sends: [{ ...updates, email:
    user.email }]. *)
Definition contextPayload (userEmail : jsval) (updates : JsObject) : JsObject :=
  <["email" := userEmail]> updates.

Definition context_updateUser (entry : UsersEntry) (userEmail : jsval)
    (updates : JsObject) : JsObject * UsersEntry :=
  user_update entry (contextPayload userEmail updates).

End Api.

(** The task entries of [localStorage]: under each key, the list whose text
    [saveTasks] wrote there. *)
Abbreviation TaskStorage := (gmap string (list Task)).

Definition getStorageKey (key : string) : string := "careerpilot_v7_" ++ key.

Definition getTasks (storage : TaskStorage) (userId : string) : list Task :=
  match storage !! getStorageKey ("tasks_" ++ userId) with
  | Some stored => stored
  | None => []
  end.

Definition saveTasks (storage : TaskStorage) (userId : string) (tasks : list Task)
    : list Task * TaskStorage :=
  (tasks, <[getStorageKey ("tasks_" ++ userId) := tasks]> storage).

Definition MOCK_USER_ID : string := "1".

(** [email || MOCK_USER_ID] *)
Definition mockId (email : option string) : string :=
  match email with
  | Some (String c r) => String c r
  | _ => MOCK_USER_ID
  end.

(** [api.tasks.getAll] and [api.tasks.saveBatch], with [USE_REAL_BACKEND]
    false. *)
Definition tasks_getAll (storage : TaskStorage) (email : option string) : list Task :=
  getTasks storage (mockId email).

Definition tasks_saveBatch (storage : TaskStorage) (tasks : list Task)
    (email : option string) : list Task * TaskStorage :=
  saveTasks storage (mockId email) tasks.

(** A database with one user, for the examples. *)
Definition demoOnly : UsersEntry :=
  Entry [ {[ "email" := JStr "alex@example.com"; "password" := JStr "password";
             "bio" := JStr "Designer" ]} ].

(** What the registration form sends, for the examples. *)
Definition newcomer : JsObject :=
  {[ "name" := str "Sam"; "email" := str "sam@example.com" ]}.

(** The profile of that registration, in November 2026. *)
Definition registeredProfile : JsObject :=
  <["joinedDate" := str "November 2026"]>
    (<["email" := str "sam@example.com"]>
      (<["name" := str "Sam"]> (EMPTY_USER_DATA "/avatars/default.png"))).

(** What [getUsersDB] reads from [demoOnly]. *)
Definition demoUsers : list JsObject :=
  parseObject <$> [ {[ "email" := JStr "alex@example.com"; "password" := JStr "password";
                       "bio" := JStr "Designer" ]} ].

End MockApi.

(** ** The backend: reading a profile, registration and login *)
Module ServerRoutes.
Import JsString Types Server.

(** [text.split(',')] *)
Fixpoint splitComma (text : string) : list string :=
  match text with
  | EmptyString => [EmptyString]
  | String c rest =>
      if Ascii.eqb c ","
      then EmptyString :: splitComma rest
      else match splitComma rest with
           | piece :: pieces => String c piece :: pieces
           | [] => [String c EmptyString]
           end
  end.

(** [text ? text.split(',') : []] *)
Definition splitOrEmpty (text : string) : list string :=
  match text with
  | EmptyString => []
  | _ => splitComma text
  end.

(** The number of commas of a text. *)
Fixpoint commas (text : string) : nat :=
  match text with
  | EmptyString => 0
  | String c rest => (if Ascii.eqb c "," then 1 else 0) + commas rest
  end.

(** [{...e, startDate: e.start_date, endDate: e.end_date, skillsUsed: ...}];
    the columns that the spread copies under their own names as well are
    left out. *)
Record ExperienceView := {
  ev_id : Z; ev_user_id : Z;
  ev_company : string; ev_role : string; ev_startDate : string; ev_endDate : string;
  ev_description : string; ev_type : option string; ev_skillsUsed : list string
}.

Record ProjectView := {
  pv_id : Z; pv_user_id : Z;
  pv_name : string; pv_type : string; pv_description : string;
  pv_techStack : list string; pv_image : string
}.

Definition experienceView (e : ExperienceRow) : ExperienceView :=
  {| ev_id := ex_id e; ev_user_id := ex_user_id e;
     ev_company := ex_company e; ev_role := ex_role e;
     ev_startDate := ex_start_date e; ev_endDate := ex_end_date e;
     ev_description := ex_description e; ev_type := ex_type e;
     ev_skillsUsed := splitOrEmpty (ex_skills_used e) |}.

Definition projectView (p : ProjectRow) : ProjectView :=
  {| pv_id := pr_id p; pv_user_id := pr_user_id p;
     pv_name := pr_name p; pv_type := pr_type p; pv_description := pr_description p;
     pv_techStack := splitOrEmpty (pr_tech_stack p); pv_image := pr_image p |}.

(** The profile object of the three routes, once [password] is deleted:
    [p_id] stands for the text of the identifier; the constant [insights]
    and [preferences] are left out. *)
Record Profile := {
  p_id : Z;
  p_name : option string;
  p_email : string;
  p_role : option string;
  p_bio : option string;
  p_location : option string;
  p_avatarUrl : string;
  p_targetRole : string;
  p_joinedDate : option string;
  p_openToOpportunities : bool;
  p_readinessScore : Z;
  p_profileStrength : Z;
  p_skills : list SkillRow;
  p_experience : list ExperienceView;
  p_projects : list ProjectView;
  p_education : list EducationRow;
  p_certifications : list CertificationRow
}.

Definition profileOf (user : UserRow) (skills : list SkillRow)
    (experience : list ExperienceView) (projects : list ProjectView)
    (education : list EducationRow) (certifications : list CertificationRow) : Profile :=
  {| p_id := u_id user;
     p_name := u_name user;
     p_email := u_email user;
     p_role := u_role user;
     p_bio := u_bio user;
     p_location := u_location user;
     p_avatarUrl := match u_avatar_url user with
                    | Some (String c r) => String c r
                    | _ => ""
                    end;
     p_targetRole := match u_target_role user with
                     | Some (String c r) => String c r
                     | _ => ""
                     end;
     p_joinedDate := u_joined_date user;
     p_openToOpportunities := default false (u_open_to_opportunities user);
     p_readinessScore := default 0%Z (u_readiness_score user);
     p_profileStrength := default 0%Z (u_profile_strength user);
     p_skills := skills;
     p_experience := experience;
     p_projects := projects;
     p_education := education;
     p_certifications := certifications |}.

Inductive Reply :=
| Profile200 (profile : Profile)
| Failure (status : Z) (error : string).

(** [SELECT * FROM table WHERE user_id = ?] on the tables [t]. *)
Definition ownedBy {A R} (T : Collection A R) (userId : Z) (t : Tables) : list R :=
  List.filter (fun r => (owner T r =? userId)%Z) (rowsOf T t).

(** The row that the [INSERT] of the registration adds. *)
Definition registeredRow (newId : Z) (joinedDate name email password : string) : UserRow :=
  {| u_id := newId; u_name := Some name; u_email := email; u_password := password;
     u_role := None; u_bio := None; u_location := None; u_avatar_url := Some "";
     u_target_role := None; u_joined_date := Some joinedDate;
     u_open_to_opportunities := Some false; u_readiness_score := Some 0%Z;
     u_profile_strength := Some 0%Z |}.

(** Every row that an [INSERT] of the update adds belongs to the user. *)
Definition Owned {A R} (T : Collection A R) : Prop :=
  forall id userId x, owner T (toRow T id userId x) = userId.

Section Routes.

Variable fails : nat -> bool.
Variable sameEmail : string -> string -> bool.

(** [getUserByEmail]: [rows[0]] of [SELECT * FROM users WHERE email = ?]. *)
Definition getUserByEmail (email : string) : Tx (option UserRow) :=
  dbCall fails (fun c =>
    (head (List.filter (fun r => sameEmail (u_email r) email) (users (view c))), c)).

Definition selectOwned {A R} (T : Collection A R) (userId : Z) : Tx (list R) :=
  dbCall fails (fun c => (ownedBy T userId (view c), c)).

(** [try { ... } catch (error) { res.status(500).json({ error }) }] *)
Definition respond (tryBlock : Tx Reply) (error : string) (c : Conn) : Reply * Conn :=
  match tryBlock c with
  | (Ok reply, c') => (reply, c')
  | (Throw _, c') => (Failure 500 error, c')
  end.

(** [app.get('/api/user/:email', ...)] *)
Definition getUser (email : string) : Conn -> Reply * Conn :=
  respond
    (await getUserByEmail email as user >>
     match user with
     | None => txRet (Failure 404 "User not found")
     | Some user =>
         let userId := u_id user in
         await selectOwned skillsTable userId as skills >>
         await selectOwned experienceTable userId as experience >>
         await selectOwned projectsTable userId as projects >>
         await selectOwned educationTable userId as education >>
         await selectOwned certificationsTable userId as certifications >>
         txRet (Profile200 (profileOf user skills (experienceView <$> experience)
                              (projectView <$> projects) education certifications))
     end)
    "Server error".

(** [INSERT INTO users (...) VALUES (...)]; [newId] is the identifier that
    [AUTO_INCREMENT] gives the row. *)
Definition insertUser (row : UserRow) : Tx unit :=
  dbCall fails (fun c => (tt, write (fun t => setUsers t (users t ++ [row])%list) c)).

(** [app.post('/api/auth/register', ...)]; [joinedDate] is the month of the
    request. *)
Definition postRegister (newId : Z) (joinedDate name email password : string)
    : Conn -> Reply * Conn :=
  respond
    (await getUserByEmail email as existingUser >>
     match existingUser with
     | Some _ => txRet (Failure 400 "User already exists")
     | None =>
         await insertUser (registeredRow newId joinedDate name email password) >>
         await getUserByEmail email as user >>
         match user with
         | Some user => txRet (Profile200 (profileOf user [] [] [] [] []))
         | None => txThrow "TypeError: Cannot read properties of undefined (reading 'id')"
         end
     end)
    "Registration failed".

(** [app.post('/api/auth/login', ...)] *)
Definition postLogin (email password : string) : Conn -> Reply * Conn :=
  respond
    (await getUserByEmail email as user >>
     match user with
     | Some user =>
         if String.eqb (u_password user) password
         then txRet (Profile200 (profileOf user [] [] [] [] []))
         else txRet (Failure 401 "Invalid credentials")
     | None => txRet (Failure 401 "Invalid credentials")
     end)
    "Login failed".

End Routes.

End ServerRoutes.

(** ** The user context over the mock boundary: the session *)
Module Session.
Import JsString Json MockBackend MockApi.

Record State := {
  user : JsObject;
  isAuthenticated : bool;
  loading : bool
}.

(** What the provider keeps in [localStorage]: the users database and the
    [careerpilot_active_user] entry. *)
Record Browser := {
  usersEntry : UsersEntry;
  activeUser : option string
}.

Definition initialUser : JsObject :=
  list_to_map [
    ("name", str ""); ("role", str ""); ("location", str ""); ("avatarUrl", str "");
    ("bio", str ""); ("joinedDate", str ""); ("openToOpportunities", Some (JBool false));
    ("targetRole", str ""); ("readinessScore", num 0); ("profileStrength", num 0);
    ("level", str "");
    ("insights", Some (JArr [])); ("skills", Some (JArr [])); ("experience", Some (JArr []));
    ("education", Some (JArr [])); ("certifications", Some (JArr []));
    ("projects", Some (JArr []));
    ("preferences", Some (JObj [
       ("weeklyHours", JNum 0); ("learningStyle", JStr "Visual");
       ("remotePreference", JStr "Remote"); ("targetLocations", JArr []);
       ("salaryRange", JStr ""); ("availability", JStr "Immediate");
       ("companySize", JStr "Startup")]))
  ].

(** The state of the provider when it mounts. *)
Definition initialState : State :=
  {| user := initialUser; isAuthenticated := false; loading := true |}.

Section Provider.

Variable DEFAULT_AVATAR : string.
Variable joinedNow : string.
(** The text that [setItem] makes of a value that is no text. *)
Variable ToString_other : json -> string.

(** [userData.email || email], as [localStorage.setItem] stores it. *)
Definition activeEmail (userData : JsObject) (email : string) : string :=
  if truthy (userData !!! "email")
  then match userData !!! "email" with
       | Some (JStr s) => s
       | Some j => ToString_other j
       | None => email
       end
  else email.

(** [checkSession], the effect that runs when the provider mounts. *)
Definition checkSession (b : Browser) (st : State) : State * Browser :=
  match activeUser b with
  | Some (String c r) =>
      let '(userData, entry') :=
        getUser DEFAULT_AVATAR joinedNow (usersEntry b) (Some (String c r)) in
      ({| user := userData; isAuthenticated := true; loading := false |},
       {| usersEntry := entry'; activeUser := activeUser b |})
  | _ => ({| user := user st; isAuthenticated := isAuthenticated st; loading := false |}, b)
  end.

(** [login] of the context: it rethrows what [api.auth.login] throws. *)
Definition login (email password : string) (b : Browser) (st : State)
    : result unit * State * Browser :=
  let '(outcome, entry') :=
    MockBackend.login DEFAULT_AVATAR joinedNow (usersEntry b) email password in
  match outcome with
  | Ok userData =>
      (Ok tt,
       {| user := userData; isAuthenticated := true; loading := false |},
       {| usersEntry := entry'; activeUser := Some (activeEmail userData email) |})
  | Throw e =>
      (Throw e,
       {| user := user st; isAuthenticated := isAuthenticated st; loading := false |},
       {| usersEntry := entry'; activeUser := activeUser b |})
  end.

(** [register] of the context: it sends [{ name, email }]. *)
Definition register (name email password : string) (b : Browser) (st : State)
    : result unit * State * Browser :=
  let '(outcome, entry') :=
    MockApi.register DEFAULT_AVATAR joinedNow (usersEntry b)
      {[ "name" := str name; "email" := str email ]} password in
  match outcome with
  | Ok userData =>
      (Ok tt,
       {| user := userData; isAuthenticated := true; loading := false |},
       {| usersEntry := entry'; activeUser := Some (activeEmail userData email) |})
  | Throw e =>
      (Throw e,
       {| user := user st; isAuthenticated := isAuthenticated st; loading := false |},
       {| usersEntry := entry'; activeUser := activeUser b |})
  end.

(** [logout] *)
Definition logout (b : Browser) (st : State) : State * Browser :=
  ({| user := initialUser; isAuthenticated := false; loading := loading st |},
   {| usersEntry := usersEntry b; activeUser := None |}).

End Provider.

(** The stored user of [demoOnly], as [getUsersDB] reads it. *)
Definition demoUser : JsObject :=
  parseObject {[ "email" := JStr "alex@example.com"; "password" := JStr "password";
                 "bio" := JStr "Designer" ]}.

End Session.

(** ** The sign-up and sign-in forms *)
Module Forms.
Import JsString Json MockBackend MockApi Session.

Definition isEmpty (s : string) : bool :=
  match s with
  | EmptyString => true
  | _ => false
  end.

(** [err.message || fallback] *)
Definition messageOr (message fallback : string) : string :=
  if isEmpty message then fallback else message.

Section Pages.

Variable DEFAULT_AVATAR : string.
Variable joinedNow : string.
Variable ToString_other : json -> string.

(** [handleSubmit] of the sign-up page: the error it shows, if any, and
    what it leaves of the session. *)
Definition signUp (name email password : string) (b : Browser) (st : State)
    : option string * State * Browser :=
  if (isEmpty name || isEmpty email || isEmpty password)%bool
  then (Some "All fields are required.", st, b)
  else if (String.length password <? 6)%nat
  then (Some "Password must be at least 6 characters.", st, b)
  else
    match register DEFAULT_AVATAR joinedNow ToString_other name email password b st with
    | (Ok _, st', b') => (None, st', b')
    | (Throw e, st', b') =>
        (Some (messageOr e "Registration failed. Try a different email."), st', b')
    end.

(** [handleSubmit] of the sign-in page. *)
Definition signIn (email password : string) (b : Browser) (st : State)
    : option string * State * Browser :=
  let cleanEmail := trim email in
  let cleanPassword := trim password in
  if (isEmpty cleanEmail || isEmpty cleanPassword)%bool
  then (Some "Please fill in all fields", st, b)
  else
    match login DEFAULT_AVATAR joinedNow ToString_other cleanEmail cleanPassword b st with
    | (Ok _, st', b') => (None, st', b')
    | (Throw e, st', b') =>
        (Some (messageOr e "Invalid credentials. Please try again."), st', b')
    end.

End Pages.

End Forms.

(** ** The backend: the task routes, and the client that calls them *)
Module TaskRoutes.
Import JsString Types Server.

Record TaskRow := {
  tk_id : Z; tk_user_id : Z;
  tk_title : string; tk_type : TaskType; tk_duration : string;
  tk_status : TaskStatus; tk_difficulty : Difficulty; tk_description : string
}.

(** The accounts, the [tasks] table with its [AUTO_INCREMENT] counter, and
    the number of queries made on the pool. *)
Record Db := {
  accounts : list UserRow;
  taskRows : list TaskRow;
  next_task : Z;
  queries : nat
}.

Definition asked (n : nat) (db : Db) : Db :=
  {| accounts := accounts db; taskRows := taskRows db; next_task := next_task db;
     queries := n + queries db |}.

Inductive PostReply :=
| Created (task : Task)
| PostFailed (status : Z) (error : string).

(** The row of [INSERT INTO tasks (...) VALUES (?, ?, ?, ?, 'Todo', ?, ?)]. *)
Definition insertedRow (id userId : Z) (task : Task) : TaskRow :=
  {| tk_id := id; tk_user_id := userId;
     tk_title := task_title task; tk_type := task_type task;
     tk_duration := task_duration task; tk_status := Todo;
     tk_difficulty := task_difficulty task; tk_description := task_description task |}.

Section Routes.

Variable fails : nat -> bool.
Variable sameEmail : string -> string -> bool.

(** [rows[0]] of [SELECT * FROM users WHERE email = ?] *)
Definition firstAccount (email : string) (db : Db) : option UserRow :=
  head (List.filter (fun r => sameEmail (u_email r) email) (accounts db)).

(** [app.post('/api/tasks', ...)] for the body [{ email, ...task }]: the
    reply [{ id: result.insertId, ...req.body }] is the body itself, whose
    own [id] overrides the inserted one; its [email] is left out. *)
Definition postTask (email : string) (task : Task) (db : Db) : PostReply * Db :=
  if fails (queries db) then (PostFailed 500 "Failed to create task", asked 1 db)
  else
    match firstAccount email db with
    | None => (PostFailed 404 "User not found", asked 1 db)
    | Some user =>
        if fails (S (queries db))
        then (PostFailed 500 "Failed to create task", asked 2 db)
        else (Created task,
              {| accounts := accounts db;
                 taskRows := (taskRows db
                              ++ [insertedRow (next_task db) (u_id user) task])%list;
                 next_task := (next_task db + 1)%Z;
                 queries := 2 + queries db |})
    end.

(** [RealBackend.saveTasks]: one request per task, each delivered; a reply
    that is not ok is skipped. *)
Fixpoint saveTasks (email : string) (tasks : list Task) (db : Db) : list Task * Db :=
  match tasks with
  | [] => ([], db)
  | task :: rest =>
      let '(reply, db1) := postTask email task db in
      let '(savedTasks, db2) := saveTasks email rest db1 in
      (match reply with
       | Created data => data :: savedTasks
       | PostFailed _ _ => savedTasks
       end, db2)
  end.

(** [app.get('/api/tasks/:email', ...)] as [RealBackend.getTasks] reads it:
    a reply that is not ok counts as no task. *)
Definition getTasks (email : string) (db : Db) : list TaskRow * Db :=
  if fails (queries db) then ([], asked 1 db)
  else
    match firstAccount email db with
    | None => ([], asked 1 db)
    | Some user =>
        if fails (S (queries db)) then ([], asked 2 db)
        else (List.filter (fun r => (tk_user_id r =? u_id user)%Z) (taskRows db),
              asked 2 db)
    end.

End Routes.

(** A database with one account and no task, for the examples. *)
Definition sampleDb : Db :=
  {| accounts := [sampleUser]; taskRows := []; next_task := 1; queries := 0 |}.

End TaskRoutes.

(* ===================================================================== *)
(** * Part II: properties                                                 *)
(* ===================================================================== *)

(** ** Strings *)
Section StringFacts.
Import JsString Metrics.

#[local] Arguments String.append !_ _ / : simpl nomatch.

Lemma spanDigits_sound s ds r :
  spanDigits s = (ds, r) ->
  s = ds ++ r /\ allDigits ds = true /\ headFails isDigit r.
Proof.
  revert ds r. induction s as [|c s IH]; intros ds r H; simpl in H.
  - inversion H; subst. simpl. auto.
  - destruct (isDigit c) eqn:Hc.
    + destruct (spanDigits s) as [ds' r'] eqn:Hs. inversion H; subst.
      destruct (IH _ _ eq_refl) as (-> & Hd & Hh).
      simpl. rewrite Hc, Hd. auto.
    + inversion H; subst. simpl. auto.
Qed.

Lemma spanDigits_app ds r :
  allDigits ds = true -> headFails isDigit r -> spanDigits (ds ++ r) = (ds, r).
Proof.
  induction ds as [|c ds IH]; simpl; intros Hd Hr.
  - destruct r as [|c r]; simpl in *; [reflexivity | now rewrite Hr].
  - apply andb_true_iff in Hd as [Hc Hd]. rewrite Hc, (IH Hd Hr). reflexivity.
Qed.

Lemma trimStart_sound s :
  exists ws, s = ws ++ trimStart s /\ allSpaces ws = true /\ headFails isSpace (trimStart s).
Proof.
  induction s as [|c s (ws & Hs & Hw & Hh)]; simpl.
  - exists EmptyString. auto.
  - destruct (isSpace c) eqn:Hc.
    + exists (String c ws). simpl. rewrite Hc, Hw. rewrite <- Hs. auto.
    + exists EmptyString. simpl. auto.
Qed.

Lemma trimStart_app ws r :
  allSpaces ws = true -> headFails isSpace r -> trimStart (ws ++ r) = r.
Proof.
  induction ws as [|c ws IH]; simpl; intros Hw Hr.
  - destruct r as [|c r]; simpl in *; [reflexivity | now rewrite Hr].
  - apply andb_true_iff in Hw as [Hc Hw]. rewrite Hc. auto.
Qed.

Lemma append_assoc (a b c : string) : (a ++ b) ++ c = a ++ (b ++ c).
Proof. induction a; simpl; congruence. Qed.

Lemma matchHere_sound u s ip fp :
  matchHere u s = Some (ip, fp) -> MatchesAt u s ip fp.
Proof.
  unfold matchHere, MatchesAt.
  destruct (spanDigits s) as [ip0 r1] eqn:H1.
  destruct (spanDigits_sound _ _ _ H1) as (-> & Hip & Hr1).
  destruct ip0 as [|i0 ip0]; [discriminate|].
  set (IP := String i0 ip0) in *.
  assert (Hfr : forall fp0 r2,
      (fp0 = EmptyString /\ r2 = r1 \/
       (fp0 <> EmptyString /\ allDigits fp0 = true /\ r1 = String "." (fp0 ++ r2))) ->
      match trimStart r2 with
      | String c _ => if Ascii.eqb c u then Some (IP, fp0) else None
      | EmptyString => None
      end = Some (ip, fp) ->
      exists ws post,
        IP ++ r1 = ip ++ fraction fp ++ ws ++ String u post /\
        ip <> EmptyString /\ allDigits ip = true /\ allDigits fp = true /\
        allSpaces ws = true).
  { intros fp0 r2 Hcase Hm.
    destruct (trimStart_sound r2) as (ws & Hr2 & Hws & _).
    destruct (trimStart r2) as [|c post]; [discriminate|].
    destruct (Ascii.eqb_spec c u) as [->|]; [|discriminate].
    inversion Hm; subst ip fp. exists ws, post.
    destruct Hcase as [[-> ->] | (Hne & Hfd & ->)].
    - simpl fraction. rewrite Hr2 at 1. simpl. repeat split; auto; discriminate.
    - destruct fp0 as [|f0 fp0]; [congruence|].
      unfold fraction. rewrite Hr2 at 1. simpl.
      repeat split; auto; discriminate. }
  destruct r1 as [|c1 t]; simpl afterDot.
  - intros Hm. apply (Hfr EmptyString EmptyString); [left; auto | exact Hm].
  - destruct (Ascii.eqb_spec c1 ".") as [->|Hne].
    + destruct (spanDigits t) as [fp0 r3] eqn:H2.
      destruct (spanDigits_sound _ _ _ H2) as (-> & Hfp & _).
      destruct fp0 as [|f0 fp0].
      * intros Hm. apply (Hfr EmptyString (String "." r3)); [left; auto | exact Hm].
      * intros Hm. apply (Hfr (String f0 fp0) r3); [|exact Hm].
        right. repeat split; auto; discriminate.
    + intros Hm. apply (Hfr EmptyString (String c1 t)); [left; auto | exact Hm].
Qed.

Lemma matchHere_complete u s ip fp :
  unitLetter u -> MatchesAt u s ip fp -> matchHere u s = Some (ip, fp).
Proof.
  intros (Hud & Hus & Hudot) (ws & post & -> & Hne & Hip & Hfp & Hws).
  assert (Htail : trimStart (ws ++ String u post) = String u post)
    by (apply trimStart_app; simpl; auto).
  assert (Hhead : headFails isDigit (ws ++ String u post)).
  { destruct ws as [|w ws]; simpl; auto.
    simpl in Hws. apply andb_true_iff in Hws as [Hw _].
    clear -Hw. destruct w as [[] [] [] [] [] [] [] []]; try reflexivity; discriminate. }
  unfold matchHere. destruct fp as [|f0 fp]; simpl fraction.
  - simpl. rewrite (spanDigits_app ip _ Hip Hhead).
    destruct ip as [|i0 ip]; [congruence|].
    assert (Hnd : afterDot (ws ++ String u post) = None).
    { destruct ws as [|w ws]; simpl.
      - destruct (Ascii.eqb_spec u "."); congruence.
      - simpl in Hws. apply andb_true_iff in Hws as [Hw _].
        destruct (Ascii.eqb_spec w "."); [subst; discriminate | reflexivity]. }
    rewrite Hnd, Htail. now rewrite Ascii.eqb_refl.
  - change (String "." (String f0 fp) ++ ws ++ String u post)
      with (String "." (String f0 fp ++ ws ++ String u post)).
    rewrite (spanDigits_app ip (String "." (String f0 fp ++ ws ++ String u post)) Hip)
      by reflexivity.
    destruct ip as [|i0 ip]; [congruence|].
    change (afterDot (String "." (String f0 fp ++ ws ++ String u post)))
      with (Some (String f0 fp ++ ws ++ String u post)).
    cbv iota beta.
    rewrite (spanDigits_app (String f0 fp) _ Hfp Hhead).
    rewrite Htail. now rewrite Ascii.eqb_refl.
Qed.

End StringFacts.

(** ** The learning-hours parser *)
Section ParseDurationFacts.
Import JsString Metrics.

#[local] Arguments String.append !_ _ / : simpl nomatch.

Ltac each_char c := destruct c as [[] [] [] [] [] [] [] []].

Lemma lowerChar_isDigit c : isDigit (lowerChar c) = isDigit c.
Proof. each_char c; reflexivity. Qed.

Lemma lowerChar_digit c : isDigit c = true -> lowerChar c = c.
Proof. each_char c; intros H; try reflexivity; discriminate. Qed.

Lemma digit_plain c :
  isDigit c = true ->
  isSpace c = false /\ Ascii.eqb c "+" = false /\ Ascii.eqb c "-" = false
  /\ Ascii.eqb c "." = false.
Proof. each_char c; intros H; try discriminate; repeat split. Qed.

Lemma isZero_proper a b : a == b -> isZero a = isZero b.
Proof.
  intros H. unfold isZero.
  destruct (Qeq_bool a 0) eqn:Ha, (Qeq_bool b 0) eqn:Hb; try reflexivity.
  - apply Qeq_bool_iff in Ha. apply Qeq_bool_neq in Hb. exfalso. apply Hb.
    now rewrite <- H.
  - apply Qeq_bool_iff in Hb. apply Qeq_bool_neq in Ha. exfalso. apply Ha.
    now rewrite H.
Qed.

(** *** Purely numeric texts *)

Lemma toLowerCase_digits s : allDigits s = true -> toLowerCase s = s.
Proof.
  induction s as [|c s IH]; simpl; intros H; [reflexivity|].
  apply andb_true_iff in H as [Hc Hs]. now rewrite (lowerChar_digit c Hc), IH.
Qed.

Lemma trimEnd_digits s : allDigits s = true -> trimEnd s = s.
Proof.
  induction s as [|c s IH]; simpl; intros H; [reflexivity|].
  apply andb_true_iff in H as [Hc Hs]. rewrite (IH Hs).
  destruct s; [|reflexivity]. now destruct (digit_plain c Hc) as (-> & _).
Qed.

Lemma trim_digits s : allDigits s = true -> trim s = s.
Proof.
  intros H. unfold trim. destruct s as [|c s]; [reflexivity|].
  simpl in H. apply andb_true_iff in H as [Hc Hs].
  simpl trimStart. destruct (digit_plain c Hc) as (-> & _).
  apply trimEnd_digits. simpl. now rewrite Hc, Hs.
Qed.

Lemma spanDigits_all s : allDigits s = true -> spanDigits s = (s, EmptyString).
Proof.
  induction s as [|c s IH]; simpl; intros H; [reflexivity|].
  apply andb_true_iff in H as [Hc Hs]. now rewrite Hc, (IH Hs).
Qed.

Lemma regexMatch_digits u s : allDigits s = true -> regexMatch u s = None.
Proof.
  induction s as [|c s IH]; intros H; [reflexivity|].
  assert (Hs : allDigits s = true) by (simpl in H; now apply andb_true_iff in H).
  simpl regexMatch. unfold matchHere. rewrite (spanDigits_all _ H). simpl.
  exact (IH Hs).
Qed.

Lemma append_empty (s : string) : s ++ EmptyString = s.
Proof. induction s; simpl; congruence. Qed.

Lemma parseFloat_digits s :
  s <> EmptyString -> allDigits s = true ->
  exists v, parseFloat s = Some v /\ v == inject_Z (digitsValue s).
Proof.
  intros Hne H. destruct s as [|c s]; [congruence|].
  pose proof H as H0. simpl in H0. apply andb_true_iff in H0 as [Hc Hs].
  destruct (digit_plain c Hc) as (Hsp & Hplus & Hminus & Hdot).
  unfold parseFloat. simpl trimStart. rewrite Hsp.
  unfold readSign. rewrite Hplus, Hminus.
  rewrite (spanDigits_all _ H). simpl afterDot. cbv iota beta.
  eexists. split; [reflexivity|].
  unfold decimalValue, readExponent. rewrite append_empty. simpl String.length.
  simpl Qpower. change (inject_Z (10 ^ Z.of_nat 0)) with 1%Q. field.
Qed.

Lemma parseDuration_numeric s :
  s <> EmptyString -> allDigits s = true ->
  parseDuration s ==
    if (digitsValue s =? 0)%Z then 1 else inject_Z (digitsValue s).
Proof.
  intros Hne H. destruct (parseFloat_digits s Hne H) as (v & Hv & Hval).
  unfold parseDuration. destruct s as [|c s]; [congruence|].
  rewrite (toLowerCase_digits _ H), (trim_digits _ H).
  rewrite !(regexMatch_digits _ _ H), Hv.
  change (isZero 0) with true. cbv iota beta.
  rewrite (isZero_proper _ _ Hval). unfold isZero.
  destruct (Z.eqb_spec (digitsValue (String c s)) 0) as [E|E].
  - rewrite E. reflexivity.
  - destruct (Qeq_bool (inject_Z (digitsValue (String c s))) 0) eqn:Hq; [|exact Hval].
    apply Qeq_bool_iff in Hq. exfalso. apply E.
    unfold Qeq in Hq. simpl in Hq. lia.
Qed.

(** *** Texts without a digit *)

Lemma noDigits_toLowerCase s : noDigits s = true -> noDigits (toLowerCase s) = true.
Proof.
  induction s as [|c s IH]; simpl; intros H; [reflexivity|].
  apply andb_true_iff in H as [Hc Hs]. now rewrite lowerChar_isDigit, Hc, IH.
Qed.

Lemma noDigits_trimStart s : noDigits s = true -> noDigits (trimStart s) = true.
Proof.
  induction s as [|c s IH]; simpl; intros H; [reflexivity|].
  destruct (isSpace c); [|exact H]. apply andb_true_iff in H as [_ Hs]. auto.
Qed.

Lemma noDigits_trimEnd s : noDigits s = true -> noDigits (trimEnd s) = true.
Proof.
  induction s as [|c s IH]; simpl; intros H; [reflexivity|].
  apply andb_true_iff in H as [Hc Hs]. specialize (IH Hs).
  destruct (trimEnd s) as [|c' s'].
  - destruct (isSpace c); simpl; [reflexivity | now rewrite Hc].
  - simpl in *. now rewrite Hc, IH.
Qed.

Lemma spanDigits_none s : noDigits s = true -> spanDigits s = (EmptyString, s).
Proof.
  destruct s as [|c s]; simpl; intros H; [reflexivity|].
  apply andb_true_iff in H as [Hc _]. now destruct (isDigit c).
Qed.

Lemma regexMatch_no_digit u s : noDigits s = true -> regexMatch u s = None.
Proof.
  induction s as [|c s IH]; intros H; [reflexivity|].
  simpl regexMatch. unfold matchHere. rewrite (spanDigits_none _ H).
  simpl in H. apply andb_true_iff in H as [_ Hs]. auto.
Qed.

Lemma parseFloat_no_digit s : noDigits s = true -> parseFloat s = None.
Proof.
  intros H. apply noDigits_trimStart in H. unfold parseFloat.
  assert (Hsign : noDigits (snd (readSign (trimStart s))) = true).
  { destruct (trimStart s) as [|c t]; [reflexivity|]. unfold readSign.
    pose proof H as H'. simpl in H'. apply andb_true_iff in H' as [_ Ht].
    destruct (Ascii.eqb c "+"); [exact Ht|]. destruct (Ascii.eqb c "-"); [exact Ht|exact H]. }
  destruct (readSign (trimStart s)) as [neg s1]. simpl in Hsign.
  rewrite (spanDigits_none _ Hsign).
  destruct s1 as [|c t]; [reflexivity|]. unfold afterDot.
  simpl in Hsign. apply andb_true_iff in Hsign as [_ Ht].
  destruct (Ascii.eqb c "."); [|reflexivity].
  now rewrite (spanDigits_none _ Ht).
Qed.

Lemma parseDuration_no_digit s :
  s <> EmptyString -> noDigits s = true -> parseDuration s == 1.
Proof.
  intros Hne H. unfold parseDuration. destruct s as [|c s]; [congruence|].
  assert (Hd : noDigits (trim (toLowerCase (String c s))) = true)
    by (apply noDigits_trimEnd, noDigits_trimStart, noDigits_toLowerCase, H).
  rewrite !(regexMatch_no_digit _ _ Hd), (parseFloat_no_digit _ Hd).
  reflexivity.
Qed.

(** *** The rule in general *)

Lemma parseDuration_rule s :
  s <> EmptyString ->
  let d := trim (toLowerCase s) in
  let total := (amountOf (regexMatch "h" d) + amountOf (regexMatch "m" d) / 60)%Q in
  parseDuration s ==
    if isZero total
    then match parseFloat d with
         | Some v => if isZero v then 1 else v
         | None => 1
         end
    else total.
Proof.
  intros Hne d total. unfold parseDuration.
  destruct s as [|c s]; [congruence|]. fold d.
  set (hours := match regexMatch "m" d with
                | Some g => _
                | None => _
                end).
  assert (Ht : hours == total).
  { unfold hours, total, amountOf.
    destruct (regexMatch "h" d), (regexMatch "m" d); field. }
  rewrite (isZero_proper _ _ Ht).
  destruct (isZero total) eqn:Hz.
  - destruct (parseFloat d) as [v|].
    + destruct (isZero v); reflexivity.
    + rewrite (isZero_proper _ _ Ht), Hz. reflexivity.
  - rewrite (isZero_proper _ _ Ht), Hz. exact Ht.
Qed.

End ParseDurationFacts.

(** ** Claims on the MetricsEngine and the TaskStore *)
Section MetricsClaims.
Import JsString Metrics Types Dashboard TaskStore.

(** C1, as the code has it.  For every non-empty duration text the parser
    returns the number standing before the first "h" match, as hours, plus
    the number standing before the first "m" match divided by 60; when that
    sum is zero it returns the leading number of the text as [parseFloat]
    reads it, if there is one and it is not zero; otherwise 1.  So a purely
    numeric text counts as hours and a text without any digit yields 1.  The
    empty text yields 0.  The two expressions accept exactly "digits, an
    optional dot and digits, white space, the unit letter".  The examples:
    "2 hours" gives 2, "90 mins" 1.5, "1h 30m" 1.5, "5" gives 5. *)
Theorem parseDuration_amended :
  (parseDuration "2 hours" == 2
   /\ parseDuration "90 mins" == 3 # 2
   /\ parseDuration "1h 30m" == 3 # 2
   /\ parseDuration "5" == 5
   /\ parseDuration "" == 0)
  /\ (forall s, s <> EmptyString ->
        let d := trim (toLowerCase s) in
        let total := (amountOf (regexMatch "h" d)
                      + amountOf (regexMatch "m" d) / 60)%Q in
        parseDuration s ==
          if isZero total
          then match parseFloat d with
               | Some v => if isZero v then 1 else v
               | None => 1
               end
          else total)
  /\ (forall s, s <> EmptyString -> allDigits s = true ->
        parseDuration s ==
          if (digitsValue s =? 0)%Z then 1 else inject_Z (digitsValue s))
  /\ (forall s, s <> EmptyString -> noDigits s = true -> parseDuration s == 1)
  /\ (unitLetter "h" /\ unitLetter "m"
      /\ forall u s ip fp, unitLetter u ->
           (matchHere u s = Some (ip, fp) <-> MatchesAt u s ip fp)).
Proof.
  split; [|split; [|split; [|split]]].
  - repeat split; vm_compute; reflexivity.
  - exact parseDuration_rule.
  - exact parseDuration_numeric.
  - exact parseDuration_no_digit.
  - split; [|split]; try (repeat split; discriminate).
    intros u s ip fp Hu. split.
    + apply matchHere_sound.
    + now apply matchHere_complete.
Qed.

Lemma parseDuration_amended_witness :
  "45" <> EmptyString /\ allDigits "45" = true /\ parseDuration "45" == 45.
Proof.
  split; [discriminate|]. split; [reflexivity|].
  exact (proj1 (proj2 (proj2 parseDuration_amended)) "45"
           ltac:(discriminate) eq_refl).
Defined.

(** C1 as stated fails: the empty text does not yield the 1-hour fallback. *)
Lemma parseDuration_empty_not_fallback : ~ parseDuration "" == 1.
Proof. vm_compute. discriminate. Qed.

(** C2, as the code has it.  Toggling the same id twice gives back the task
    list when no task with that id is In Progress; one toggle leaves a task
    with that id Todo or Done (Done becomes Todo, anything else Done) and
    leaves every other task as it was; a task In Progress ends up Todo. *)
Theorem toggle_twice_amended (tasks : list Task) (taskId : string) :
  (Forall (fun t => task_id t = taskId -> task_status t <> TaskInProgress) tasks ->
   toggleTaskStatus (toggleTaskStatus tasks taskId) taskId = tasks)
  /\ (forall i t, tasks !! i = Some t ->
        exists t', toggleTaskStatus tasks taskId !! i = Some t'
          /\ task_id t' = task_id t
          /\ (task_id t <> taskId -> t' = t)
          /\ (task_id t = taskId ->
                (task_status t = Done -> task_status t' = Todo)
                /\ (task_status t <> Done -> task_status t' = Done)))
  /\ (forall i t, tasks !! i = Some t -> task_id t = taskId ->
        task_status t = TaskInProgress ->
        task_status <$> (toggleTaskStatus (toggleTaskStatus tasks taskId) taskId !! i)
          = Some Todo).
Proof.
  split; [|split].
  - induction 1 as [|t l Ht _ IH]; [reflexivity|].
    simpl. rewrite IH. f_equal.
    destruct (String.eqb_spec (task_id t) taskId) as [E|E]; simpl.
    + rewrite (proj2 (String.eqb_eq _ _) E).
      specialize (Ht E). destruct t as [? ? ? ? st ? ?]; simpl in *.
      destruct st; [reflexivity | congruence | reflexivity].
    + now rewrite (proj2 (String.eqb_neq _ _) E).
  - intros i t Hi. unfold toggleTaskStatus. rewrite list_lookup_fmap, Hi. simpl.
    eexists. split; [reflexivity|].
    destruct (String.eqb_spec (task_id t) taskId) as [E|E]; simpl.
    + repeat split; try congruence.
      * intros ->. reflexivity.
      * intros Hs. destruct (task_status t); simpl; congruence.
    + repeat split; congruence.
  - intros i t Hi E Hs. unfold toggleTaskStatus.
    rewrite !list_lookup_fmap, Hi. simpl.
    rewrite (proj2 (String.eqb_eq _ _) E). simpl.
    rewrite (proj2 (String.eqb_eq _ _) E). rewrite Hs. reflexivity.
Qed.

Lemma toggle_twice_amended_witness :
  toggleTaskStatus (toggleTaskStatus [sampleTask Todo; sampleTask Done] "t1") "t1"
  = [sampleTask Todo; sampleTask Done].
Proof.
  apply (proj1 (toggle_twice_amended [sampleTask Todo; sampleTask Done] "t1")).
  repeat constructor; simpl; discriminate.
Defined.

(** C2 as stated fails: a task In Progress does not get its status back. *)
Lemma toggle_twice_in_progress :
  task_status <$> head (toggleTaskStatus (toggleTaskStatus [sampleTask TaskInProgress] "t1") "t1")
  <> task_status <$> head [sampleTask TaskInProgress].
Proof. vm_compute. discriminate. Qed.

End MetricsClaims.

(** ** Profile strength *)
Section ProfileStrengthClaims.
Import JsString Types Dashboard.

Lemma field_points (f : option string) (score : Z) :
  match f with
  | Some val => if (2 <? strlen val)%Z then (score + 10)%Z else score
  | None => score
  end = (score + points 10 (populated f))%Z.
Proof.
  destruct f as [val|]; simpl; [destruct (2 <? strlen val)%Z|]; simpl; lia.
Qed.

Lemma avatar_points (a : option string) (score : Z) :
  match a with
  | Some a => if (negb (String.eqb a "") && (50 <? strlen a)%Z)%bool
              then (score + 10)%Z else score
  | None => score
  end = (score + points 10 (match a with
                            | Some a => (50 <? strlen a)%Z
                            | None => false
                            end))%Z.
Proof.
  destruct a as [a|]; simpl; [|lia].
  destruct a as [|c a]; simpl; [lia|].
  destruct (50 <? strlen (String c a))%Z; simpl; lia.
Qed.

Lemma lengthAtLeast_count {A} (xs : option (list A)) (n : Z) :
  (0 < n)%Z -> lengthAtLeast xs n = (n <=? count xs)%Z.
Proof.
  intros Hn. destruct xs as [l|]; simpl; [reflexivity|].
  symmetry. apply Z.leb_gt. exact Hn.
Qed.

Lemma calculateProfileStrength_unclamped (user : UserProfile) :
  calculateProfileStrength user = spec_profileStrength user.
Proof.
  unfold calculateProfileStrength, spec_profileStrength, spec_weights.
  simpl fold_left.
  change (stringField user "name") with (name user).
  change (stringField user "role") with (role user).
  change (stringField user "location") with (location user).
  change (stringField user "bio") with (bio user).
  change (stringField user "targetRole") with (targetRole user).
  rewrite !field_points, avatar_points.
  rewrite !lengthAtLeast_count by lia.
  f_equal.
  destruct (3 <=? count (skills user))%Z, (1 <=? count (skills user))%Z,
    (1 <=? count (experience user))%Z, (1 <=? count (education user))%Z,
    (1 <=? count (projects user))%Z; unfold points; lia.
Qed.

Lemma spec_weights_range (user : UserProfile) : (0 <= spec_weights user <= 100)%Z.
Proof.
  unfold spec_weights, points.
  repeat match goal with
         | |- context [if ?b then _ else _] => destruct b
         end; lia.
Qed.

(** C5.  The profile-strength score is the sum of the fixed weights, capped
    at 100 (the sum never exceeds 100, so the cap never bites); a profile
    with no populated identity field, no avatar and no skill, experience,
    education or project scores 0; a profile with all five identity fields
    populated, an avatar longer than 50, at least three skills and at least
    one experience, education and project entry scores exactly 100. *)
Theorem profileStrength_weights (user : UserProfile) :
  calculateProfileStrength user = Z.min 100 (spec_weights user)
  /\ calculateProfileStrength user = spec_weights user
  /\ (populated (name user) = false -> populated (role user) = false ->
      populated (location user) = false -> populated (bio user) = false ->
      populated (targetRole user) = false ->
      avatarUrl user = None ->
      count (skills user) = 0%Z -> count (experience user) = 0%Z ->
      count (education user) = 0%Z -> count (projects user) = 0%Z ->
      calculateProfileStrength user = 0%Z)
  /\ (populated (name user) = true -> populated (role user) = true ->
      populated (location user) = true -> populated (bio user) = true ->
      populated (targetRole user) = true ->
      (exists a, avatarUrl user = Some a /\ (50 < strlen a)%Z) ->
      (3 <= count (skills user))%Z -> (1 <= count (experience user))%Z ->
      (1 <= count (education user))%Z -> (1 <= count (projects user))%Z ->
      calculateProfileStrength user = 100%Z).
Proof.
  pose proof (spec_weights_range user) as Hr.
  rewrite calculateProfileStrength_unclamped. unfold spec_profileStrength.
  split; [reflexivity|]. split; [lia|]. split.
  - intros H1 H2 H3 H4 H5 Ha Hs He Hd Hp. unfold spec_weights.
    rewrite H1, H2, H3, H4, H5, Ha, Hs, He, Hd, Hp. reflexivity.
  - intros H1 H2 H3 H4 H5 (a & Ha & Hlen) Hs He Hd Hp. unfold spec_weights.
    rewrite H1, H2, H3, H4, H5, Ha.
    rewrite (proj2 (Z.ltb_lt _ _) Hlen).
    rewrite (proj2 (Z.leb_le _ _) Hs), (proj2 (Z.leb_le _ _) He),
      (proj2 (Z.leb_le _ _) Hd), (proj2 (Z.leb_le _ _) Hp).
    reflexivity.
Qed.

End ProfileStrengthClaims.

Lemma profileStrength_weights_witness :
  Dashboard.calculateProfileStrength Dashboard.emptyProfile = 0%Z
  /\ Dashboard.calculateProfileStrength Dashboard.fullProfile = 100%Z.
Proof.
  split.
  - apply (proj1 (proj2 (proj2 (profileStrength_weights Dashboard.emptyProfile))));
      reflexivity.
  - apply (proj2 (proj2 (proj2 (profileStrength_weights Dashboard.fullProfile))));
      try reflexivity; try (vm_compute; discriminate).
    eexists. split; [reflexivity | reflexivity].
Defined.

(** ** The trend series *)
Section TrendClaims.
Import JsString Types Dashboard.

Variable Date_parse : string -> option Date.
Variable now : Date.

Lemma chartLoop_points (random : nat -> Q) joined n score todo :
  forall i calls data,
    (0 <= i)%Z -> (i + Z.of_nat todo <= n)%Z ->
    (todo = O \/ calls = Z.to_nat (i - 1)) ->
    chartLoop random joined n score todo i calls data
    = (data ++ List.map (fun k => pointAt random joined n score (i + Z.of_nat k))
                        (seq 0 todo))%list.
Proof.
  induction todo as [|todo IH]; intros i calls data Hi Hn Hc.
  - simpl. now rewrite app_nil_r.
  - destruct Hc as [Hc|Hc]; [discriminate|].
    cbn [chartLoop].
    destruct (chartStep random joined n score i calls) as [pt calls'] eqn:Hstep.
    rewrite IH; try lia.
    + rewrite <- app_assoc. f_equal. cbn [seq List.map app].
      f_equal.
      * unfold pointAt. rewrite Z.add_0_r, <- Hc, Hstep. reflexivity.
      * rewrite <- seq_shift, List.map_map. apply List.map_ext.
        intros k. f_equal. lia.
    + destruct todo as [|todo]; [now left|right].
      unfold chartStep in Hstep.
      destruct ((i <? n - 1) && (0 <? i))%Z eqn:Hin; inversion Hstep; subst.
      * apply andb_true_iff in Hin as [_ H0]. apply Z.ltb_lt in H0. lia.
      * apply andb_false_iff in Hin as [H|H]; [apply Z.ltb_ge in H | apply Z.ltb_ge in H].
        -- lia.
        -- replace i with 0%Z by lia. reflexivity.
Qed.

Lemma generateTrendChart_points (random : nat -> Q) joinedDateStr score :
  let joined := parseJoined Date_parse now joinedDateStr in
  let n := pointsToGenerate now joined in
  generateTrendChart Date_parse now random joinedDateStr score
  = List.map (fun k => pointAt random joined n score (Z.of_nat k)) (seq 0 (Z.to_nat n)).
Proof.
  intros joined n. unfold generateTrendChart. fold joined. fold n.
  rewrite chartLoop_points; [reflexivity | lia | | right; reflexivity].
  unfold n, pointsToGenerate. lia.
Qed.

Lemma round_integer (z : Z) (x : Q) : x == inject_Z z -> round x = z.
Proof.
  intros H. unfold round.
  assert (E : x + (1 # 2) == inject_Z z + (1 # 2)) by now rewrite H.
  rewrite (Qfloor_comp _ _ E). unfold Qfloor, Qplus, inject_Z. simpl.
  change (Z.pos (1 * 2)) with 2%Z.
  symmetry. apply Z.div_unique with (r := 1%Z); lia.
Qed.






End TrendClaims.



(** ** The RoadmapReconciler *)
Section RoadmapClaims.
Import JsString Types Roadmap.

Lemma forEach_open_items (p : RoadmapPhase) (its : list RoadmapItem) (acc : list Entry) :
  fold_left (fun acc it =>
               if negb (isCompleted (item_status it))
               then pushEntry (received p) it acc else acc) its acc
  = (acc ++ List.map (entryOf p)
              (List.filter (fun it => negb (isCompleted (item_status it))) its))%list.
Proof.
  revert acc. induction its as [|it its IH]; intros acc; simpl.
  - now rewrite app_nil_r.
  - rewrite IH. destruct (negb (isCompleted (item_status it))); [|reflexivity].
    unfold pushEntry. now rewrite <- app_assoc.
Qed.

Lemma forEach_all_items (p : RoadmapPhase) (its : list RoadmapItem) (acc : list Entry) :
  fold_left (fun acc it => pushEntry (received p) it acc) its acc
  = (acc ++ List.map (entryOf p) its)%list.
Proof.
  revert acc. induction its as [|it its IH]; intros acc; simpl.
  - now rewrite app_nil_r.
  - rewrite IH. unfold pushEntry. now rewrite <- app_assoc.
Qed.

Lemma collectActive_received (roadmap : list RoadmapPhase) (acc : list Entry) :
  collectActive (received <$> roadmap) acc
  = Ok (acc ++ flat_map
                 (fun p => List.map (entryOf p)
                             (List.filter (fun it => negb (isCompleted (item_status it)))
                                          (phase_items p)))
                 roadmap)%list.
Proof.
  revert acc. induction roadmap as [|p roadmap IH]; intros acc.
  - simpl. now rewrite app_nil_r.
  - cbn [fmap list_fmap collectActive].
    assert (Hg : statusGuard (status (received p)) = true)
      by (simpl; destruct (phase_status p); reflexivity).
    rewrite Hg. unfold forEachItem. cbn [items received mbind result_bind].
    rewrite forEach_open_items, IH. cbn [flat_map]. now rewrite <- app_assoc.
Qed.

Lemma mapIndexed_untagged (others : list Entry) (k : nat) :
  mapIndexed toAction (Z.of_nat (S k)) others
  = List.map (fun '(i, e) =>
                {| action_id := Z.of_nat (S i);
                   action_title := item_title (item e);
                   action_duration := orElse (item_subtitle (item e)) (phaseDuration e);
                   action_tag := "";
                   action_type := classify (item_title (item e)) |})
             (combine (seq k (length others)) others).
Proof.
  revert k. induction others as [|e others IH]; intros k; [reflexivity|].
  cbn [mapIndexed length seq combine List.map]. f_equal.
  replace (Z.of_nat (S k) + 1)%Z with (Z.of_nat (S (S k))) by lia. apply IH.
Qed.

Lemma recommendedActions_received (roadmap : list RoadmapPhase) :
  recommendedActions (received <$> roadmap) = Ok (spec_actions roadmap).
Proof.
  unfold recommendedActions. rewrite collectActive_received. cbn [mbind result_bind app].
  unfold spec_actions, spec_candidates.
  set (open := flat_map _ roadmap).
  assert (Hcand :
    match open, received <$> roadmap with
    | [], first :: _ => forEachItem first (fun it acc => pushEntry first it acc) open
    | _, _ => Ok open
    end
    = Ok (match open, roadmap with
          | [], first :: _ => List.map (entryOf first) (phase_items first)
          | _, _ => open
          end)).
  { destruct open as [|e open']; [|destruct roadmap; reflexivity].
    destruct roadmap as [|p roadmap]; [reflexivity|].
    cbn [fmap list_fmap]. unfold forEachItem. cbn [items received].
    now rewrite forEach_all_items. }
  rewrite Hcand. cbn [mbind result_bind].
  destruct (firstn 3 _) as [|e0 others]; [reflexivity|].
  cbn [mapIndexed]. f_equal.
  change (0 + 1)%Z with (Z.of_nat 1). rewrite mapIndexed_untagged. reflexivity.
Qed.

Lemma untagged_tags (ks : list nat) (others : list Entry) :
  action_tag <$>
    List.map (fun '(i, e) =>
                {| action_id := Z.of_nat (S i);
                   action_title := item_title (item e);
                   action_duration := orElse (item_subtitle (item e)) (phaseDuration e);
                   action_tag := "";
                   action_type := classify (item_title (item e)) |})
             (combine ks others)
  = replicate (length (combine ks others)) "".
Proof.
  revert others. induction ks as [|k ks IH]; intros [|e others]; try reflexivity.
  simpl. f_equal. apply IH.
Qed.

Lemma spec_actions_length (roadmap : list RoadmapPhase) :
  1 <= length (spec_actions roadmap) <= 3.
Proof.
  unfold spec_actions.
  assert (Hle : length (firstn 3 (spec_candidates roadmap)) <= 3)
    by (rewrite length_take; lia).
  destruct (firstn 3 (spec_candidates roadmap)) as [|e0 others]; simpl in *; [lia|].
  rewrite length_map, length_combine, length_seq. lia.
Qed.

(** C3.  For every roadmap the recommended actions are the ones of the
    reference algorithm: the items that are not Completed, in phase order and
    then item order; if there is none and a phase exists, all items of the
    first phase; the first three of these, the first tagged "High Impact" and
    the others with an empty tag; the single action "Start Foundation Phase"
    lasting "4 Weeks" when nothing is left, as for a roadmap without
    phases. *)
Theorem recommendedActions_reference (roadmap : list RoadmapPhase) :
  recommendedActions (received <$> roadmap) = Ok (spec_actions roadmap)
  /\ 1 <= length (spec_actions roadmap) <= 3
  /\ (action_tag <$> spec_actions roadmap)
     = "High Impact" :: replicate (length (spec_actions roadmap) - 1) ""
  /\ recommendedActions [] = Ok [fallbackAction]
  /\ action_title fallbackAction = "Start Foundation Phase"
  /\ action_duration fallbackAction = "4 Weeks".
Proof.
  split; [apply recommendedActions_received|].
  split; [apply spec_actions_length|].
  split; [|repeat split].
  unfold spec_actions.
  destruct (firstn 3 (spec_candidates roadmap)) as [|e0 others]; [reflexivity|].
  cbn [fmap list_fmap length]. f_equal.
  replace (S (length (List.map _ (combine (seq 0 (length others)) others))) - 1)
    with (length (combine (seq 0 (length others)) others))
    by (rewrite length_map; lia).
  apply untagged_tags.
Qed.

(** The example of the specification: a Completed first phase and a second
    phase In Progress with four open items give the first three of them. *)
Example recommendedActions_two_phases :
  recommendedActions (received <$> sampleRoadmap)
  = Ok [ {| action_id := 0; action_title := "Advanced React patterns";
            action_duration := "2 Weeks"; action_tag := "High Impact";
            action_type := "course" |};
         {| action_id := 1; action_title := "Build a dashboard project";
            action_duration := "6 Weeks"; action_tag := "";
            action_type := "project" |};
         {| action_id := 2; action_title := "Mock interview with a mentor";
            action_duration := "6 Weeks"; action_tag := "";
            action_type := "mentor" |} ].
Proof. reflexivity. Qed.

End RoadmapClaims.

(** ** The RoadmapReconciler on parsed values *)
Section ReconcileClaims.
Import Json Reconcile.

Lemma field_object (k : string) (v : json) (w : json) :
  field k v = Some w -> exists fields, v = JObj fields /\ lookupField k fields = Some w.
Proof. destruct v; try discriminate. intros H. eauto. Qed.

Lemma isObject_true (v : json) : isObject v = true -> exists fields, v = JObj fields.
Proof. destruct v; try discriminate. eauto. Qed.

(** *** On phases that carry their items *)

Lemma pushEntry_object (pf : list (string * json)) (it : json) (acc : list Entry) :
  pushEntry (JObj pf) it acc = Ok (acc ++ [entryOf (JObj pf) it])%list.
Proof. reflexivity. Qed.

Lemma visitItem_object (pf f : list (string * json)) (acc : list Entry) :
  visitItem (JObj pf) (JObj f) acc
  = Ok (if isOpen (JObj f) then (acc ++ [entryOf (JObj pf) (JObj f)])%list else acc).
Proof.
  unfold visitItem, isOpen. cbn [getProp mbind result_bind field].
  destruct (negb (strictEqStr (lookupField "status" f) "Completed")); reflexivity.
Qed.

Lemma push_all_items (pf : list (string * json)) (its : list json) (acc : list Entry) :
  forEachElem (pushEntry (JObj pf)) its acc
  = Ok (acc ++ (entryOf (JObj pf) <$> its))%list.
Proof.
  revert acc. induction its as [|it its IH]; intros acc.
  - cbn [forEachElem fmap list_fmap]. now rewrite app_nil_r.
  - cbn [forEachElem]. rewrite pushEntry_object. cbn [mbind result_bind].
    rewrite IH. cbn [fmap list_fmap]. now rewrite <- app_assoc.
Qed.

Lemma visit_open_items (pf : list (string * json)) (its : list json) (acc : list Entry) :
  forallb isObject its = true ->
  forEachElem (visitItem (JObj pf)) its acc
  = Ok (acc ++ (entryOf (JObj pf) <$> List.filter isOpen its))%list.
Proof.
  revert acc. induction its as [|it its IH]; intros acc Hobj.
  - cbn [forEachElem List.filter fmap list_fmap]. now rewrite app_nil_r.
  - cbn [forallb] in Hobj. apply andb_true_iff in Hobj as [Hit Hobj].
    destruct (isObject_true it Hit) as (f & ->).
    cbn [forEachElem List.filter]. rewrite visitItem_object.
    cbn [mbind result_bind]. destruct (isOpen (JObj f)).
    + rewrite (IH _ Hobj). cbn [fmap list_fmap]. now rewrite <- app_assoc.
    + apply IH, Hobj.
Qed.

Lemma shaped_inv (p : json) :
  shaped p = true ->
  exists pf its, p = JObj pf /\ lookupField "items" pf = Some (JArr its)
                 /\ itemsOf p = Some its /\ forallb isObject its = true.
Proof.
  unfold shaped. intros H. apply andb_true_iff in H as [Hobj H].
  destruct (isObject_true p Hobj) as (pf & ->).
  unfold itemsOf in *. cbn [field] in *.
  destruct (lookupField "items" pf) as [[ | | | | its | ]|] eqn:Hl; try discriminate.
  exists pf, its. repeat split; [exact Hl | exact H].
Qed.

Lemma visitPhase_shaped (p : json) (acc : list Entry) :
  shaped p = true -> visitPhase p acc = Ok (acc ++ openEntries p)%list.
Proof.
  intros H. destruct (shaped_inv p H) as (pf & its & -> & Hitems & Hof & Hobj).
  unfold visitPhase, openEntries. cbn [getProp mbind result_bind field].
  destruct (statusGuard (lookupField "status" pf)).
  - rewrite Hitems, Hof. cbn [forEach default]. apply visit_open_items, Hobj.
  - now rewrite app_nil_r.
Qed.

Lemma forEach_phases (phases : list json) (acc : list Entry) :
  forallb shaped phases = true ->
  forEachElem visitPhase phases acc = Ok (acc ++ flat_map openEntries phases)%list.
Proof.
  revert acc. induction phases as [|p phases IH]; intros acc H.
  - cbn [forEachElem flat_map]. now rewrite app_nil_r.
  - cbn [forallb] in H. apply andb_true_iff in H as [Hp H].
    cbn [forEachElem flat_map]. rewrite (visitPhase_shaped p acc Hp).
    cbn [mbind result_bind]. rewrite (IH _ H). now rewrite <- app_assoc.
Qed.

Lemma reconcile_shaped (phases : list json) :
  forallb shaped phases = true ->
  recommendedActions (JArr phases)
  = (actions ← mapIndexed toAction 0%Z (firstn 3 (candidates phases));
     Ok (match actions with
         | [] => [fallbackAction]
         | _ => actions
         end)).
Proof.
  intros H. unfold recommendedActions. cbn [forEach].
  rewrite (forEach_phases phases [] H). cbn [mbind result_bind app].
  unfold candidates.
  destruct (flat_map openEntries phases) as [|e open] eqn:Hopen.
  - destruct phases as [|first rest].
    + reflexivity.
    + cbn [forallb] in H. apply andb_true_iff in H as [Hp _].
      destruct (shaped_inv first Hp) as (pf & its & -> & Hitems & Hof & _).
      cbn [getProp mbind result_bind]. rewrite Hitems, Hof. cbn [forEach default].
      rewrite push_all_items. cbn [app mbind result_bind].
      destruct (mapIndexed toAction 0%Z _) as [[|a actions]|]; reflexivity.
  - cbn [mbind result_bind].
    destruct (mapIndexed toAction 0%Z _) as [[|a actions]|]; reflexivity.
Qed.

(** *** The actions *)

Lemma toAction_titled (e : Entry) (idx : Z) :
  titled (item e) = true ->
  exists a, toAction e idx = Ok a
            /\ Some (JStr (action_title a)) = field "title" (item e)
            /\ action_duration a = durationOf e
            /\ action_id a = idx.
Proof.
  unfold titled, durationOf. intros H.
  destruct (field "title" (item e)) as [[ | | | t | | ]|] eqn:Ht; try discriminate.
  destruct (field_object _ _ _ Ht) as (f & Hf & Hl).
  unfold toAction. rewrite Hf. cbn [getProp mbind result_bind field]. rewrite Hl.
  eexists. split; [reflexivity|]. repeat split.
Qed.

Lemma toAction_untitled (e : Entry) (idx : Z) :
  titled (item e) = false -> exists err, toAction e idx = Throw err.
Proof.
  unfold titled, toAction. destruct (item e) as [ | b | q | t | l | f ];
    try (intros _; eexists; reflexivity).
  cbn [field getProp mbind result_bind].
  destruct (lookupField "title" f) as [[ | | | t | | ]|]; try discriminate;
    intros _; eexists; reflexivity.
Qed.

Lemma mapIndexed_titled (l : list Entry) (idx : Z) :
  forallb (fun e => titled (item e)) l = true ->
  exists actions,
    mapIndexed toAction idx l = Ok actions
    /\ (fun a => Some (JStr (action_title a))) <$> actions
       = (fun e => field "title" (item e)) <$> l
    /\ action_duration <$> actions = durationOf <$> l.
Proof.
  revert idx. induction l as [|e l IH]; intros idx H.
  - exists []. repeat split.
  - cbn [forallb] in H. apply andb_true_iff in H as [He H].
    destruct (toAction_titled e idx He) as (a & Ha & Ht & Hd & _).
    destruct (IH (idx + 1)%Z H) as (actions & Hm & Hts & Hds).
    exists (a :: actions). cbn [mapIndexed]. rewrite Ha. cbn [mbind result_bind].
    rewrite Hm. cbn [mbind result_bind fmap list_fmap].
    split; [reflexivity|]. split; f_equal; assumption.
Qed.

Lemma mapIndexed_untitled (l : list Entry) (idx : Z) :
  forallb (fun e => titled (item e)) l = false ->
  exists err, mapIndexed toAction idx l = Throw err.
Proof.
  revert idx. induction l as [|e l IH]; intros idx H; [discriminate|].
  cbn [forallb] in H. cbn [mapIndexed].
  destruct (titled (item e)) eqn:He.
  - destruct (toAction_titled e idx He) as (a & -> & _).
    cbn [mbind result_bind]. destruct (IH (idx + 1)%Z H) as (err & ->).
    eexists. reflexivity.
  - destruct (toAction_untitled e idx He) as (err & ->). eexists. reflexivity.
Qed.

(** *** What makes the reconciliation throw *)

Lemma forEachElem_throws {S} (cb : json -> S -> result S) (x : json) (elems : list json) :
  (forall s, exists err, cb x s = Throw err) ->
  x ∈ elems ->
  forall s, exists err, forEachElem cb elems s = Throw err.
Proof.
  intros Hx Hin. induction elems as [|y rest IH]; intros s.
  - inversion Hin.
  - cbn [forEachElem]. destruct (cb y s) as [s'|err] eqn:Hy.
    + cbn [mbind result_bind]. apply IH.
      apply elem_of_cons in Hin as [->|Hin]; [|exact Hin].
      destruct (Hx s) as (err & Herr). congruence.
    + eexists. reflexivity.
Qed.

Lemma forEach_not_array {S} (v : jsval) (cb : json -> S -> result S) (s : S) :
  (forall elems, v <> Some (JArr elems)) -> exists err, forEach v cb s = Throw err.
Proof.
  intros H. destruct v as [[ | | | | elems | ]|]; try (eexists; reflexivity).
  exfalso. eapply H. reflexivity.
Qed.

Lemma visitPhase_throws (phase : json) :
  phase = JNull
  \/ (statusGuard (field "status" phase) = true /\ itemsOf phase = None)
  \/ (statusGuard (field "status" phase) = true
      /\ exists its, itemsOf phase = Some its /\ JNull ∈ its) ->
  forall s, exists err, visitPhase phase s = Throw err.
Proof.
  intros [-> | [[Hg Hnone] | (Hg & its & Hits & Hnull)]] s.
  - eexists. reflexivity.
  - destruct phase as [ | | | | | pf ]; try discriminate.
    unfold visitPhase. cbn [getProp mbind result_bind field] in *. rewrite Hg.
    apply forEach_not_array. intros elems Hv.
    unfold itemsOf in Hnone. cbn [field] in Hnone. rewrite Hv in Hnone. discriminate.
  - destruct phase as [ | | | | | pf ]; try discriminate.
    unfold visitPhase. cbn [getProp mbind result_bind field] in *. rewrite Hg.
    unfold itemsOf in Hits. cbn [field] in Hits.
    destruct (lookupField "items" pf) as [[ | | | | its' | ]|]; try discriminate.
    injection Hits as ->. cbn [forEach].
    apply (forEachElem_throws _ JNull); [|exact Hnull].
    intros s'. eexists. reflexivity.
Qed.

(** *** Agreement with the reconciliation on typed roadmaps *)

Lemma itemValue_open (it : Types.RoadmapItem) :
  isOpen (itemValue it) = negb (Roadmap.isCompleted (Types.item_status it)).
Proof.
  unfold isOpen, itemValue.
  destruct (Types.item_status it), (Types.item_subtitle it); reflexivity.
Qed.

Lemma itemValues_open (its : list Types.RoadmapItem) :
  List.filter isOpen (itemValue <$> its)
  = itemValue <$> List.filter (fun it => negb (Roadmap.isCompleted (Types.item_status it)))
                              its.
Proof.
  induction its as [|it its IH]; [reflexivity|].
  cbn [fmap list_fmap List.filter]. rewrite itemValue_open.
  destruct (negb (Roadmap.isCompleted (Types.item_status it)));
    cbn [fmap list_fmap]; [f_equal|]; exact IH.
Qed.

Lemma itemValues_objects (its : list Types.RoadmapItem) :
  forallb isObject (itemValue <$> its) = true.
Proof. induction its as [|it its IH]; [reflexivity | exact IH]. Qed.

Lemma phaseValue_items (p : Types.RoadmapPhase) :
  itemsOf (phaseValue p) = Some (itemValue <$> Types.phase_items p).
Proof. reflexivity. Qed.

Lemma phaseValue_shaped (roadmap : list Types.RoadmapPhase) :
  forallb shaped (phaseValue <$> roadmap) = true.
Proof.
  induction roadmap as [|p roadmap IH]; [reflexivity|].
  cbn [fmap list_fmap forallb]. rewrite IH, andb_true_r.
  unfold shaped. rewrite phaseValue_items. apply itemValues_objects.
Qed.

Lemma entryValues (p : Types.RoadmapPhase) (its : list Types.RoadmapItem) :
  entryOf (phaseValue p) <$> (itemValue <$> its)
  = entryValue <$> List.map (Roadmap.entryOf p) its.
Proof.
  induction its as [|it its IH]; [reflexivity|].
  cbn [fmap list_fmap List.map]. f_equal. exact IH.
Qed.

Lemma phaseValue_open (p : Types.RoadmapPhase) :
  openEntries (phaseValue p)
  = entryValue <$>
      List.map (Roadmap.entryOf p)
        (List.filter (fun it => negb (Roadmap.isCompleted (Types.item_status it)))
                     (Types.phase_items p)).
Proof.
  unfold openEntries. rewrite phaseValue_items. cbn [default id].
  assert (Hg : statusGuard (field "status" (phaseValue p)) = true)
    by (unfold phaseValue; destruct (Types.phase_status p); reflexivity).
  rewrite Hg, itemValues_open. apply entryValues.
Qed.

Lemma candidates_typed (roadmap : list Types.RoadmapPhase) :
  candidates (phaseValue <$> roadmap) = entryValue <$> Roadmap.spec_candidates roadmap.
Proof.
  unfold candidates, Roadmap.spec_candidates.
  assert (Hopen : flat_map openEntries (phaseValue <$> roadmap)
                  = entryValue <$>
                      flat_map (fun p => List.map (Roadmap.entryOf p)
                                  (List.filter
                                     (fun it => negb (Roadmap.isCompleted
                                                        (Types.item_status it)))
                                     (Types.phase_items p)))
                               roadmap).
  { induction roadmap as [|p roadmap IH]; [reflexivity|].
    cbn [fmap list_fmap flat_map]. rewrite phaseValue_open, IH.
    symmetry. apply fmap_app. }
  rewrite Hopen. destruct (flat_map _ roadmap) as [|e open].
  - destruct roadmap as [|first rest]; [reflexivity|].
    cbn [fmap list_fmap]. rewrite phaseValue_items. cbn [default id].
    apply entryValues.
  - destruct roadmap; reflexivity.
Qed.

Lemma toAction_typed (e : Roadmap.Entry) (idx : Z) :
  toAction (entryValue e) idx = Ok (actionValue (Roadmap.toAction e idx)).
Proof.
  unfold toAction, entryValue, itemValue, actionValue, Roadmap.toAction, Roadmap.orElse.
  cbn [item phaseDuration getProp mbind result_bind].
  destruct (Types.item_subtitle (Roadmap.item e)) as [[|c r]|]; reflexivity.
Qed.

Lemma mapIndexed_typed (l : list Roadmap.Entry) (idx : Z) :
  mapIndexed toAction idx (entryValue <$> l)
  = Ok (actionValue <$> Roadmap.mapIndexed Roadmap.toAction idx l).
Proof.
  revert idx. induction l as [|e l IH]; intros idx; [reflexivity|].
  cbn [fmap list_fmap mapIndexed Roadmap.mapIndexed].
  rewrite toAction_typed. cbn [mbind result_bind].
  assert (E : mapIndexed toAction (idx + 1)%Z (entryValue <$> l)
              = Ok (actionValue <$> Roadmap.mapIndexed Roadmap.toAction (idx + 1)%Z l))
    by apply IH.
  cbn [fmap] in E. rewrite E. reflexivity.
Qed.

(** On the value of a well-typed roadmap the reconciliation gives what it
    gives on the typed roadmap, action by action. *)
Lemma reconcile_typed (roadmap : list Types.RoadmapPhase) :
  exists actions,
    Roadmap.recommendedActions (Roadmap.received <$> roadmap) = Ok actions
    /\ recommendedActions (JArr (phaseValue <$> roadmap)) = Ok (actionValue <$> actions).
Proof.
  exists (Roadmap.spec_actions roadmap).
  split; [apply recommendedActions_received|].
  rewrite (reconcile_shaped _ (phaseValue_shaped roadmap)), candidates_typed.
  rewrite <- fmap_take, mapIndexed_typed. cbn [mbind result_bind].
  unfold Roadmap.spec_actions.
  destruct (firstn 3 (Roadmap.spec_candidates roadmap)) as [|e0 others]; [reflexivity|].
  cbn [Roadmap.mapIndexed fmap list_fmap]. do 2 f_equal.
  change (0 + 1)%Z with (Z.of_nat 1). rewrite mapIndexed_untagged. reflexivity.
Qed.

(** C4, as the code has it.  The reconciliation runs on the value the
    roadmap text parsed to.  When that value is an array of phase objects
    that each carry an [items] array of objects, it does not throw exactly
    when each of the at most three entries it selects has a text for
    [title]: it then yields one to three action records, in the order of
    the entries, or the single foundation action when there is no entry; the
    [subtitle] and [status] of an item and the [title], [status] and
    [duration] of a phase may be absent, an absent or empty subtitle giving
    the duration of the phase.  It throws, and the [catch] of [fetchData]
    gets the exception instead of an action list, when the value is not an
    array, when a phase is [null], and when a phase whose status is one of
    the three has no [items] array or has [null] among its items. *)
Theorem reconcile_tolerance (roadmapResult : json) :
  (forall phases,
      roadmapResult = JArr phases -> forallb shaped phases = true ->
      let top := firstn 3 (candidates phases) in
      (forallb (fun e => titled (item e)) top = true ->
       exists actions,
         recommendedActions roadmapResult = Ok actions
         /\ 1 <= length actions <= 3
         /\ (top = [] -> actions = [fallbackAction])
         /\ (top <> [] ->
             (fun a => Some (JStr (action_title a))) <$> actions
             = (fun e => field "title" (item e)) <$> top
             /\ action_duration <$> actions
                = (fun e => if truthy (field "subtitle" (item e))
                            then field "subtitle" (item e)
                            else phaseDuration e) <$> top))
      /\ (forallb (fun e => titled (item e)) top = false ->
          exists err, recommendedActions roadmapResult = Throw err))
  /\ ((forall phases, roadmapResult <> JArr phases) ->
      exists err, recommendedActions roadmapResult = Throw err)
  /\ (forall phases phase,
        roadmapResult = JArr phases -> phase ∈ phases ->
        phase = JNull
        \/ (statusGuard (field "status" phase) = true /\ itemsOf phase = None)
        \/ (statusGuard (field "status" phase) = true
            /\ exists its, itemsOf phase = Some its /\ JNull ∈ its) ->
        exists err, recommendedActions roadmapResult = Throw err).
Proof.
  split; [|split].
  - intros phases -> Hshaped top. rewrite (reconcile_shaped phases Hshaped).
    fold top. split.
    + intros Htitled.
      destruct (mapIndexed_titled top 0%Z Htitled) as (actions & -> & Hts & Hds).
      cbn [mbind result_bind].
      assert (Hlen : length actions = length top).
      { apply (f_equal length) in Hts. now rewrite !length_fmap in Hts. }
      assert (Htop : length top <= 3) by (unfold top; rewrite length_take; lia).
      destruct actions as [|a actions].
      * exists [fallbackAction]. split; [reflexivity|]. split; [simpl; lia|].
        split; [reflexivity|]. intros Hne.
        destruct top; [congruence | discriminate].
      * exists (a :: actions). split; [reflexivity|]. split; [simpl in *; lia|].
        split; [intros E; rewrite E in Hlen; discriminate|].
        intros _. split; [exact Hts | exact Hds].
    + intros Huntitled.
      destruct (mapIndexed_untitled top 0%Z Huntitled) as (err & ->).
      eexists. reflexivity.
  - intros Hnot. unfold recommendedActions.
    destruct (forEach_not_array (Some roadmapResult) visitPhase []) as (err & ->).
    + intros elems E. injection E as ->. eapply Hnot. reflexivity.
    + eexists. reflexivity.
  - intros phases phase -> Hin Hbad. unfold recommendedActions. cbn [forEach].
    destruct (forEachElem_throws visitPhase phase phases (visitPhase_throws phase Hbad)
                Hin []) as (err & ->).
    eexists. reflexivity.
Qed.

End ReconcileClaims.

Lemma reconcile_tolerance_witness :
  exists actions,
    Reconcile.recommendedActions Reconcile.sampleRoadmap = Ok actions
    /\ 1 <= length actions <= 3.
Proof.
  destruct (proj1 (proj1 (reconcile_tolerance Reconcile.sampleRoadmap)
                     _ eq_refl eq_refl) eq_refl)
    as (actions & Hok & Hlen & _).
  exists actions. split; [exact Hok | exact Hlen].
Defined.

(** The sample roadmap gives its two items, the second with the duration of
    its phase. *)
Example reconcile_sample :
  Reconcile.recommendedActions Reconcile.sampleRoadmap
  = Ok [ {| Reconcile.action_id := 0;
            Reconcile.action_title := "Advanced React patterns";
            Reconcile.action_duration := Some (Json.JStr "2 Weeks");
            Reconcile.action_tag := "High Impact";
            Reconcile.action_type := "course" |};
         {| Reconcile.action_id := 1;
            Reconcile.action_title := "Build a dashboard project";
            Reconcile.action_duration := Some (Json.JStr "6 Weeks");
            Reconcile.action_tag := EmptyString;
            Reconcile.action_type := "project" |} ].
Proof. reflexivity. Qed.

(** C4 as stated fails: a phase without [items] makes the reconciliation
    throw, and no list of at most three actions comes out. *)
Lemma reconcile_missing_items_throws :
  Reconcile.recommendedActions Reconcile.missingItems
  = Throw "TypeError: Cannot read properties of undefined (reading 'forEach')"
  /\ ~ exists actions,
         Reconcile.recommendedActions Reconcile.missingItems = Ok actions
         /\ length actions <= 3.
Proof.
  split; [reflexivity|]. intros (actions & H & _). discriminate H.
Qed.

(** An item without [title] is not tolerated either. *)
Example reconcile_untitled_item_throws :
  Reconcile.recommendedActions Reconcile.untitledItem
  = Throw "TypeError: Cannot read properties of undefined (reading 'toLowerCase')".
Proof. reflexivity. Qed.


(** ** The FocusResolver *)
Section FocusClaims.
Import Json FocusResolver.

Variable JSON_parse : string -> option json.
Variable ToString_other : json -> result string.
Variable gtZero_other : json -> result bool.

Abbreviation resolve := (getSmartFocusArea JSON_parse ToString_other gtZero_other).
Lemma isActive_true p :
  isActive p = Ok true ->
  exists fields, p = JObj fields /\ inProgress p = true.
Proof.
  destruct p; try discriminate. intros H. eexists. split; [reflexivity|].
  unfold isActive in H. cbn [getProp mbind result_bind] in H. simpl. congruence.
Qed.

Lemma arrayFind_found elems x :
  arrayFind isActive elems = Ok (Some x) -> x ∈ elems /\ isActive x = Ok true.
Proof.
  induction elems as [|y l IH]; simpl; [discriminate|].
  destruct (isActive y) as [[|]|] eqn:Hy; cbn [mbind result_bind]; try discriminate.
  - intros H. inversion H; subst. split; [left | exact Hy].
  - intros H. destruct (IH H) as [Hin Hx]. split; [now right | exact Hx].
Qed.

Lemma guarded_text (rule : string -> result (option jsval)) c r :
  guarded (Some (String c r)) rule = tryCatch (rule (String c r)) (fun _ => None).
Proof. reflexivity. Qed.

(** *** The first rule on every cache entry *)

Lemma isActive_other p :
  p <> JNull -> (forall fields, p <> JObj fields) -> isActive p = Ok false.
Proof.
  intros Hnull Hobj. destruct p; try reflexivity; [congruence|].
  exfalso. eapply Hobj. reflexivity.
Qed.

Lemma scan_firstActive elems :
  tryCatch (activePhase ← arrayFind isActive elems;
            if truthy activePhase
            then t ← getProp activePhase "title"; Ok (Some t)
            else Ok None)
           (fun _ => None)
  = lookupField "title" <$> firstActive elems.
Proof.
  induction elems as [|x rest IH]; [reflexivity|].
  cbn [arrayFind].
  destruct x as [ | b | q | t | l | fields ].
  - reflexivity.
  - rewrite isActive_other by (intros; discriminate). exact IH.
  - rewrite isActive_other by (intros; discriminate). exact IH.
  - rewrite isActive_other by (intros; discriminate). exact IH.
  - rewrite isActive_other by (intros; discriminate). exact IH.
  - assert (E : isActive (JObj fields)
                 = Ok (strictEqStr (lookupField "status" fields) "In Progress"))
      by reflexivity.
    rewrite E. cbn [mbind result_bind firstActive].
    destruct (strictEqStr (lookupField "status" fields) "In Progress").
    + reflexivity.
    + exact IH.
Qed.

Lemma roadmap_rule cached :
  guarded cached (roadmapRule JSON_parse)
  = lookupField "title" <$> activePhaseOf JSON_parse cached.
Proof.
  destruct cached as [[|c r]|]; try reflexivity.
  rewrite guarded_text. unfold roadmapRule, activePhaseOf.
  destruct (JSON_parse (String c r)) as [roadmap|]; [|reflexivity].
  destruct roadmap; try reflexivity.
  cbn [find]. apply scan_firstActive.
Qed.

(** *** The second rule on every cache entry *)

(** The statements after [analysis.criticalGaps[0]] has been read. *)
Lemma name_rule (gap : jsval) :
  tryCatch (gapName ← getProp gap "name";
            text ← toTemplateString ToString_other gapName;
            Ok (Some (Some (JStr ("Closing Skill Gap: " ++ text)))))
           (fun _ => None)
  = gapFocus ToString_other (nameOf gap).
Proof.
  destruct gap as [[ | b | q | t | l | fields ]|]; try reflexivity;
    cbn [getProp mbind result_bind nameOf gapFocus String.eqb Ascii.eqb Bool.eqb];
    destruct (toTemplateString ToString_other _); reflexivity.
Qed.

Lemma positive_length (n : nat) :
  gtZero gtZero_other (Some (JNum (inject_Z (Z.of_nat (S n))))) = Ok true.
Proof.
  unfold gtZero. destruct (Qlt_le_dec 0 (inject_Z (Z.of_nat (S n)))) as [_|Hle].
  - reflexivity.
  - exfalso. unfold Qle in Hle. simpl in Hle. lia.
Qed.

Lemma gaps_rule (gaps : jsval) :
  tryCatch (if truthy gaps then
              len ← getProp gaps "length";
              positive ← gtZero gtZero_other len;
              if positive : bool then
                gap ← getProp gaps "0";
                gapName ← getProp gap "name";
                text ← toTemplateString ToString_other gapName;
                Ok (Some (Some (JStr ("Closing Skill Gap: " ++ text))))
              else Ok None
            else Ok None)
           (fun _ => None)
  = gapFocus ToString_other (gapOf gtZero_other gaps).
Proof.
  destruct gaps as [[ | b | q | t | l | fields ]|]; try reflexivity.
  - destruct b; reflexivity.
  - cbn [truthy]. destruct (negb (Qeq_bool q 0)); reflexivity.
  - destruct t as [|c r]; [reflexivity|].
    cbn [truthy getProp String.eqb Ascii.eqb Bool.eqb mbind result_bind String.length
         gapOf].
    rewrite positive_length. cbn [mbind result_bind].
    exact (name_rule (Some (JStr (String c EmptyString)))).
  - destruct l as [|gap rest]; [reflexivity|].
    cbn [truthy getProp String.eqb Ascii.eqb Bool.eqb mbind result_bind length head
         gapOf].
    rewrite positive_length. cbn [mbind result_bind].
    exact (name_rule (Some gap)).
  - cbn [truthy getProp mbind result_bind gapOf].
    destruct (gtZero gtZero_other (lookupField "length" fields)) as [[|]|];
      try reflexivity.
    cbn [mbind result_bind]. exact (name_rule (lookupField "0" fields)).
Qed.

Lemma analysis_rule cached :
  guarded cached (analysisRule JSON_parse ToString_other gtZero_other)
  = gapFocus ToString_other (firstGap JSON_parse gtZero_other cached).
Proof.
  destruct cached as [[|c r]|]; try reflexivity.
  rewrite guarded_text. unfold analysisRule, firstGap.
  destruct (JSON_parse (String c r)) as [analysis|]; [|reflexivity].
  destruct analysis as [ | b | q | t | l | fields ]; try reflexivity.
  cbn [getProp mbind result_bind]. apply gaps_rule.
Qed.

Lemma guarded_roadmap_shape cached v :
  guarded cached (roadmapRule JSON_parse) = Some v ->
  exists raw elems fields,
    cached = Some raw /\ JSON_parse raw = Some (JArr elems)
    /\ JObj fields ∈ elems
    /\ lookupField "status" fields = Some (JStr "In Progress")
    /\ v = lookupField "title" fields.
Proof.
  destruct cached as [[|c r]|]; try discriminate.
  rewrite guarded_text. unfold roadmapRule.
  destruct (JSON_parse (String c r)) as [roadmap|] eqn:Hparse; [|discriminate].
  destruct roadmap; try discriminate. cbn [find].
  destruct (arrayFind isActive elems) as [[x|]|] eqn:Hfind; try discriminate.
  destruct (arrayFind_found _ _ Hfind) as [Hin Hact].
  destruct (isActive_true _ Hact) as (fields & -> & Hip).
  cbn [mbind result_bind truthy getProp tryCatch]. intros H. inversion H; subst.
  exists (String c r), elems, fields. repeat split; auto.
  unfold inProgress, strictEqStr in Hip.
  destruct (lookupField "status" fields) as [[]|]; try discriminate.
  apply String.eqb_eq in Hip. now subst.
Qed.

(** C7, as the code has it.  For every cache state the resolver returns a
    value (every exception of the two rules is caught) and that value is, in
    priority order: (1) the [title] property, verbatim, of the first object
    of the cached roadmap array whose status is "In Progress", the scan
    ending without a phase at a [null] element; else (2) "Closing Skill
    Gap: " followed by the name of the first critical gap of the cached
    analysis, rendered as a template literal renders it, provided that
    first gap is not [null] and that rendering does not throw; else (3)
    "Core Competencies & Growth".  A missing, empty or unparseable entry is
    a miss, and so is a roadmap entry that holds no array and an analysis
    entry that holds no object.  The result is a non-empty string except
    when rule (1) fires: then it is whatever the phase's [title] holds,
    which may be the empty string or [undefined]. *)
Theorem focus_priority_amended (localStorage : gmap string string)
    (email role targetRole : string) :
  let cachedRoadmap := localStorage !! roadmapKey email role targetRole in
  let cachedAnalysis := localStorage !! analysisKey email role targetRole in
  let focus := resolve localStorage email role targetRole in
  focus
  = match activePhaseOf JSON_parse cachedRoadmap with
    | Some fields => lookupField "title" fields
    | None =>
        match firstGap JSON_parse gtZero_other cachedAnalysis with
        | FirstGap name =>
            match toTemplateString ToString_other name with
            | Ok text => Some (JStr ("Closing Skill Gap: " ++ text))
            | Throw _ => Some (JStr "Core Competencies & Growth")
            end
        | NoGap => Some (JStr "Core Competencies & Growth")
        end
    end
  /\ ((exists text, focus = Some (JStr text) /\ text <> EmptyString)
      \/ (exists raw elems fields,
            cachedRoadmap = Some raw /\ JSON_parse raw = Some (JArr elems)
            /\ JObj fields ∈ elems
            /\ lookupField "status" fields = Some (JStr "In Progress")
            /\ focus = lookupField "title" fields)).
Proof.
  intros cachedRoadmap cachedAnalysis focus.
  unfold focus, getSmartFocusArea. fold cachedRoadmap. fold cachedAnalysis.
  split.
  - rewrite roadmap_rule, analysis_rule.
    destruct (activePhaseOf JSON_parse cachedRoadmap) as [fields|]; [reflexivity|].
    cbn [fmap option_fmap option_map].
    destruct (firstGap JSON_parse gtZero_other cachedAnalysis) as [|name];
      [reflexivity|].
    cbn [gapFocus]. destruct (toTemplateString ToString_other name); reflexivity.
  - destruct (guarded cachedRoadmap (roadmapRule JSON_parse)) as [v|] eqn:Hr.
    + right. destruct (guarded_roadmap_shape _ _ Hr)
        as (raw & elems & fields & Hc & Hp & Hin & Hst & ->).
      exists raw, elems, fields. auto.
    + left. rewrite analysis_rule.
      destruct (firstGap JSON_parse gtZero_other cachedAnalysis) as [|name];
        cbn [gapFocus].
      * eexists. split; [reflexivity | discriminate].
      * destruct (toTemplateString ToString_other name) as [text|];
          (eexists; split; [reflexivity | discriminate]).
Qed.

End FocusClaims.

Lemma focus_priority_amended_witness :
  FocusResolver.getSmartFocusArea Json.readJson (fun _ => Ok "") (fun _ => Ok false)
    FocusResolver.sampleCache "alex@example.com" "Designer" "Staff Designer"
  = Some (Json.JStr "Core Tech").
Proof.
  rewrite (proj1 (focus_priority_amended Json.readJson (fun _ => Ok "")
                    (fun _ => Ok false) FocusResolver.sampleCache
                    "alex@example.com" "Designer" "Staff Designer")).
  reflexivity.
Defined.

(** A [null] ahead of the phase In Progress ends the scan, and a first gap
    that is [null] gives no name: the fallback is returned. *)
Example focus_null_first :
  FocusResolver.getSmartFocusArea Json.readJson (fun _ => Ok "") (fun _ => Ok false)
    FocusResolver.nullFirstCache "alex@example.com" "Designer" "Staff Designer"
  = Some (Json.JStr "Core Competencies & Growth").
Proof. reflexivity. Qed.

(** Without a roadmap entry the first critical gap names the focus. *)
Example focus_first_gap :
  FocusResolver.getSmartFocusArea Json.readJson (fun _ => Ok "") (fun _ => Ok false)
    FocusResolver.gapCache "alex@example.com" "Designer" "Staff Designer"
  = Some (Json.JStr "Closing Skill Gap: GraphQL").
Proof. reflexivity. Qed.

(** C7 as stated fails: with a cached roadmap whose phase In Progress has an
    empty title, the resolver returns the empty string. *)
Lemma focus_empty_title :
  FocusResolver.getSmartFocusArea Json.readJson (fun _ => Ok "") (fun _ => Ok false)
    FocusResolver.emptyTitleCache "alex@example.com" "Designer" "Staff Designer"
  = Some (Json.JStr "")
  /\ ~ (exists text,
          FocusResolver.getSmartFocusArea Json.readJson (fun _ => Ok "") (fun _ => Ok false)
            FocusResolver.emptyTitleCache "alex@example.com" "Designer" "Staff Designer"
          = Some (Json.JStr text) /\ text <> EmptyString).
Proof.
  assert (H : FocusResolver.getSmartFocusArea Json.readJson (fun _ => Ok "")
                (fun _ => Ok false) FocusResolver.emptyTitleCache
                "alex@example.com" "Designer" "Staff Designer"
              = Some (Json.JStr "")) by reflexivity.
  split; [exact H|]. intros (text & Ht & Hne). rewrite H in Ht.
  inversion Ht. congruence.
Qed.

(** ** The mock persistence boundary *)
Section MockClaims.
Import Json MockBackend.

Variable DEFAULT_AVATAR : string.
Variable joinedNow : string.

Abbreviation defaultUser := (DEFAULT_USER_DATA DEFAULT_AVATAR).
Abbreviation usersDB := (getUsersDB DEFAULT_AVATAR joinedNow).

Lemma default_has_no_password : defaultUser !! "password" = None.
Proof. reflexivity. Qed.

Lemma withoutPassword_lookup (user : JsObject) : withoutPassword user !! "password" = None.
Proof. apply lookup_delete_eq. Qed.

Lemma find_some_elem {A} (f : A -> bool) (l : list A) (x : A) :
  List.find f l = Some x -> x ∈ l /\ f x = true.
Proof.
  intros H. apply List.find_some in H as [Hin Hf]. split; [|exact Hf].
  now apply list_elem_of_In.
Qed.

Lemma findIndex_lookup {A} (f : A -> bool) (l : list A) (i : nat) :
  findIndex f l = Some i -> exists x, l !! i = Some x /\ f x = true.
Proof.
  revert i. induction l as [|y l IH]; intros i; simpl; [discriminate|].
  destruct (f y) eqn:Hy.
  - intros H. inversion H; subst. exists y. auto.
  - destruct (findIndex f l) as [j|]; [|discriminate].
    intros H. inversion H; subst. destruct (IH j eq_refl) as (x & Hx & Hf).
    exists x. auto.
Qed.

(** C10.  The profile that [login], [getUser] or [updateUser] of the mock
    boundary returns never has a [password] property, although the password
    is kept with the profile in the users database: a successful login
    returns a stored user, whose [password] is the one given, without that
    property. *)
Theorem mock_hides_password (entry : UsersEntry) (email password : string)
    (lookupEmail : option string) (updates : JsObject) :
  (forall profile entry',
      login DEFAULT_AVATAR joinedNow entry email password = (Ok profile, entry') ->
      profile !! "password" = None
      /\ exists user, user ∈ (usersDB entry).1
                      /\ user !!! "password" = Some (JStr password)
                      /\ profile = withoutPassword user)
  /\ (getUser DEFAULT_AVATAR joinedNow entry lookupEmail).1 !! "password" = None
  /\ (updateUser DEFAULT_AVATAR joinedNow entry email updates).1 !! "password" = None.
Proof.
  split; [|split].
  - intros profile entry'. unfold login.
    destruct (usersDB entry) as [users entry0] eqn:Hdb.
    destruct (List.find _ users) as [user|] eqn:Hfind; [|discriminate].
    intros H. inversion H; subst. split; [apply withoutPassword_lookup|].
    destruct (find_some_elem _ _ _ Hfind) as [Hin Hf].
    apply andb_true_iff in Hf as [_ Hp].
    exists user. repeat split; auto.
    unfold hasPassword, strictEqStr in Hp.
    destruct (user !!! "password") as [[]|]; try discriminate.
    apply String.eqb_eq in Hp. now subst.
  - unfold getUser. destruct lookupEmail as [[|c r]|]; try apply default_has_no_password.
    destruct (usersDB entry) as [users entry0].
    destruct (List.find _ users); [apply withoutPassword_lookup|apply default_has_no_password].
  - unfold updateUser. destruct (usersDB entry) as [users entry0].
    destruct (findIndex _ users) as [index|]; [|apply default_has_no_password].
    destruct (users !! index); [apply withoutPassword_lookup|apply default_has_no_password].
Qed.

(** The update of the mock boundary: the entry it leaves behind. *)
Lemma mock_update_applies (entry : UsersEntry) (email : string) (updates : JsObject)
    (users : list JsObject) (entry0 : UsersEntry) (index : nat) :
  usersDB entry = (users, entry0) ->
  findIndex (hasEmail email) users = Some index ->
  exists stored saved obj,
    users !! index = Some stored
    /\ (updateUser DEFAULT_AVATAR joinedNow entry email updates).2 = Entry saved
    /\ length saved = length users
    /\ (forall j, j <> index -> saved !! j = stringifyObject <$> users !! j)
    /\ saved !! index = Some obj
    /\ (forall k, obj !! k = match updates !! k with
                            | Some v => v
                            | None => stringifyObject stored !! k
                            end).
Proof.
  intros Hdb Hidx. destruct (findIndex_lookup _ _ _ Hidx) as (stored & Hst & _).
  unfold updateUser. rewrite Hdb, Hidx, Hst. cbn [snd].
  eexists stored, _, _. split; [reflexivity|]. split; [reflexivity|].
  assert (Hlt : index < length users) by (eapply lookup_lt_Some; eauto).
  split; [|split; [|split]].
  - now rewrite length_fmap, length_insert.
  - intros j Hj. rewrite list_lookup_fmap, list_lookup_insert_ne by congruence.
    reflexivity.
  - rewrite list_lookup_fmap, list_lookup_insert_eq by exact Hlt. reflexivity.
  - intros k. unfold stringifyObject, spread. rewrite !lookup_omap, lookup_union.
    destruct (updates !! k) as [v|]; destruct (stored !! k) as [w|]; simpl;
      try reflexivity; destruct v; reflexivity.
Qed.

End MockClaims.

Lemma sample_login :
  MockBackend.login "/avatars/default.png" "November 2026"
    (MockBackend.Entry [MockBackend.sampleStoredUser]) "sam@example.com" "hunter2"
  = (Ok (MockBackend.withoutPassword
           (MockBackend.parseObject MockBackend.sampleStoredUser)),
     MockBackend.Entry [MockBackend.sampleStoredUser]).
Proof. vm_compute. reflexivity. Qed.

Lemma mock_hides_password_witness :
  exists profile entry',
    MockBackend.login "/avatars/default.png" "November 2026"
      (MockBackend.Entry [MockBackend.sampleStoredUser]) "sam@example.com" "hunter2"
    = (Ok profile, entry')
    /\ profile !! "password" = None.
Proof.
  eexists _, _. split; [exact sample_login|].
  exact (proj1 (proj1 (mock_hides_password "/avatars/default.png" "November 2026"
                         (MockBackend.Entry [MockBackend.sampleStoredUser])
                         "sam@example.com" "hunter2" None ∅) _ _ sample_login)).
Defined.




(** ** The backend update *)
Section ServerClaims.
Import Types Server.

Variable fails : nat -> bool.
Variable sameEmail : string -> string -> bool.

(** *** The calls one by one *)

Lemma txBind_ok {A B} (m : Tx A) (k : A -> Tx B) c b c' :
  txBind m k c = (Ok b, c') ->
  exists a c1, m c = (Ok a, c1) /\ k a c1 = (Ok b, c').
Proof.
  unfold txBind. destruct (m c) as [[a|e] c1]; [eauto | discriminate].
Qed.

Lemma dbCall_ok {A} (run : Conn -> A * Conn) c a c' :
  dbCall fails run c = (Ok a, c') ->
  fails (calls c) = false /\ run (tick c) = (a, c').
Proof.
  unfold dbCall. destruct (fails (calls c)); [discriminate|].
  destruct (run (tick c)) as [a0 c0]. intros H. inversion H. auto.
Qed.

Lemma wellBehaved_ret {A} (a : A) : WellBehaved fails (txRet a).
Proof.
  intros c r c' H. inversion H; subst. repeat split; auto. intros _ k Hk. lia.
Qed.

Lemma wellBehaved_throw {A} e : WellBehaved fails (@txThrow A e).
Proof.
  intros c r c' H. inversion H; subst. repeat split; auto. intros Hok. destruct Hok.
Qed.

Lemma wellBehaved_bind {A B} (m : Tx A) (k : A -> Tx B) :
  WellBehaved fails m -> (forall a, WellBehaved fails (k a)) ->
  WellBehaved fails (txBind m k).
Proof.
  intros Hm Hk c r c' H. unfold txBind in H.
  destruct (m c) as [[a|e] c1] eqn:Hmc.
  - destruct (Hm _ _ _ Hmc) as (Hi1 & Hc1 & Hf1).
    destruct (Hk a _ _ _ H) as (Hi2 & Hc2 & Hf2).
    split; [|split].
    + intros Hp. destruct (Hi1 Hp) as [E1 P1]. destruct (Hi2 P1) as [E2 P2].
      split; [congruence | exact P2].
    + lia.
    + intros Hok j Hj. destruct (Nat.lt_ge_cases j (calls c1)).
      * apply Hf1; [exact I | lia].
      * apply Hf2; [exact Hok | lia].
  - inversion H; subst. destruct (Hm _ _ _ Hmc) as (Hi1 & Hc1 & _).
    repeat split; auto; try apply Hi1; auto. intros Hok. destruct Hok.
Qed.

Lemma wellBehaved_forOf {A} (l : list A) (body : A -> Tx unit) :
  (forall x, WellBehaved fails (body x)) -> WellBehaved fails (forOf l body).
Proof.
  intros Hb. induction l as [|x l IH]; simpl.
  - apply wellBehaved_ret.
  - apply wellBehaved_bind; auto.
Qed.

Lemma wellBehaved_dbCall {A} (run : Conn -> A * Conn) :
  InTransaction run -> WellBehaved fails (dbCall fails run).
Proof.
  intros Hrun c r c' H. unfold dbCall in H.
  destruct (fails (calls c)) eqn:Hf.
  - inversion H; subst. repeat split; simpl; auto. intros Hok. destruct Hok.
  - destruct (run (tick c)) as [a c1] eqn:Hr. inversion H; subst.
    destruct (Hrun (tick c)) as [Hcalls Hiso]. rewrite Hr in Hcalls, Hiso.
    simpl in Hcalls, Hiso. split; [|split].
    + intros Hp. apply Hiso. exact Hp.
    + lia.
    + intros _ j Hj. replace j with (calls c) by lia. exact Hf.
Qed.

Lemma inTransaction_read {A} (f : Conn -> A) : InTransaction (fun c => (f c, c)).
Proof. intros c. simpl. auto. Qed.

Lemma inTransaction_write (f : Conn -> Tables -> Tables) (g : Conn -> Counters) :
  InTransaction (fun c => (tt, write (f c) (setCounters (g c) c))).
Proof.
  intros c. simpl. unfold write, setCounters. simpl.
  destruct (pending c) as [t|]; simpl; split; auto.
  intros [x Hx]. discriminate.
Qed.

Lemma inTransaction_write_only (f : Tables -> Tables) :
  InTransaction (fun c => (tt, write f c)).
Proof.
  intros c. simpl. unfold write.
  destruct (pending c) as [t|]; simpl; split; auto.
  intros [x Hx]. discriminate.
Qed.

Lemma wellBehaved_replaceAll {A R} (T : Collection A R) userId xs :
  WellBehaved fails
    (replaceAll xs (deleteWhere fails T userId) (insertInto fails T userId)).
Proof.
  destruct xs as [l|]; simpl; [|apply wellBehaved_ret].
  apply wellBehaved_bind.
  - apply wellBehaved_dbCall, inTransaction_write_only.
  - intros _. apply wellBehaved_forOf. intros x.
    apply wellBehaved_dbCall.
    apply (inTransaction_write
             (fun c t => setRows T t
                           (rowsOf T t ++ [toRow T (nextId T (counters c)) userId x])%list)
             (fun c => bumpId T (counters c))).
Qed.

Lemma wellBehaved_changes email updates :
  WellBehaved fails (changes fails sameEmail email updates).
Proof.
  unfold changes. apply wellBehaved_bind.
  - apply wellBehaved_dbCall.
    apply (inTransaction_read
             (fun c => u_id <$> List.filter (fun r => sameEmail (u_email r) email)
                                            (users (view c)))).
  - intros [|userId rest]; [apply wellBehaved_throw|].
    repeat (apply wellBehaved_bind; [|intros _]);
      try apply wellBehaved_replaceAll.
    destruct (buildUserFields updates); [apply wellBehaved_ret|].
    apply wellBehaved_dbCall, inTransaction_write_only.
Qed.

(** *** What the statements change when they succeed *)

Lemma forOf_insert_effect {A R} (T : Collection A R) userId (l : list A) :
  Lawful T ->
  forall c c' t,
    pending c = Some t ->
    forOf l (insertInto fails T userId) c = (Ok tt, c') ->
    pending c' = Some (setRows T t
                         (rowsOf T t ++ rowsFrom T userId (nextId T (counters c)) l)%list).
Proof.
  intros HT. induction l as [|x l IH]; intros c c' t Hp H.
  - inversion H; subst. simpl. now rewrite app_nil_r, (set_rows T HT).
  - simpl in H. apply txBind_ok in H as ([] & c1 & H1 & H2).
    apply dbCall_ok in H1 as [_ H1]. inversion H1 as [Hc1]. clear H1.
    assert (Hp1 : pending c1
                  = Some (setRows T t (rowsOf T t
                                       ++ [toRow T (nextId T (counters c)) userId x])%list)).
    { rewrite <- Hc1. unfold write, setCounters, tick. simpl. now rewrite Hp. }
    assert (Hk1 : counters c1 = bumpId T (counters c)).
    { rewrite <- Hc1. unfold write, setCounters, tick. simpl. now rewrite Hp. }
    rewrite (IH _ _ _ Hp1 H2), Hk1.
    rewrite (rows_set T HT), (set_set T HT), (next_bump T HT), <- app_assoc.
    reflexivity.
Qed.

Lemma replaceAll_effect {A R} (T : Collection A R) userId xs :
  Lawful T ->
  forall c c' t,
    pending c = Some t ->
    replaceAll xs (deleteWhere fails T userId) (insertInto fails T userId) c = (Ok tt, c') ->
    pending c' = Some (setRows T t
                         (replaced T userId (nextId T (counters c)) xs (rowsOf T t))).
Proof.
  intros HT c c' t Hp H. destruct xs as [l|]; simpl in *.
  - apply txBind_ok in H as ([] & c1 & H1 & H2).
    apply dbCall_ok in H1 as [_ H1]. inversion H1 as [Hc1]. clear H1.
    assert (Hp1 : pending c1
                  = Some (setRows T t
                            (List.filter (fun r => negb (owner T r =? userId)%Z)
                                         (rowsOf T t)))).
    { rewrite <- Hc1. unfold write, tick. simpl. now rewrite Hp. }
    assert (Hk1 : counters c1 = counters c).
    { rewrite <- Hc1. unfold write, tick. simpl. now rewrite Hp. }
    rewrite (forOf_insert_effect T userId l HT _ _ _ Hp1 H2), Hk1.
    now rewrite (rows_set T HT), (set_set T HT).
  - inversion H; subst. now rewrite (set_rows T HT).
Qed.

Lemma lawful_skills : Lawful skillsTable.
Proof. split; try (intros []; reflexivity); reflexivity. Qed.
Lemma lawful_experience : Lawful experienceTable.
Proof. split; try (intros []; reflexivity); reflexivity. Qed.
Lemma lawful_projects : Lawful projectsTable.
Proof. split; try (intros []; reflexivity); reflexivity. Qed.
Lemma lawful_education : Lawful educationTable.
Proof. split; try (intros []; reflexivity); reflexivity. Qed.
Lemma lawful_certifications : Lawful certificationsTable.
Proof. split; try (intros []; reflexivity); reflexivity. Qed.

Lemma update_step_effect updates userId c c' t :
  pending c = Some t ->
  match buildUserFields updates with
  | [] => txRet tt
  | _ => updateUsers fails (buildUserFields updates) userId
  end c = (Ok tt, c') ->
  pending c' = Some (setUsers t
                       ((fun r => if (u_id r =? userId)%Z then updatedRow updates r else r)
                          <$> users t)).
Proof.
  intros Hp H. unfold updatedRow.
  destruct (buildUserFields updates) as [|a fields] eqn:Hf.
  - inversion H; subst. rewrite Hp. f_equal.
    assert (E : (fun r : UserRow => if (u_id r =? userId)%Z then fold_left assign [] r else r)
                  <$> users t = users t).
    { induction (users t) as [|r l IH]; [reflexivity|].
      cbn [fmap list_fmap]. simpl fold_left. destruct (u_id r =? userId)%Z; f_equal; exact IH. }
    rewrite E. destruct t; reflexivity.
  - apply dbCall_ok in H as [_ H]. inversion H as [Hc]. unfold write, tick. simpl.
    now rewrite Hp.
Qed.

Lemma changes_effect email updates c c' t :
  pending c = Some t ->
  changes fails sameEmail email updates c = (Ok tt, c') ->
  exists userId rest s,
    u_id <$> List.filter (fun r => sameEmail (u_email r) email) (users t) = userId :: rest
    /\ pending c' = Some (updatedTables userId updates s t).
Proof.
  intros Hp H. unfold changes in H.
  apply txBind_ok in H as (found & c1 & H1 & H).
  apply dbCall_ok in H1 as [_ H1]. inversion H1 as [[Hfound Hc1]]. clear H1.
  assert (Hv : view (tick c) = t) by (unfold view, tick; simpl; now rewrite Hp).
  rewrite Hv in Hfound.
  assert (Hp1 : pending c1 = Some t) by (rewrite <- Hc1; exact Hp).
  destruct found as [|userId rest]; [discriminate|].
  apply txBind_ok in H as ([] & c2 & H2 & H).
  pose proof (update_step_effect _ _ _ _ _ Hp1 H2) as Hp2.
  apply txBind_ok in H as ([] & c3 & H3 & H).
  pose proof (replaceAll_effect skillsTable userId _ lawful_skills _ _ _ Hp2 H3) as Hp3.
  apply txBind_ok in H as ([] & c4 & H4 & H).
  pose proof (replaceAll_effect experienceTable userId _ lawful_experience _ _ _ Hp3 H4) as Hp4.
  apply txBind_ok in H as ([] & c5 & H5 & H).
  pose proof (replaceAll_effect projectsTable userId _ lawful_projects _ _ _ Hp4 H5) as Hp5.
  apply txBind_ok in H as ([] & c6 & H6 & H).
  pose proof (replaceAll_effect educationTable userId _ lawful_education _ _ _ Hp5 H6) as Hp6.
  pose proof (replaceAll_effect certificationsTable userId _ lawful_certifications _ _ _ Hp6 H)
    as Hp7.
  exists userId, rest,
    {| start_skill := next_skill (counters c2);
       start_experience := next_experience (counters c3);
       start_project := next_project (counters c4);
       start_education := next_education (counters c5);
       start_certification := next_certification (counters c6) |}.
  split; [exact Hfound|]. rewrite Hp7. reflexivity.
Qed.

(** *** The handler *)

Lemma rollback_cases (c2 : Conn) (resp : Response) (c' : Conn) :
  match rollback fails c2 with
  | (Ok _, c'') => (Json500 "Update failed", c'')
  | (Throw _, c'') => (NoResponse, c'')
  end = (resp, c') ->
  committed c' = committed c2
  /\ calls c' = S (calls c2)
  /\ ((resp = Json500 "Update failed" /\ pending c' = None
       /\ fails (calls c2) = false)
      \/ (resp = NoResponse /\ pending c' = pending c2 /\ fails (calls c2) = true)).
Proof.
  unfold rollback, dbCall. destruct (fails (calls c2)) eqn:Hf; intros H.
  - apply (f_equal fst) in H as Hr. apply (f_equal snd) in H as Hc.
    cbn [fst snd] in Hr, Hc. subst resp c'. cbn [tick committed calls pending].
    split; [reflexivity|]. split; [reflexivity|]. right. repeat split.
  - apply (f_equal fst) in H as Hr. apply (f_equal snd) in H as Hc.
    cbn [fst snd] in Hr, Hc. subst resp c'. cbn [tick committed calls pending].
    split; [reflexivity|]. split; [reflexivity|]. left. repeat split.
Qed.

Lemma putUser_cases email updates c resp c' :
  pending c = None ->
  putUser fails sameEmail email updates c = (resp, c') ->
  (resp = Json200 "Profile updated successfully"
   /\ pending c' = None
   /\ (forall k, calls c <= k < calls c' -> fails k = false)
   /\ exists userId rest s,
        u_id <$> List.filter (fun r => sameEmail (u_email r) email)
                             (users (committed c)) = userId :: rest
        /\ committed c' = updatedTables userId updates s (committed c))
  \/ (committed c' = committed c
      /\ ((resp = Json500 "Update failed" /\ pending c' = None
           /\ fails (pred (calls c')) = false)
          \/ (resp = NoResponse /\ fails (pred (calls c')) = true))).
Proof.
  intros Hp H. unfold putUser, tryBlock in H.
  unfold txBind at 1 in H. unfold beginTransaction, dbCall at 1 in H.
  assert (Hback : forall c2,
            committed c2 = committed c ->
            match rollback fails c2 with
            | (Ok _, c'') => (Json500 "Update failed", c'')
            | (Throw _, c'') => (NoResponse, c'')
            end = (resp, c') ->
            committed c' = committed c
            /\ ((resp = Json500 "Update failed" /\ pending c' = None
                 /\ fails (pred (calls c')) = false)
                \/ (resp = NoResponse /\ fails (pred (calls c')) = true))).
  { intros c2 Hc2 Hr. destruct (rollback_cases c2 resp c' Hr) as (Hcom & Hcalls & Hout).
    split; [congruence|]. rewrite Hcalls. cbn [pred].
    destruct Hout as [(? & ? & ?) | (? & _ & ?)]; [left | right]; auto. }
  destruct (fails (calls c)) eqn:Hf0.
  { right. apply (Hback (tick c)); [reflexivity | exact H]. }
  assert (Hv : view (tick c) = committed c) by (unfold view, tick; simpl; now rewrite Hp).
  rewrite Hv in H.
  set (c1 := {| committed := committed c; pending := Some (committed c);
                counters := counters (tick c); calls := calls (tick c) |}) in H.
  unfold txBind at 1 in H.
  destruct (changes fails sameEmail email updates c1) as [[[]|e] c2] eqn:Hch.
  - destruct (wellBehaved_changes email updates _ _ _ Hch) as (Hiso & Hcalls & Hclean).
    destruct (Hiso ltac:(eexists; reflexivity)) as [Hcom _].
    destruct (changes_effect email updates c1 c2 (committed c) eq_refl Hch)
      as (userId & rest & s & Hfound & Hp2).
    unfold commit, dbCall in H.
    destruct (fails (calls c2)) eqn:Hf2.
    + right. apply (Hback (tick c2)); [exact Hcom | exact H].
    + inversion H; subst. left. split; [reflexivity|]. split; [reflexivity|]. split.
      * simpl. intros k Hk. simpl in Hcalls.
        destruct (Nat.eq_dec k (calls c)) as [->|]; [exact Hf0|].
        destruct (Nat.eq_dec k (calls c2)) as [->|]; [exact Hf2|].
        apply Hclean; [exact I | simpl; lia].
      * exists userId, rest, s. split; [exact Hfound|].
        simpl. unfold view, tick. simpl. now rewrite Hp2.
  - destruct (wellBehaved_changes email updates _ _ _ Hch) as (Hiso & _ & _).
    destruct (Hiso ltac:(eexists; reflexivity)) as [Hcom _].
    right. apply (Hback c2); [exact Hcom | exact H].
Qed.

(** With no rejected call every statement goes through. *)
Lemma runs_dbCall {A} (run : Conn -> A * Conn) :
  (forall k, fails k = false) -> forall c, exists a c', dbCall fails run c = (Ok a, c').
Proof.
  intros Hno c. unfold dbCall. rewrite Hno.
  destruct (run (tick c)) as [a c']. eauto.
Qed.

Lemma runs_forOf {A} (l : list A) (body : A -> Tx unit) :
  (forall x c, exists c', body x c = (Ok tt, c')) ->
  forall c, exists c', forOf l body c = (Ok tt, c').
Proof.
  intros Hb. induction l as [|x l IH]; intros c; simpl.
  - eexists. reflexivity.
  - unfold txBind. destruct (Hb x c) as (c1 & ->). apply IH.
Qed.

Lemma runs_unit (m : Tx unit) :
  (forall c, exists a c', m c = (Ok a, c')) -> forall c, exists c', m c = (Ok tt, c').
Proof. intros H c. destruct (H c) as ([] & c' & E). eauto. Qed.

Lemma runs_replaceAll {A R} (T : Collection A R) userId xs :
  (forall k, fails k = false) ->
  forall c, exists c',
    replaceAll xs (deleteWhere fails T userId) (insertInto fails T userId) c = (Ok tt, c').
Proof.
  intros Hno c. destruct xs as [l|]; simpl; [|eexists; reflexivity].
  assert (Hd : exists c1, deleteWhere fails T userId c = (Ok tt, c1))
    by (apply runs_unit; unfold deleteWhere; apply runs_dbCall, Hno).
  destruct Hd as (c1 & Hd). unfold txBind. rewrite Hd.
  apply runs_forOf. intros x c0. apply runs_unit.
  unfold insertInto. apply runs_dbCall, Hno.
Qed.

Lemma putUser_succeeds email updates c :
  (forall k, fails k = false) ->
  pending c = None ->
  List.filter (fun r => sameEmail (u_email r) email) (users (committed c)) <> [] ->
  (putUser fails sameEmail email updates c).1 = Json200 "Profile updated successfully".
Proof.
  intros Hno Hp Hfound. unfold putUser, tryBlock.
  unfold txBind at 1. unfold beginTransaction, dbCall at 1. rewrite Hno.
  assert (Hv : view (tick c) = committed c) by (unfold view, tick; simpl; now rewrite Hp).
  rewrite Hv.
  set (c1 := {| committed := committed c; pending := Some (committed c);
                counters := counters (tick c); calls := calls (tick c) |}).
  assert (Hch : exists c2, changes fails sameEmail email updates c1 = (Ok tt, c2)).
  { unfold changes. unfold txBind at 1. unfold selectUserIds, dbCall at 1. rewrite Hno.
    change (view (tick c1)) with (committed c).
    destruct (List.filter _ (users (committed c))) as [|r rest]; [congruence|].
    cbn [fmap list_fmap].
    repeat match goal with
           | |- exists c2, txBind ?m _ ?c = _ =>
               let Hm := fresh in
               let cx := fresh "cx" in
               assert (Hm : exists c', m c = (Ok tt, c'));
               [ | destruct Hm as (cx & Hm); unfold txBind at 1; rewrite Hm ]
           end;
      try apply runs_replaceAll; auto.
    destruct (buildUserFields updates); [eexists; reflexivity|].
    apply runs_unit, runs_dbCall, Hno. }
  destruct Hch as (c2 & Hch). unfold txBind at 1. rewrite Hch.
  unfold commit, dbCall. rewrite Hno. reflexivity.
Qed.

(** The outcomes of one update request, starting from a connection without
    an open transaction.  The handler answers 200, no call on the connection
    having been rejected, with every table change of the request committed
    (the base row updated, each submitted sub-collection deleted and inserted
    again) and no transaction left open; or it answers 500 "Update failed",
    the committed tables being what they were and no transaction left open;
    or the rollback itself was rejected: the handler sends nothing, and the
    committed tables are what they were.  A rejected call always leads to
    one of the last two outcomes, and a run without a rejected call for an
    existing user to the first. *)
Lemma putUser_outcomes (email : string) (updates : Updates) (c : Conn) :
  pending c = None ->
  let resp := (putUser fails sameEmail email updates c).1 in
  let c' := (putUser fails sameEmail email updates c).2 in
  let found := List.filter (fun r => sameEmail (u_email r) email) (users (committed c)) in
  ((resp = Json200 "Profile updated successfully"
    /\ pending c' = None
    /\ (forall k, calls c <= k < calls c' -> fails k = false)
    /\ exists userId rest s,
         u_id <$> found = userId :: rest
         /\ committed c' = updatedTables userId updates s (committed c))
   \/ (resp = Json500 "Update failed" /\ pending c' = None
       /\ committed c' = committed c /\ fails (pred (calls c')) = false)
   \/ (resp = NoResponse /\ committed c' = committed c
       /\ fails (pred (calls c')) = true))
  /\ ((exists k, calls c <= k < calls c' /\ fails k = true) ->
      committed c' = committed c
      /\ (resp = Json500 "Update failed" \/ resp = NoResponse))
  /\ ((forall k, fails k = false) -> found <> [] ->
      resp = Json200 "Profile updated successfully").
Proof.
  intros Hp resp c' found.
  destruct (putUser fails sameEmail email updates c) as [r0 c0] eqn:Hput.
  pose proof (putUser_cases _ _ _ _ _ Hp Hput) as Hcases.
  subst resp c'. cbn [fst snd].
  split; [|split].
  - destruct Hcases as [Hok | (Hcom & [(Hr & Hpend & Hf) | (Hr & Hf)])].
    + left. exact Hok.
    + right. left. repeat split; assumption.
    + right. right. repeat split; assumption.
  - intros (k & Hk & Hfail).
    destruct Hcases as [(_ & _ & Hclean & _) | (Hcom & Hout)].
    + rewrite (Hclean k Hk) in Hfail. discriminate.
    + split; [exact Hcom|]. destruct Hout as [(Hr & _) | (Hr & _)]; auto.
  - intros Hno Hfound.
    pose proof (putUser_succeeds email updates c Hno Hp Hfound) as Hs.
    rewrite Hput in Hs. exact Hs.
Qed.

End ServerClaims.

(** ** The update of the persistence boundary *)
Section UpdateClaims.
Import Types Server.

Lemma whenText_cases (mk : string -> Assignment) (v : option string) :
  (whenText mk v = [] /\ textOr v = fun stored => stored)
  \/ (exists s, whenText mk v = [mk s] /\ textOr v = fun _ => Some s).
Proof.
  destruct v as [[|c s]|]; [left | right | left]; try (split; reflexivity).
  exists (String c s). split; reflexivity.
Qed.

Lemma updatedRow_columns (updates : Updates) (r : UserRow) :
  let r' := updatedRow updates r in
  (u_id r' = u_id r /\ u_email r' = u_email r /\ u_password r' = u_password r
   /\ u_joined_date r' = u_joined_date r
   /\ u_readiness_score r' = u_readiness_score r)
  /\ u_name r' = textOr (up_name updates) (u_name r)
  /\ u_role r' = textOr (up_role updates) (u_role r)
  /\ u_bio r' = textOr (up_bio updates) (u_bio r)
  /\ u_location r' = textOr (up_location updates) (u_location r)
  /\ u_target_role r' = textOr (up_targetRole updates) (u_target_role r)
  /\ u_avatar_url r' = textOr (up_avatarUrl updates) (u_avatar_url r)
  /\ u_open_to_opportunities r'
     = match up_openToOpportunities updates with
       | Some b => Some b
       | None => u_open_to_opportunities r
       end
  /\ u_profile_strength r'
     = match up_profileStrength updates with
       | Some z => if (z =? 0)%Z then u_profile_strength r else Some z
       | None => u_profile_strength r
       end.
Proof.
  destruct updates as [n ro b l t av o ps sk ex pr ed ce].
  unfold updatedRow, buildUserFields. cbn [up_name up_role up_bio up_location
    up_targetRole up_avatarUrl up_openToOpportunities up_profileStrength].
  destruct (whenText_cases SetName n) as [[-> ->] | (? & -> & ->)],
    (whenText_cases SetRole ro) as [[-> ->] | (? & -> & ->)],
    (whenText_cases SetBio b) as [[-> ->] | (? & -> & ->)],
    (whenText_cases SetLocation l) as [[-> ->] | (? & -> & ->)],
    (whenText_cases SetTargetRole t) as [[-> ->] | (? & -> & ->)],
    (whenText_cases SetAvatarUrl av) as [[-> ->] | (? & -> & ->)],
    o as [?|], ps as [z|];
    try destruct (z =? 0)%Z; repeat split; reflexivity.
Qed.

End UpdateClaims.

(** C8, as the code has it.  The mock boundary applies exactly the top-level
    fields present in the update (a field present with [undefined] is removed
    from the stored profile), leaves every omitted field and every other
    user unchanged, and so replaces as a whole each sub-collection present.
    The backend applies, of the top-level fields, only [name], [role], [bio],
    [location], [targetRole] and [avatarUrl] when the submitted text is not
    empty, [profileStrength] when it is not zero and [openToOpportunities]
    when it is present; an empty text, a zero and any other top-level field
    leave the stored row as it was; each sub-collection present, even an
    empty one, replaces all the rows of that user by the submitted ones, in
    order. *)
Theorem update_applies_amended :
  (forall DEFAULT_AVATAR joinedNow entry email (updates : MockBackend.JsObject)
          users entry0 index,
      MockBackend.getUsersDB DEFAULT_AVATAR joinedNow entry = (users, entry0) ->
      MockBackend.findIndex (MockBackend.hasEmail email) users = Some index ->
      exists stored saved obj,
        users !! index = Some stored
        /\ (MockBackend.updateUser DEFAULT_AVATAR joinedNow entry email updates).2
           = MockBackend.Entry saved
        /\ length saved = length users
        /\ (forall j, j <> index ->
              saved !! j = MockBackend.stringifyObject <$> users !! j)
        /\ saved !! index = Some obj
        /\ (forall k, obj !! k = match updates !! k with
                                | Some v => v
                                | None => MockBackend.stringifyObject stored !! k
                                end))
  /\ (forall fails sameEmail email updates c,
      Server.pending c = None ->
      (Server.putUser fails sameEmail email updates c).1
        = Server.Json200 "Profile updated successfully" ->
      exists userId rest s,
        Server.u_id <$> List.filter (fun r => sameEmail (Server.u_email r) email)
                                    (Server.users (Server.committed c))
          = userId :: rest
        /\ Server.committed (Server.putUser fails sameEmail email updates c).2
           = Server.updatedTables userId updates s (Server.committed c))
  /\ (forall userId updates s t,
      let t' := Server.updatedTables userId updates s t in
      Server.users t'
        = (fun r => if (Server.u_id r =? userId)%Z
                    then Server.updatedRow updates r else r) <$> Server.users t
      /\ Server.skills t'
         = match Server.up_skills updates with
           | Some l => (List.filter (fun r => negb (Server.sk_user_id r =? userId)%Z)
                                    (Server.skills t)
                        ++ Server.rowsFrom Server.skillsTable userId
                             (Server.start_skill s) l)%list
           | None => Server.skills t
           end
      /\ Server.experience t'
         = match Server.up_experience updates with
           | Some l => (List.filter (fun r => negb (Server.ex_user_id r =? userId)%Z)
                                    (Server.experience t)
                        ++ Server.rowsFrom Server.experienceTable userId
                             (Server.start_experience s) l)%list
           | None => Server.experience t
           end
      /\ Server.projects t'
         = match Server.up_projects updates with
           | Some l => (List.filter (fun r => negb (Server.pr_user_id r =? userId)%Z)
                                    (Server.projects t)
                        ++ Server.rowsFrom Server.projectsTable userId
                             (Server.start_project s) l)%list
           | None => Server.projects t
           end
      /\ Server.education t'
         = match Server.up_education updates with
           | Some l => (List.filter (fun r => negb (Server.ed_user_id r =? userId)%Z)
                                    (Server.education t)
                        ++ Server.rowsFrom Server.educationTable userId
                             (Server.start_education s) l)%list
           | None => Server.education t
           end
      /\ Server.certifications t'
         = match Server.up_certifications updates with
           | Some l => (List.filter (fun r => negb (Server.ce_user_id r =? userId)%Z)
                                    (Server.certifications t)
                        ++ Server.rowsFrom Server.certificationsTable userId
                             (Server.start_certification s) l)%list
           | None => Server.certifications t
           end)
  /\ (forall updates r,
      let r' := Server.updatedRow updates r in
      (Server.u_id r' = Server.u_id r /\ Server.u_email r' = Server.u_email r
       /\ Server.u_password r' = Server.u_password r
       /\ Server.u_joined_date r' = Server.u_joined_date r
       /\ Server.u_readiness_score r' = Server.u_readiness_score r)
      /\ Server.u_name r' = Server.textOr (Server.up_name updates) (Server.u_name r)
      /\ Server.u_role r' = Server.textOr (Server.up_role updates) (Server.u_role r)
      /\ Server.u_bio r' = Server.textOr (Server.up_bio updates) (Server.u_bio r)
      /\ Server.u_location r'
         = Server.textOr (Server.up_location updates) (Server.u_location r)
      /\ Server.u_target_role r'
         = Server.textOr (Server.up_targetRole updates) (Server.u_target_role r)
      /\ Server.u_avatar_url r'
         = Server.textOr (Server.up_avatarUrl updates) (Server.u_avatar_url r)
      /\ Server.u_open_to_opportunities r'
         = match Server.up_openToOpportunities updates with
           | Some b => Some b
           | None => Server.u_open_to_opportunities r
           end
      /\ Server.u_profile_strength r'
         = match Server.up_profileStrength updates with
           | Some z => if (z =? 0)%Z then Server.u_profile_strength r else Some z
           | None => Server.u_profile_strength r
           end).
Proof.
  split; [|split; [|split; [|exact updatedRow_columns]]].
  - intros. eapply mock_update_applies; eauto.
  - intros fails sameEmail email updates c Hp Hok.
    destruct (Server.putUser fails sameEmail email updates c) as [resp c'] eqn:Hput.
    destruct (putUser_cases fails sameEmail _ _ _ _ _ Hp Hput)
      as [(_ & _ & _ & Hdone) | (_ & [(Hfail & _) | (Hfail & _)])].
    + exact Hdone.
    + cbn [fst] in Hok. congruence.
    + cbn [fst] in Hok. congruence.
  - intros userId updates s t. cbv zeta. unfold Server.updatedTables.
    cbn [Server.users Server.skills Server.experience Server.projects
         Server.education Server.certifications].
    repeat split;
      match goal with
      | |- Server.replaced _ _ _ ?xs _ = _ => destruct xs; reflexivity
      end.
Qed.

Lemma update_applies_amended_witness :
  exists userId rest s,
    Server.u_id <$> List.filter (fun r => String.eqb (Server.u_email r) "alex@example.com")
                                (Server.users Server.sampleTables)
      = userId :: rest
    /\ Server.committed
         (Server.putUser Server.never String.eqb "alex@example.com"
            Server.newRoleAndSkills Server.sampleConn).2
       = Server.updatedTables userId Server.newRoleAndSkills s Server.sampleTables.
Proof.
  apply (proj1 (proj2 update_applies_amended) Server.never String.eqb
           "alex@example.com" Server.newRoleAndSkills Server.sampleConn);
    reflexivity.
Defined.

(** C8 as stated fails on the backend: a request that clears the bio is
    answered with success and the stored bio stays. *)
Lemma backend_keeps_cleared_bio :
  let done := Server.putUser Server.never String.eqb "alex@example.com"
                Server.clearBio Server.sampleConn in
  Server.up_bio Server.clearBio = Some ""
  /\ done.1 = Server.Json200 "Profile updated successfully"
  /\ Server.u_bio <$> Server.users (Server.committed done.2) = [Some "Old bio"].
Proof. repeat split. Qed.

(** One rejected statement, the rollback accepted: the answer is 500 and
    nothing is committed. *)
Example putUser_rolls_back :
  let fails := fun k => Nat.eqb k 3 in
  let done := Server.putUser fails String.eqb "alex@example.com"
                Server.newRoleAndSkills Server.sampleConn in
  done.1 = Server.Json500 "Update failed"
  /\ Server.committed done.2 = Server.sampleTables
  /\ Server.pending done.2 = None.
Proof. repeat split. Qed.

(** C9 fails on the code.  The request that sets a role and replaces the
    skills of the sample account, the database rejecting the fourth call on
    the connection (the DELETE) and every call after it, as when the
    connection is lost: the [catch] block awaits a rollback that is rejected
    too, so the handler sends no response, and the connection is released
    with the transaction still open, where the claim promises a rolled-back
    transaction and an error response.  Nothing of the request is
    committed.  Nor is anything sent when the pool hands out no connection:
    that call is awaited before the [try]. *)
Theorem putUser_rollback_rejected :
  let fails := fun k => (3 <=? k)%nat in
  let done := Server.putUser fails String.eqb "alex@example.com"
                Server.newRoleAndSkills Server.sampleConn in
  done.1 = Server.NoResponse
  /\ Server.committed done.2 = Server.sampleTables
  /\ Server.pending done.2 <> None
  /\ Server.calls done.2 = 5%nat
  /\ Server.putRoute fails String.eqb "alex@example.com" Server.newRoleAndSkills
       (Throw "connect ECONNREFUSED")
     = (Server.NoResponse, None).
Proof. repeat split. discriminate. Qed.

(** The same request goes through when no call is rejected. *)
Example putUser_commits :
  let done := Server.putUser Server.never String.eqb "alex@example.com"
                Server.newRoleAndSkills Server.sampleConn in
  done.1 = Server.Json200 "Profile updated successfully"
  /\ Server.u_role <$> Server.users (Server.committed done.2) = [Some "Staff Designer"]
  /\ Server.sk_name <$> Server.skills (Server.committed done.2) = ["React"]
  /\ Server.pending done.2 = None.
Proof. repeat split. Qed.

(* ===================================================================== *)
(** * Part III: further properties of the code                            *)
(* ===================================================================== *)

(** ** The dashboard snapshot *)
Section SnapshotFacts.
Import JsString Types Metrics Dashboard TaskStore Snapshot.

#[local] Open Scope Q_scope.

Lemma inject_le (a b : Z) : (a <= b)%Z -> inject_Z a <= inject_Z b.
Proof. intros H. now rewrite <- Zle_Qle. Qed.

Lemma inject_lt (a b : Z) : (a < b)%Z -> inject_Z a < inject_Z b.
Proof. intros H. now rewrite <- Zlt_Qlt. Qed.

Lemma round_mono (x y : Q) : x <= y -> (round x <= round y)%Z.
Proof. intros H. unfold round. apply Qfloor_resp_le. lra. Qed.

Lemma round_Z (z : Z) : round (inject_Z z) = z.
Proof.
  unfold round, Qfloor, Qplus, inject_Z. simpl.
  change (Z.pos (1 * 2)) with 2%Z.
  symmetry. apply Z.div_unique with (r := 1%Z); lia.
Qed.

Lemma round_between (x : Q) (a b : Z) :
  inject_Z a <= x -> x <= inject_Z b -> (a <= round x <= b)%Z.
Proof.
  intros Ha Hb. rewrite <- (round_Z a), <- (round_Z b).
  split; apply round_mono; assumption.
Qed.

Lemma completedOf_length (tasks : list Task) :
  (length (completedOf tasks) <= length tasks)%nat.
Proof. unfold completedOf. apply List.filter_length_le. Qed.

Lemma ratio_bounds (c t : Z) :
  (0 <= c <= t)%Z -> (1 <= t)%Z ->
  0 <= inject_Z c / inject_Z t * 100 /\ inject_Z c / inject_Z t * 100 <= 100.
Proof.
  intros Hc Ht.
  assert (Ht0 : 0 < inject_Z t) by (apply (inject_lt 0 t); lia).
  assert (Hc0 : 0 <= inject_Z c) by (apply (inject_le 0 c); lia).
  assert (Hct : inject_Z c <= inject_Z t) by (apply inject_le; lia).
  assert (H0 : 0 <= inject_Z c / inject_Z t).
  { apply Qle_shift_div_l; [exact Ht0 | lra]. }
  assert (H1 : inject_Z c / inject_Z t <= 1).
  { apply Qle_shift_div_r; [exact Ht0 | lra]. }
  split; lra.
Qed.

Lemma totCount_positive (tasks : list Task) :
  (1 <= match tasks with [] => 1 | _ => Z.of_nat (length tasks) end)%Z
  /\ (Z.of_nat (length (completedOf tasks))
      <= match tasks with [] => 1 | _ => Z.of_nat (length tasks) end)%Z.
Proof.
  pose proof (completedOf_length tasks) as H.
  destruct tasks as [|t l]; [simpl; lia|]. simpl length in *. lia.
Qed.

Lemma completionRate_bounds (tasks : list Task) :
  (0 <= completionRateOf tasks <= 100)%Z.
Proof.
  destruct (totCount_positive tasks) as [Ht Hc]. unfold completionRateOf.
  destruct (ratio_bounds (Z.of_nat (length (completedOf tasks))) _
              ltac:(split; [lia | exact Hc]) Ht) as [H0 H1].
  apply round_between; assumption.
Qed.

(** X1.  The completion rate is a percentage; it is 0 when no task is Done, in
    particular for an empty list, and 100 when every task of a non-empty
    list is Done. *)
Theorem completionRate_range (tasks : list Task) :
  (0 <= completionRateOf tasks <= 100)%Z
  /\ (completedOf tasks = [] -> completionRateOf tasks = 0%Z)
  /\ (tasks <> [] -> Forall (fun t => task_status t = Done) tasks ->
      completionRateOf tasks = 100%Z).
Proof.
  destruct (totCount_positive tasks) as [Ht Hc].
  split; [|split].
  - apply completionRate_bounds.
  - intros E. unfold completionRateOf. rewrite E. simpl length.
    apply round_integer. change (inject_Z (Z.of_nat 0)) with 0. unfold Qdiv.
    rewrite !Qmult_0_l. reflexivity.
  - intros Hne Hall. unfold completionRateOf.
    assert (E : completedOf tasks = tasks).
    { unfold completedOf. clear Ht Hc Hne.
      induction Hall as [|t l Ht _ IH]; [reflexivity|].
      simpl. rewrite Ht. simpl. now rewrite IH. }
    rewrite E. destruct tasks as [|t l]; [congruence|].
    apply round_integer.
    assert (H : 0 < inject_Z (Z.of_nat (length (t :: l))))
      by (apply (inject_lt 0); simpl length; lia).
    field. lra.
Qed.

Lemma completionRate_range_witness :
  completionRateOf [sampleTask Done; sampleTask Done] = 100%Z.
Proof.
  apply (proj2 (proj2 (completionRate_range [sampleTask Done; sampleTask Done]))).
  - discriminate.
  - repeat constructor.
Defined.

Lemma strength_range (user : UserProfile) :
  (0 <= calculateProfileStrength user <= 100)%Z.
Proof.
  rewrite calculateProfileStrength_unclamped. unfold spec_profileStrength.
  pose proof (spec_weights_range user). lia.
Qed.

Lemma rScore_range (strength rate base : Z) :
  (0 <= strength <= 100)%Z -> (0 <= rate <= 100)%Z -> (0 <= base <= 20)%Z ->
  (0 <= rScoreOf strength rate base <= 100)%Z.
Proof.
  intros Hs Hr Hb. unfold rScoreOf.
  assert (0 <= inject_Z strength) by (apply (inject_le 0); lia).
  assert (inject_Z strength <= 100) by (apply (inject_le strength 100); lia).
  assert (0 <= inject_Z rate) by (apply (inject_le 0); lia).
  assert (inject_Z rate <= 100) by (apply (inject_le rate 100); lia).
  assert (0 <= inject_Z base) by (apply (inject_le 0); lia).
  assert (inject_Z base <= 20) by (apply (inject_le base 20); lia).
  apply round_between.
  - change (inject_Z 0) with 0. lra.
  - change (inject_Z 100) with 100. lra.
Qed.

Variable Date_parse : string -> option Date.
Variable now : Date.
Variable random : nat -> Q.

(** X2.  When the profile has an [experience] array, [calculateMetrics] replaces
    the snapshot, and every figure of the new one is in range: strength,
    completion rate and readiness score lie in 0..100, the count of
    completed tasks does not exceed the count of tasks, and the cap applied
    to the readiness score never changes it. *)
Theorem calculateMetrics_ranges (user : UserProfile) (tasks : list Task)
    (st : DashboardState) (entries : list WorkExperience) :
  experience user = Some entries ->
  let m := d_metrics (calculateMetrics Date_parse now random user tasks st) in
  (0 <= m_strength m <= 100)%Z
  /\ (0 <= m_completionRate m <= 100)%Z
  /\ (0 <= m_completedTasks m <= m_totalTasks m)%Z
  /\ (0 <= m_readinessScore m <= 100)%Z
  /\ m_readinessScore m
     = rScoreOf (m_strength m) (m_completionRate m)
         (if (0 <? Z.of_nat (length entries))%Z then 20 else 0)
  /\ d_loading (calculateMetrics Date_parse now random user tasks st) = false.
Proof.
  intros He. unfold calculateMetrics, calculateMetricsBody. rewrite He.
  cbn [mbind result_bind tryCatch d_metrics d_loading fst snd
       m_strength m_completionRate m_completedTasks m_totalTasks m_readinessScore].
  pose proof (strength_range user) as Hs.
  pose proof (completionRate_bounds tasks) as Hr.
  pose proof (completedOf_length tasks) as Hc.
  assert (Hb : (0 <= (if (0 <? Z.of_nat (length entries))%Z then 20 else 0) <= 20)%Z)
    by (destruct (0 <? Z.of_nat (length entries))%Z; lia).
  pose proof (rScore_range _ _ _ Hs Hr Hb) as Hscore.
  repeat split; try lia.
Qed.

(** X3.  When the profile has no [experience] property, the read of its length
    throws inside the [try] block: the page keeps the metrics and the chart
    it had, although the profile strength of that profile is well defined. *)
Theorem calculateMetrics_missing_experience (user : UserProfile) (tasks : list Task)
    (st : DashboardState) :
  experience user = None ->
  d_metrics (calculateMetrics Date_parse now random user tasks st) = d_metrics st
  /\ d_chartData (calculateMetrics Date_parse now random user tasks st) = d_chartData st
  /\ (0 <= calculateProfileStrength user <= 100)%Z.
Proof.
  intros He. unfold calculateMetrics, calculateMetricsBody. rewrite He.
  cbn [mbind result_bind tryCatch d_metrics d_chartData].
  repeat split; try apply strength_range.
Qed.

Lemma calculateMetrics_ranges_aux (user : UserProfile) (tasks : list Task) (base : Z) :
  (0 <= base <= 20)%Z ->
  (0 <= rScoreOf (calculateProfileStrength user) (completionRateOf tasks) base <= 100)%Z.
Proof.
  intros Hb. apply rScore_range; [apply strength_range | | exact Hb].
  apply completionRate_bounds.
Qed.

Lemma trend_endpoints (joinedDateStr : string) (S : Z) :
  (0 <= S)%Z ->
  let series := generateTrendChart Date_parse now random joinedDateStr (inject_Z S) in
  (3 <= length series <= 12)%nat
  /\ point_score <$> head series = Some 10%Z
  /\ point_score <$> last series = Some S.
Proof.
  intros HS series.
  set (joined := parseJoined Date_parse now joinedDateStr).
  set (n := pointsToGenerate now joined).
  assert (Hn : (3 <= n <= 12)%Z) by (unfold n, pointsToGenerate; lia).
  assert (Hseries : series = List.map (fun k => pointAt random joined n (inject_Z S)
                                                  (Z.of_nat k))
                                      (seq 0 (Z.to_nat n)))
    by apply generateTrendChart_points.
  assert (Hden : ~ inject_Z (n - 1) == 0) by (unfold Qeq; simpl; lia).
  assert (Hlen : length series = Z.to_nat n)
    by (rewrite Hseries, length_map, length_seq; reflexivity).
  split; [lia|]. split.
  - rewrite Hseries. destruct (Z.to_nat n) as [|k] eqn:Hk; [lia|].
    cbn [seq List.map head fmap option_fmap option_map]. f_equal.
    unfold pointAt, chartStep. change (Z.of_nat 0) with 0%Z.
    change (0 <? 0)%Z with false. rewrite andb_false_r. cbn [fst point_score].
    rewrite (round_integer 10); [reflexivity|].
    change (inject_Z 0) with 0%Q. field. exact Hden.
  - rewrite last_lookup, Hlen, Hseries, list_lookup_fmap.
    rewrite lookup_seq_lt by lia. simpl. f_equal.
    replace (Z.of_nat (Init.Nat.pred (Z.to_nat n))) with (n - 1)%Z by lia.
    unfold pointAt, chartStep. rewrite Z.ltb_irrefl. simpl.
    rewrite (round_integer S); [lia|]. field. exact Hden.
Qed.

(** X4.  The chart drawn by [calculateMetrics] agrees with the figure beside it:
    the series has 3 to 12 points, starts at 10 and ends at the readiness
    score of the new snapshot. *)
Theorem calculateMetrics_chart (user : UserProfile) (tasks : list Task)
    (st : DashboardState) (entries : list WorkExperience) :
  experience user = Some entries ->
  let st' := calculateMetrics Date_parse now random user tasks st in
  (3 <= length (d_chartData st') <= 12)%nat
  /\ point_score <$> head (d_chartData st') = Some 10%Z
  /\ point_score <$> last (d_chartData st') = Some (m_readinessScore (d_metrics st')).
Proof.
  intros He st'.
  pose proof (calculateMetrics_ranges_aux user tasks) as Hscore.
  subst st'. unfold calculateMetrics, calculateMetricsBody in *. rewrite He in *.
  cbn [mbind result_bind tryCatch d_metrics d_chartData fst snd m_readinessScore].
  apply trend_endpoints.
  specialize (Hscore (if (0 <? Z.of_nat (length entries))%Z then 20%Z else 0%Z)
                ltac:(destruct (0 <? Z.of_nat (length entries))%Z; lia)).
  lia.
Qed.

End SnapshotFacts.

(** ** Learning hours *)
Section HoursFacts.
Import JsString Types Metrics Dashboard TaskStore Snapshot.

#[local] Open Scope Q_scope.

Lemma round_upper (x : Q) (z : Z) : x < inject_Z z + (1 # 2) -> (round x <= z)%Z.
Proof.
  intros H. unfold round. apply Z.lt_succ_r. unfold Z.succ.
  rewrite Zlt_Qlt, inject_Z_plus.
  apply Qle_lt_trans with (x + (1 # 2)); [apply Qfloor_le|].
  change (inject_Z 1) with 1. lra.
Qed.

Lemma round_one (x : Q) : x == 1 -> round x = 1%Z.
Proof. intros H. apply round_integer. exact H. Qed.

Lemma qmax_cases (a b : Q) : (a <= b /\ qmax a b = b) \/ (b < a /\ qmax a b = a).
Proof.
  unfold qmax. destruct (Qle_bool a b) eqn:E.
  - left. split; [now apply Qle_bool_iff | reflexivity].
  - right. split; [|reflexivity].
    apply Qnot_le_lt. intros H. apply Qle_bool_iff in H. congruence.
Qed.

Lemma weekHours_cases (total : Q) :
  (0 < total -> (1 <= weekHoursOf total <= Z.max 1 (round total))%Z)
  /\ (total <= 0 -> weekHoursOf total = 0%Z)
  /\ (0 < total -> total < 1 # 2 -> round total = 0%Z /\ weekHoursOf total = 1%Z).
Proof.
  unfold weekHoursOf. split; [|split].
  - intros Hpos. destruct (Qlt_le_dec 0 total) as [_|Hle]; [|lra].
    destruct (qmax_cases 1 (total * (1 # 5))) as [[H ->] | [H ->]].
    + split.
      * rewrite <- (round_one 1) by reflexivity. apply round_mono. exact H.
      * apply Z.le_trans with (round total); [|lia]. apply round_mono. lra.
    + rewrite (round_one 1) by reflexivity. lia.
  - intros Hle. destruct (Qlt_le_dec 0 total) as [Hpos|_]; [lra|].
    apply round_integer. reflexivity.
  - intros Hpos Hhalf. split.
    + apply Z.le_antisymm.
      * apply round_upper. change (inject_Z 0) with 0. lra.
      * rewrite <- (round_integer 0 0) by reflexivity. apply round_mono. lra.
    + destruct (Qlt_le_dec 0 total) as [_|Hle]; [|lra].
      destruct (qmax_cases 1 (total * (1 # 5))) as [[H ->] | [H ->]]; [lra|].
      apply round_one. reflexivity.
Qed.

(** A text that is not empty never counts for zero hours. *)
Lemma parseDuration_nonzero (c : ascii) (r : string) :
  ~ parseDuration (String c r) == 0.
Proof.
  intros H.
  pose proof (parseDuration_rule (String c r) ltac:(discriminate)) as R.
  cbv zeta in R. rewrite H in R.
  destruct (isZero _) eqn:Hz in R.
  - destruct (parseFloat _) as [v|] in R.
    + destruct (isZero v) eqn:Hv; [discriminate R|].
      unfold isZero in Hv. apply Qeq_bool_neq in Hv. apply Hv. now symmetry.
    + discriminate R.
  - unfold isZero in Hz. apply Qeq_bool_neq in Hz. apply Hz. now symmetry.
Qed.

(** The reduction adds the hours of the tasks to its accumulator. *)
Lemma totalHours_from (completed : list Task) (acc : Q) :
  fold_left (fun acc t => acc + parseDuration (task_duration t)) completed acc
  == acc + totalHoursOf completed.
Proof.
  unfold totalHoursOf. revert acc.
  induction completed as [|t completed IH]; intros acc; cbn [fold_left].
  - ring.
  - rewrite IH, (IH (0 + _)). ring.
Qed.

Lemma totalHours_cons (t : Task) (completed : list Task) :
  totalHoursOf (t :: completed)
  == parseDuration (task_duration t) + totalHoursOf completed.
Proof.
  unfold totalHoursOf at 1. cbn [fold_left]. rewrite totalHours_from. ring.
Qed.

Lemma totalHours_nonneg (completed : list Task) :
  Forall (fun t => 0 <= parseDuration (task_duration t)) completed ->
  0 <= totalHoursOf completed.
Proof.
  induction 1 as [|t completed Ht _ IH].
  - unfold totalHoursOf. cbn [fold_left]. lra.
  - rewrite totalHours_cons. lra.
Qed.

Lemma totalHours_empty_texts (completed : list Task) :
  Forall (fun t => task_duration t = EmptyString) completed ->
  totalHoursOf completed == 0.
Proof.
  induction 1 as [|t completed Ht _ IH].
  - reflexivity.
  - rewrite totalHours_cons, IH, Ht. reflexivity.
Qed.

Lemma totalHours_positive (completed : list Task) :
  Forall (fun t => 0 <= parseDuration (task_duration t)) completed ->
  Exists (fun t => task_duration t <> EmptyString) completed ->
  0 < totalHoursOf completed.
Proof.
  intros Hall Hex. induction Hall as [|t completed Ht Hall IH].
  - inversion Hex.
  - rewrite totalHours_cons.
    pose proof (totalHours_nonneg completed Hall) as Hrest.
    apply Exists_cons in Hex as [Hne|Hex].
    + destruct (task_duration t) as [|c r] eqn:Hd; [congruence|].
      pose proof (parseDuration_nonzero c r) as Hnz.
      destruct (Qlt_le_dec 0 (parseDuration (String c r))) as [Hpos|Hle]; [lra|].
      exfalso. apply Hnz. lra.
    + specialize (IH Hex). lra.
Qed.

Variable Date_parse : string -> option Date.
Variable now : Date.
Variable random : nat -> Q.

(** X5.  "Hours this week" against the learning hours shown, when no completed
    task has a duration that counts as negative: the learning hours are not
    negative; when every completed task has an empty duration (or none is
    completed) both figures are 0; when some completed task has a duration
    text, the week shows at least 1 hour and at most the larger of 1 and
    the learning hours shown. *)
Theorem calculateMetrics_hours (user : UserProfile) (tasks : list Task)
    (st : DashboardState) (entries : list WorkExperience) :
  experience user = Some entries ->
  Forall (fun t => 0 <= parseDuration (task_duration t)) (completedOf tasks) ->
  let m := d_metrics (calculateMetrics Date_parse now random user tasks st) in
  (0 <= m_learningHours m)%Z
  /\ (Forall (fun t => task_duration t = EmptyString) (completedOf tasks) ->
      m_learningHours m = 0%Z /\ m_hoursThisWeek m = 0%Z)
  /\ (Exists (fun t => task_duration t <> EmptyString) (completedOf tasks) ->
      (1 <= m_hoursThisWeek m <= Z.max 1 (m_learningHours m))%Z).
Proof.
  intros He Hall. unfold calculateMetrics, calculateMetricsBody. rewrite He.
  cbn [mbind result_bind tryCatch d_metrics fst m_learningHours m_hoursThisWeek].
  destruct (weekHours_cases (totalHoursOf (completedOf tasks))) as (H1 & H2 & _).
  pose proof (totalHours_nonneg _ Hall) as Hnn.
  split; [|split].
  - rewrite <- (round_integer 0 0) by reflexivity. apply round_mono. exact Hnn.
  - intros Hempty. pose proof (totalHours_empty_texts _ Hempty) as Hz. split.
    + apply round_integer. exact Hz.
    + apply H2. lra.
  - intros Hex. apply H1. apply totalHours_positive; assumption.
Qed.

End HoursFacts.

Lemma calculateMetrics_ranges_witness :
  (0 <= Snapshot.m_readinessScore
          (Snapshot.d_metrics
             (Snapshot.calculateMetrics Dashboard.sampleParse Dashboard.sampleNow
                (fun _ => 1 # 4) Dashboard.fullProfile
                [TaskStore.sampleTask Types.Done] Snapshot.initialState)) <= 100)%Z.
Proof.
  exact (proj1 (proj2 (proj2 (proj2
           (calculateMetrics_ranges Dashboard.sampleParse Dashboard.sampleNow
              (fun _ => 1 # 4) Dashboard.fullProfile [TaskStore.sampleTask Types.Done]
              Snapshot.initialState _ eq_refl))))).
Defined.

Lemma calculateMetrics_missing_experience_witness :
  Snapshot.d_metrics
    (Snapshot.calculateMetrics Dashboard.sampleParse Dashboard.sampleNow
       (fun _ => 1 # 4) Snapshot.profileWithoutExperience
       [TaskStore.sampleTask Types.Done] Snapshot.initialState)
  = Snapshot.d_metrics Snapshot.initialState.
Proof.
  exact (proj1 (calculateMetrics_missing_experience Dashboard.sampleParse
                  Dashboard.sampleNow (fun _ => 1 # 4)
                  Snapshot.profileWithoutExperience
                  [TaskStore.sampleTask Types.Done] Snapshot.initialState eq_refl)).
Defined.

Lemma calculateMetrics_chart_witness :
  let st' := Snapshot.calculateMetrics Dashboard.sampleParse Dashboard.sampleNow
               (fun _ => 1 # 4) Dashboard.fullProfile
               [TaskStore.sampleTask Types.Done] Snapshot.initialState in
  Dashboard.point_score <$> last (Snapshot.d_chartData st')
  = Some (Snapshot.m_readinessScore (Snapshot.d_metrics st')).
Proof.
  exact (proj2 (proj2
           (calculateMetrics_chart Dashboard.sampleParse Dashboard.sampleNow
              (fun _ => 1 # 4) Dashboard.fullProfile [TaskStore.sampleTask Types.Done]
              Snapshot.initialState _ eq_refl))).
Defined.

Lemma calculateMetrics_hours_witness :
  let m := Snapshot.d_metrics
             (Snapshot.calculateMetrics Dashboard.sampleParse Dashboard.sampleNow
                (fun _ => 1 # 4) Dashboard.fullProfile
                [TaskStore.sampleTask Types.Done] Snapshot.initialState) in
  (1 <= Snapshot.m_hoursThisWeek m <= Z.max 1 (Snapshot.m_learningHours m))%Z.
Proof.
  refine (proj2 (proj2 (calculateMetrics_hours Dashboard.sampleParse
                          Dashboard.sampleNow (fun _ => 1 # 4) Dashboard.fullProfile
                          [TaskStore.sampleTask Types.Done] Snapshot.initialState
                          _ eq_refl _)) _).
  - constructor; [|constructor]. vm_compute. discriminate.
  - apply Exists_cons_hd. discriminate.
Defined.

(** ** The parser again, the labels, the gauge *)
Section SmallFacts.
Import JsString Types Metrics Snapshot GapScore.

(** X6.  A duration counts for zero hours exactly when its text is empty: every
    other text, whatever it says, adds a non-zero amount to the learning
    hours of a completed task. *)
Theorem parseDuration_zero_iff_empty (duration : string) :
  parseDuration duration == 0 <-> duration = EmptyString.
Proof.
  split.
  - intros H. destruct duration as [|c r]; [reflexivity|]. exfalso.
    pose proof (parseDuration_rule (String c r) ltac:(discriminate)) as R.
    cbv zeta in R. rewrite H in R.
    destruct (isZero _) eqn:Hz in R.
    + destruct (parseFloat _) as [v|] in R.
      * destruct (isZero v) eqn:Hv; [discriminate R|].
        unfold isZero in Hv. apply Qeq_bool_neq in Hv. apply Hv. now symmetry.
      * discriminate R.
    + unfold isZero in Hz. apply Qeq_bool_neq in Hz. apply Hz. now symmetry.
  - intros ->. reflexivity.
Qed.

(** X7.  The label of a score never goes down when the score goes up. *)
Theorem getQualitativeScore_monotone (a b : Z) :
  (a <= b)%Z -> rank (getQualitativeScore a) <= rank (getQualitativeScore b).
Proof.
  intros H. unfold getQualitativeScore.
  destruct (Z.ltb_spec 80 a), (Z.ltb_spec 80 b), (Z.ltb_spec 60 a), (Z.ltb_spec 60 b),
    (Z.ltb_spec 40 a), (Z.ltb_spec 40 b); simpl; lia.
Qed.

Lemma getQualitativeScore_monotone_witness :
  rank (getQualitativeScore 55) <= rank (getQualitativeScore 85).
Proof. apply getQualitativeScore_monotone. lia. Defined.

(** X8.  The gauge of the analysis page: 0 before any analysis; with an analysis
    that lists its critical gaps, a score between 15 and 90 that loses 15
    points per gap up to five gaps, stays at 15 beyond, and so never rises
    when gaps are added; with an analysis that has no [criticalGaps]
    property, the read of its length throws. *)
Theorem calculateScore_range {Gap : Type} :
  calculateScore (@None (Analysis Gap)) = Ok 0%Z
  /\ (forall gaps : list Gap,
        exists s, calculateScore (Some {| criticalGaps := Some gaps |}) = Ok s
                  /\ (15 <= s <= 90)%Z
                  /\ (length gaps <= 5 -> s = (90 - 15 * Z.of_nat (length gaps))%Z)
                  /\ (5 <= length gaps -> s = 15%Z))
  /\ (forall (gaps more : list Gap) s s',
        calculateScore (Some {| criticalGaps := Some gaps |}) = Ok s ->
        calculateScore (Some {| criticalGaps := Some (gaps ++ more)%list |}) = Ok s' ->
        (s' <= s)%Z)
  /\ (exists e, calculateScore (Some {| criticalGaps := @None (list Gap) |}) = Throw e).
Proof.
  split; [reflexivity|]. split; [|split].
  - intros gaps. eexists. split; [reflexivity|]. cbn [criticalGaps]. lia.
  - intros gaps more s s' H H'. cbn in H, H'. inversion H. inversion H'.
    rewrite length_app. lia.
  - eexists. reflexivity.
Qed.

End SmallFacts.

(** ** The task provider *)
Section TaskProviderFacts.
Import JsString Types Metrics Dashboard TaskStore Snapshot TaskProvider.

Lemma toggle_keeps_binary (l : list Task) (id : string) :
  binary l -> binary (toggleTaskStatus l id).
Proof.
  unfold binary, toggleTaskStatus. induction 1 as [|t l Ht _ IH]; simpl.
  - constructor.
  - constructor; [|exact IH].
    destruct (String.eqb (task_id t) id); [|exact Ht].
    simpl. destruct (isDone (task_status t)); discriminate.
Qed.

Lemma toggle_twice_binary (l : list Task) (id : string) :
  binary l -> toggleTaskStatus (toggleTaskStatus l id) id = l.
Proof.
  unfold binary, toggleTaskStatus. induction 1 as [|t l Ht _ IH]; simpl.
  - reflexivity.
  - f_equal; [|exact IH].
    destruct (String.eqb (task_id t) id) eqn:E; simpl; rewrite E; [|reflexivity].
    destruct t as [i ti ty du [] di de]; simpl in *; try reflexivity. congruence.
Qed.

Lemma toggle_modulo_status (l : list Task) (id : string) :
  sanitize (toggleTaskStatus l id) = sanitize l.
Proof.
  unfold sanitize, toggleTaskStatus. rewrite map_map. apply map_ext.
  intros t. destruct (String.eqb (task_id t) id); reflexivity.
Qed.

Lemma sanitize_binary (g : list Task) : binary (sanitize g).
Proof.
  unfold binary, sanitize. induction g as [|t g IH]; simpl; constructor; auto.
Qed.

Lemma sanitize_idempotent (g : list Task) : sanitize (sanitize g) = sanitize g.
Proof. unfold sanitize. rewrite map_map. apply map_ext. reflexivity. Qed.

Lemma toggles_tasks (ids : list string) (s : State) :
  binary (tasks s) ->
  binary (tasks (toggles ids s)) /\ sanitize (tasks (toggles ids s)) = sanitize (tasks s).
Proof.
  unfold toggles. revert s. induction ids as [|id ids IH]; intros s Hb; simpl.
  - auto.
  - destruct (IH (toggle id s)) as [H1 H2].
    + simpl. now apply toggle_keeps_binary.
    + split; [exact H1|]. rewrite H2. simpl. apply toggle_modulo_status.
Qed.

Lemma completedOf_sanitize (g : list Task) : completedOf (sanitize g) = [].
Proof.
  unfold completedOf, sanitize. induction g as [|t g IH]; simpl; auto.
Qed.

(** X9.  Whatever the AI call returns, a generation that succeeds leaves as many
    tasks as were generated, with the same ids, all of them Todo; from there
    on, after any run of toggles, no task is In Progress, the list is the
    generated one up to the statuses, and one more double toggle of any id
    gives the list back. *)
Theorem generated_tasks_toggle (g : list Task) (saved : result unit) (st : State)
    (ids : list string) (id : string) :
  let s0 := generateNewTasks (Ok g) saved st in
  let s := toggles ids s0 in
  length (tasks s0) = length g
  /\ List.map task_id (tasks s0) = List.map task_id g
  /\ Forall (fun t => task_status t = Todo) (tasks s0)
  /\ binary (tasks s)
  /\ sanitize (tasks s) = sanitize g
  /\ tasks (toggle id (toggle id s)) = tasks s.
Proof.
  intros s0 s.
  assert (H0 : tasks s0 = sanitize g) by (subst s0; simpl; destruct saved; reflexivity).
  destruct (toggles_tasks ids s0) as [Hb Hs]; [rewrite H0; apply sanitize_binary|].
  split; [rewrite H0; apply length_map|].
  split; [rewrite H0; unfold sanitize; rewrite map_map; reflexivity|].
  split; [rewrite H0; apply Forall_map, Forall_forall; reflexivity|].
  split; [exact Hb|]. split.
  - subst s. rewrite Hs, H0. apply sanitize_idempotent.
  - simpl. apply toggle_twice_binary. exact Hb.
Qed.

(** X10.  A generation ends with the loading flag down.  When the AI call fails
    the tasks are the ones there were and the error is set; when it succeeds
    the new tasks replace the old ones even if saving them fails, and the
    error is cleared exactly when the save went through.  Right after a
    successful generation the dashboard counts no completed task, no
    learning hour and a completion rate of 0. *)
Theorem generateNewTasks_outcome (generated : result (list Task))
    (saved : result unit) (st : State) :
  let st' := generateNewTasks generated saved st in
  loading st' = false
  /\ (forall e, generated = Throw e ->
        tasks st' = tasks st /\ error st' = Some "Failed to generate tasks")
  /\ (forall g, generated = Ok g ->
        tasks st' = sanitize g
        /\ (error st' = None <-> exists u, saved = Ok u)
        /\ completedOf (tasks st') = []
        /\ completionRateOf (tasks st') = 0%Z
        /\ round (totalHoursOf (completedOf (tasks st'))) = 0%Z).
Proof.
  cbv zeta. split; [destruct generated, saved; reflexivity|]. split.
  - intros e ->. simpl. auto.
  - intros g ->.
    assert (H0 : tasks (generateNewTasks (Ok g) saved st) = sanitize g)
      by (simpl; destruct saved; reflexivity).
    rewrite H0. split; [reflexivity|]. split.
    + destruct saved as [u|e]; simpl; split; intros H; eauto; try discriminate.
      destruct H as [u H]. discriminate.
    + unfold completionRateOf. rewrite completedOf_sanitize. simpl length.
      split; [reflexivity|]. split.
      * apply round_integer. unfold Qdiv. rewrite !Qmult_0_l. reflexivity.
      * reflexivity.
Qed.

End TaskProviderFacts.

(** ** The profile page *)
Section ProfilePageFacts.
Import JsString Types ProfilePage.

Lemma filter_id_iff {A : Type} (f : A -> bool) (l : list A) :
  List.filter f l = l <-> Forall (fun x => f x = true) l.
Proof.
  induction l as [|a l IH]; simpl.
  - split; auto.
  - destruct (f a) eqn:E.
    + split.
      * intros H. injection H as H. constructor; [exact E | now apply IH].
      * intros H. inversion H; subst. f_equal. now apply IH.
    + split.
      * intros H. exfalso.
        pose proof (List.filter_length_le f l) as Hle. rewrite H in Hle. simpl in Hle. lia.
      * intros H. inversion H; subst. congruence.
Qed.

Lemma filter_all {A : Type} (f : A -> bool) (l : list A) :
  Forall (fun x => f x = true) (List.filter f l).
Proof.
  induction l as [|a l IH]; simpl; [constructor|].
  destruct (f a) eqn:E; [constructor|]; auto.
Qed.

Lemma neqb_true_iff (a b : string) : negb (String.eqb a b) = true <-> a <> b.
Proof. destruct (String.eqb_spec a b); simpl; split; congruence. Qed.

Lemma Forall_neqb {A : Type} (key : A -> string) (k : string) (l : list A) :
  Forall (fun x => negb (String.eqb (key x) k) = true) l
  <-> Forall (fun x => key x <> k) l.
Proof.
  split; intros H; induction H; constructor; auto; now apply neqb_true_iff.
Qed.

(** X11.  Adding a skill with a non-empty name makes the list one longer, whether
    or not the name is already there; removing that name afterwards removes
    every skill of that name, so it gives the list before the addition back
    exactly when the name was new. *)
Theorem skill_add_then_remove (skills : list Skill) (skillName : string)
    (category : SkillCategory) :
  skillName <> EmptyString ->
  exists added,
    handleAddSkill skills skillName category = Some added
    /\ length added = S (length skills)
    /\ handleRemoveSkill added skillName = handleRemoveSkill skills skillName
    /\ Forall (fun s => skill_name s <> skillName) (handleRemoveSkill added skillName)
    /\ (handleRemoveSkill added skillName = skills
        <-> Forall (fun s => skill_name s <> skillName) skills).
Proof.
  intros Hne. destruct skillName as [|c r]; [congruence|].
  eexists. split; [reflexivity|].
  assert (Hrm : handleRemoveSkill
                  (skills ++ [{| skill_name := String c r; skill_category := category;
                                 skill_level := Intermediate;
                                 skill_verified := Some false |}])%list (String c r)
                = handleRemoveSkill skills (String c r)).
  { unfold handleRemoveSkill. rewrite List.filter_app. cbn [List.filter skill_name].
    rewrite String.eqb_refl. cbn [negb]. apply app_nil_r. }
  split; [rewrite length_app; simpl; lia|].
  split; [exact Hrm|]. rewrite Hrm. split.
  - apply Forall_neqb. apply filter_all.
  - unfold handleRemoveSkill. rewrite filter_id_iff. apply Forall_neqb.
Qed.

(** X12.  Saving an education entry.  An edit keeps the length of the list and
    the ids in their places, replaces every entry that has the id of the
    form by the form, and changes nothing when no entry has that id.  An
    addition appends the form, under the id of the form or, when that is
    empty, under the current time; deleting that id afterwards gives the
    list before the addition back exactly when no entry had it. *)
Theorem education_save_delete (education : list Education) (formData : Education)
    (nowText : string) :
  let id := idOr (edu_id formData) nowText in
  let edited := handleSaveEducation education true formData nowText in
  let added := handleSaveEducation education false formData nowText in
  length edited = length education
  /\ List.map edu_id edited = List.map edu_id education
  /\ Forall (fun e => edu_id e = id -> e = withEducationId formData id) edited
  /\ (Forall (fun e => edu_id e <> id) education -> edited = education)
  /\ added = (education ++ [withEducationId formData id])%list
  /\ handleDeleteEducation added id = handleDeleteEducation education id
  /\ (handleDeleteEducation added id = education
      <-> Forall (fun e => edu_id e <> id) education).
Proof.
  cbv zeta. unfold handleSaveEducation. cbn [edu_id withEducationId].
  set (id := idOr (edu_id formData) nowText).
  assert (Hdel : handleDeleteEducation (education ++ [withEducationId formData id])%list id
                 = handleDeleteEducation education id).
  { unfold handleDeleteEducation. rewrite List.filter_app.
    cbn [List.filter edu_id withEducationId].
    rewrite String.eqb_refl. cbn [negb]. apply app_nil_r. }
  split; [apply length_map|]. split.
  { rewrite map_map. apply map_ext. intros e.
    destruct (String.eqb_spec (edu_id e) id) as [->|]; reflexivity. }
  split.
  { apply Forall_map, Forall_forall. intros e _.
    destruct (String.eqb_spec (edu_id e) id) as [E|E]; simpl; congruence. }
  split.
  { intros H. clear Hdel. induction H as [|e l He _ IH]; simpl; [reflexivity|].
    f_equal; [|exact IH]. destruct (String.eqb_spec (edu_id e) id); congruence. }
  split; [reflexivity|]. split; [exact Hdel|].
  rewrite Hdel. unfold handleDeleteEducation. rewrite filter_id_iff. apply Forall_neqb.
Qed.

End ProfilePageFacts.

Lemma skill_add_then_remove_witness :
  exists added,
    ProfilePage.handleAddSkill [] "Figma" Types.Tools = Some added
    /\ length added = 1
    /\ ProfilePage.handleRemoveSkill added "Figma" = ProfilePage.handleRemoveSkill [] "Figma"
    /\ Forall (fun s => Types.skill_name s <> "Figma")
              (ProfilePage.handleRemoveSkill added "Figma")
    /\ (ProfilePage.handleRemoveSkill added "Figma" = []
        <-> Forall (fun s => Types.skill_name s <> "Figma") []).
Proof. apply (skill_add_then_remove [] "Figma" Types.Tools). discriminate. Defined.

(** ** The mock boundary: registration, the [api] object, tasks *)
Section MockApiFacts.
Import JsString Json Types TaskStore MockBackend MockApi.

Variable DEFAULT_AVATAR : string.
Variable joinedNow : string.

Abbreviation usersOf := (getUsersDB DEFAULT_AVATAR joinedNow).
Abbreviation reread := (fun u : JsObject => parseObject (stringifyObject u)).
Abbreviation demoEmail := "alex@example.com".

Lemma total_lookup (u : JsObject) (k : string) : u !!! k = default None (u !! k).
Proof. rewrite lookup_total_alt. reflexivity. Qed.

Lemma total_roundtrip (u : JsObject) (k : string) : reread u !!! k = u !!! k.
Proof.
  rewrite !total_lookup. unfold parseObject, stringifyObject.
  rewrite lookup_fmap, lookup_omap. destruct (u !! k) as [[v|]|]; reflexivity.
Qed.

Lemma without_roundtrip (u : JsObject) (k : string) :
  withoutPassword (reread u) !!! k = withoutPassword u !!! k.
Proof.
  rewrite !total_lookup. unfold withoutPassword.
  destruct (String.eqb_spec k "password") as [->|Hk].
  - now rewrite !lookup_delete_eq.
  - rewrite !lookup_delete_ne by congruence. rewrite <- !total_lookup.
    apply total_roundtrip.
Qed.

Lemma strictEq_text (v : jsval) (s : string) : strictEq v (str s) = strictEqStr v s.
Proof. destruct v as [[]|]; reflexivity. Qed.

Lemma hasEmail_roundtrip (s : string) (u : JsObject) : hasEmail s (reread u) = hasEmail s u.
Proof. unfold hasEmail. now rewrite total_roundtrip. Qed.

Lemma getUsersDB_saved (users : list JsObject) :
  users <> [] ->
  usersOf (saveUsersDB users) = (reread <$> users, saveUsersDB users).
Proof.
  intros H. destruct users as [|u users]; [congruence|].
  unfold saveUsersDB. simpl. rewrite <- list_fmap_compose. reflexivity.
Qed.

Lemma find_all_false {A} (f : A -> bool) (l : list A) :
  (forall x, In x l -> f x = false) -> List.find f l = None.
Proof.
  induction l as [|y l IH]; simpl; intros H; [reflexivity|].
  rewrite (H y) by auto. apply IH. auto.
Qed.

Lemma find_at_index {A} (f : A -> bool) (l : list A) (i : nat) (x : A) :
  l !! i = Some x -> f x = true ->
  (forall j y, j < i -> l !! j = Some y -> f y = false) ->
  List.find f l = Some x.
Proof.
  revert i. induction l as [|y l IH]; intros i Hx Hf Hlt; [destruct i; discriminate|].
  destruct i as [|i]; simpl in *.
  - inversion Hx; subst. now rewrite Hf.
  - rewrite (Hlt 0 y) by (auto; lia). apply (IH i); auto.
    intros j z Hj Hz. apply (Hlt (S j) z); [lia | exact Hz].
Qed.

Lemma findIndex_first {A} (f : A -> bool) (l : list A) (i : nat) :
  findIndex f l = Some i -> forall j y, j < i -> l !! j = Some y -> f y = false.
Proof.
  revert i. induction l as [|x l IH]; intros i; simpl; [discriminate|].
  destruct (f x) eqn:Hx.
  - intros H. inversion H; subst. intros j y Hj. lia.
  - destruct (findIndex f l) as [k|]; [|discriminate].
    intros H. inversion H; subst. intros [|j] y Hj Hy; simpl in Hy.
    + inversion Hy; subst. exact Hx.
    + apply (IH k eq_refl j y); [lia | exact Hy].
Qed.

Lemma findIndex_ext {A} (f g : A -> bool) (l : list A) :
  (forall x, f x = g x) -> findIndex f l = findIndex g l.
Proof.
  intros H. induction l as [|x l IH]; simpl; [reflexivity|]. now rewrite H, IH.
Qed.

Lemma updateUserBy_text (entry : UsersEntry) (s : string) (updates : JsObject) :
  updateUserBy DEFAULT_AVATAR joinedNow entry (str s) updates
  = updateUser DEFAULT_AVATAR joinedNow entry s updates.
Proof.
  unfold updateUserBy, updateUser. destruct (usersOf entry) as [users e0].
  rewrite (findIndex_ext _ (hasEmail s)); [reflexivity|].
  intros u. apply strictEq_text.
Qed.

Lemma orEmpty_text (s : string) : orEmpty (str s) = str s.
Proof.
  unfold orEmpty, truthy, str. destruct (String.eqb_spec s ""); subst; reflexivity.
Qed.

Lemma empty_has_no_password : EMPTY_USER_DATA DEFAULT_AVATAR !! "password" = None.
Proof. reflexivity. Qed.

Lemma default_email : DEFAULT_USER_DATA DEFAULT_AVATAR !!! "email" = str demoEmail.
Proof. reflexivity. Qed.

Lemma falsy_not_text (v : jsval) (s : string) :
  truthy v = false -> s <> EmptyString -> strictEqStr v s = false.
Proof.
  intros Hv Hs. destruct v as [[| | |t| |]|]; try reflexivity. simpl in *.
  destruct (String.eqb_spec t ""); [subst|discriminate].
  destruct s; [congruence | reflexivity].
Qed.

(** X13.  A registration that succeeds returns a profile without a password, under
    the email given; the same email and password then log in, to a profile
    whose every property reads as in the one registration returned, and the
    login leaves the database as it is; a second registration under that
    email is refused, whatever the password, and changes nothing. *)
Theorem register_then_login (entry : UsersEntry) (user : JsObject)
    (email password : string) (profile : JsObject) (entry' : UsersEntry) :
  user !!! "email" = str email ->
  register DEFAULT_AVATAR joinedNow entry user password = (Ok profile, entry') ->
  profile !! "password" = None
  /\ profile !!! "email" = str email
  /\ (exists profile',
        login DEFAULT_AVATAR joinedNow entry' email password = (Ok profile', entry')
        /\ forall k, profile' !!! k = profile !!! k)
  /\ (forall password',
        register DEFAULT_AVATAR joinedNow entry' user password'
        = (Throw "User already exists", entry')).
Proof.
  intros Hemail. unfold register at 1. rewrite Hemail.
  destruct (usersOf entry) as [users e0] eqn:Hdb.
  destruct (List.find _ users) as [u|] eqn:Hfind; [discriminate|].
  set (np := <["joinedDate" := str joinedNow]>
               (<["email" := orEmpty (str email)]>
                 (<["name" := orEmpty (user !!! "name")]>
                   (EMPTY_USER_DATA DEFAULT_AVATAR)))).
  intros H.
  assert (Hp : profile = np)
    by (apply (f_equal fst) in H; cbn [fst] in H; injection H as H; symmetry; exact H).
  assert (He : entry' = saveUsersDB (users ++ [<["password" := str password]> np])%list)
    by (apply (f_equal snd) in H; cbn [snd] in H; symmetry; exact H).
  clear H. subst profile entry'.
  assert (Hnopw : np !! "password" = None).
  { subst np. rewrite !lookup_insert_ne by discriminate. apply empty_has_no_password. }
  assert (Hmail : np !!! "email" = str email).
  { subst np. rewrite total_lookup, lookup_insert_ne, lookup_insert_eq by discriminate.
    apply orEmpty_text. }
  set (stored := <["password" := str password]> np) in *.
  assert (Hsmail : stored !!! "email" = str email).
  { subst stored. rewrite total_lookup, lookup_insert_ne by discriminate.
    rewrite <- total_lookup. exact Hmail. }
  assert (Hne : (users ++ [stored])%list <> []) by (destruct users; discriminate).
  assert (Hold : forall x, In x users -> hasEmail email x = false).
  { intros x Hx. pose proof (List.find_none _ _ Hfind x Hx) as Hx'. simpl in Hx'.
    rewrite strictEq_text in Hx'. exact Hx'. }
  assert (Hlen : length (reread <$> users) = length users) by apply length_fmap.
  assert (Hat : (reread <$> (users ++ [stored])%list) !! length users = Some (reread stored)).
  { rewrite list_lookup_fmap, lookup_app_r by lia. rewrite Nat.sub_diag. reflexivity. }
  assert (Hbefore : forall j y, j < length users ->
            (reread <$> (users ++ [stored])%list) !! j = Some y -> hasEmail email y = false).
  { intros j y Hj Hy. rewrite list_lookup_fmap, lookup_app_l in Hy by exact Hj.
    destruct (users !! j) as [x|] eqn:Hx; [|discriminate]. inversion Hy; subst.
    rewrite hasEmail_roundtrip. apply Hold. apply list_elem_of_In.
    eapply list_elem_of_lookup_2; eauto. }
  assert (Hhit : hasEmail email (reread stored) = true).
  { rewrite hasEmail_roundtrip. unfold hasEmail. rewrite Hsmail. simpl.
    apply String.eqb_refl. }
  split; [exact Hnopw|]. split; [exact Hmail|]. split.
  - exists (withoutPassword (reread stored)). split.
    + unfold login. rewrite (getUsersDB_saved _ Hne).
      rewrite (find_at_index _ _ (length users) (reread stored)); [reflexivity|exact Hat| |].
      * rewrite Hhit. unfold hasPassword. rewrite total_roundtrip. subst stored.
        rewrite total_lookup, lookup_insert_eq. simpl. apply String.eqb_refl.
      * intros j y Hj Hy. now rewrite (Hbefore j y Hj Hy).
    + intros k. rewrite without_roundtrip. rewrite !total_lookup. unfold withoutPassword.
      destruct (String.eqb_spec k "password") as [->|Hk].
      * now rewrite lookup_delete_eq, Hnopw.
      * subst stored. rewrite lookup_delete_ne, lookup_insert_ne by congruence.
        reflexivity.
  - intros password'. unfold register. rewrite (getUsersDB_saved _ Hne), Hemail.
    rewrite (find_at_index _ _ (length users) (reread stored)); [reflexivity|exact Hat| |].
    + rewrite strictEq_text. exact Hhit.
    + intros j y Hj Hy. rewrite strictEq_text. exact (Hbefore j y Hj Hy).
Qed.

(** X14.  An update through the user context of a user with a non-empty email
    that is in the database is saved with that email, whatever [email] the
    updates carry; the other users are saved as they were; and reading the
    user back by that email gives a profile whose every property reads as in
    the one the update returned. *)
Theorem context_update_keeps_email (entry : UsersEntry) (email : string)
    (updates : JsObject) (users : list JsObject) (entry0 : UsersEntry) (index : nat) :
  email <> EmptyString ->
  usersOf entry = (users, entry0) ->
  findIndex (hasEmail email) users = Some index ->
  let out := context_updateUser DEFAULT_AVATAR joinedNow entry (str email) updates in
  out.1 !!! "email" = str email
  /\ (exists saved obj,
        out.2 = Entry saved
        /\ length saved = length users
        /\ saved !! index = Some obj
        /\ obj !! "email" = Some (JStr email)
        /\ forall j, j <> index -> saved !! j = stringifyObject <$> users !! j)
  /\ (exists profile',
        getUser DEFAULT_AVATAR joinedNow out.2 (Some email) = (profile', out.2)
        /\ forall k, profile' !!! k = out.1 !!! k).
Proof.
  intros Hne Hdb Hidx out.
  set (payload := contextPayload (str email) updates).
  assert (Hpay : payload !! "email" = Some (str email)) by apply lookup_insert_eq.
  assert (Hout : out = updateUser DEFAULT_AVATAR joinedNow entry email payload).
  { subst out. unfold context_updateUser, user_update. fold payload.
    rewrite total_lookup, Hpay. simpl default.
    assert (Ht : truthy (str email) = true).
    { unfold truthy, str. destruct (String.eqb_spec email ""); [congruence|reflexivity]. }
    rewrite Ht. apply updateUserBy_text. }
  destruct (findIndex_lookup _ _ _ Hidx) as (stored & Hst & Hmatch).
  assert (Hval : out = (withoutPassword (spread stored payload),
                        saveUsersDB (<[index := spread stored payload]> users))).
  { rewrite Hout. unfold updateUser. now rewrite Hdb, Hidx, Hst. }
  set (upd := spread stored payload) in *.
  assert (Hupd : upd !! "email" = Some (str email)).
  { subst upd. unfold spread. now apply lookup_union_Some_l. }
  assert (Hlt : index < length users) by (eapply lookup_lt_Some; eauto).
  rewrite Hval. cbn [fst snd]. split; [|split].
  - rewrite total_lookup. unfold withoutPassword.
    rewrite lookup_delete_ne by discriminate. now rewrite Hupd.
  - eexists _, _. split; [reflexivity|].
    split; [now rewrite length_fmap, length_insert|].
    split; [rewrite list_lookup_fmap, list_lookup_insert_eq by exact Hlt; reflexivity|].
    split.
    + unfold stringifyObject. rewrite lookup_omap, Hupd. reflexivity.
    + intros j Hj. rewrite list_lookup_fmap, list_lookup_insert_ne by congruence.
      reflexivity.
  - exists (withoutPassword (reread upd)). split.
    + destruct email as [|c r]; [congruence|]. unfold getUser.
      rewrite getUsersDB_saved
        by (intros E; apply (f_equal length) in E; rewrite length_insert in E;
            simpl in E; lia).
      rewrite (find_at_index _ _ index (reread upd)); [reflexivity| | |].
      * rewrite list_lookup_fmap, list_lookup_insert_eq by exact Hlt. reflexivity.
      * rewrite hasEmail_roundtrip. unfold hasEmail.
        rewrite total_lookup, Hupd. exact (String.eqb_refl _).
      * intros j y Hj Hy.
        rewrite list_lookup_fmap, list_lookup_insert_ne in Hy by lia.
        destruct (users !! j) as [x|] eqn:Hx; [|discriminate]. inversion Hy; subst.
        rewrite hasEmail_roundtrip. exact (findIndex_first _ _ _ Hidx j x Hj Hx).
    + intros k. apply without_roundtrip.
Qed.

(** X15.  An update through the user context of a user that has no email, or an
    empty one, lands on the demo account: the stored user found under
    alex@example.com takes the updates and, with them, the missing email of
    the sender.  When no other stored user has the demo email, no password
    logs in under it afterwards, and reading it gives the built-in demo
    profile instead of the stored one. *)
Theorem context_update_without_email (entry : UsersEntry) (userEmail : jsval)
    (updates : JsObject) (users : list JsObject) (entry0 : UsersEntry) (index : nat) :
  truthy userEmail = false ->
  usersOf entry = (users, entry0) ->
  findIndex (hasEmail demoEmail) users = Some index ->
  (forall j u, j <> index -> users !! j = Some u -> hasEmail demoEmail u = false) ->
  let out := context_updateUser DEFAULT_AVATAR joinedNow entry userEmail updates in
  (exists saved obj,
      out.2 = Entry saved
      /\ saved !! index = Some obj
      /\ obj !! "email" = userEmail
      /\ (forall k v, k <> "email" -> updates !! k = Some (Some v) -> obj !! k = Some v)
      /\ forall j, j <> index -> saved !! j = stringifyObject <$> users !! j)
  /\ (forall password,
        (login DEFAULT_AVATAR joinedNow out.2 demoEmail password).1
        = Throw "Invalid credentials")
  /\ (getUser DEFAULT_AVATAR joinedNow out.2 (Some demoEmail)).1
     = DEFAULT_USER_DATA DEFAULT_AVATAR.
Proof.
  intros Hfalsy Hdb Hidx Hothers out.
  set (payload := contextPayload userEmail updates).
  assert (Hpay : payload !! "email" = Some userEmail) by apply lookup_insert_eq.
  assert (Hout : out = updateUser DEFAULT_AVATAR joinedNow entry demoEmail payload).
  { subst out. unfold context_updateUser, user_update. fold payload.
    rewrite (total_lookup payload), Hpay. simpl default. rewrite Hfalsy, default_email.
    apply updateUserBy_text. }
  destruct (findIndex_lookup _ _ _ Hidx) as (stored & Hst & Hmatch).
  assert (Hval : out = (withoutPassword (spread stored payload),
                        saveUsersDB (<[index := spread stored payload]> users))).
  { rewrite Hout. unfold updateUser. now rewrite Hdb, Hidx, Hst. }
  set (upd := spread stored payload) in *.
  assert (Hupd : upd !! "email" = Some userEmail).
  { subst upd. unfold spread. now apply lookup_union_Some_l. }
  assert (Hlt : index < length users) by (eapply lookup_lt_Some; eauto).
  assert (Hne : <[index := upd]> users <> []).
  { intros E. apply (f_equal length) in E. rewrite length_insert in E. simpl in E. lia. }
  assert (Hnone : forall x, In x (reread <$> <[index := upd]> users) ->
                            hasEmail demoEmail x = false).
  { intros x Hx. apply list_elem_of_In, list_elem_of_lookup_1 in Hx as [j Hj].
    rewrite list_lookup_fmap in Hj. destruct (Nat.eq_dec j index) as [->|Hji].
    - rewrite list_lookup_insert_eq in Hj by exact Hlt. inversion Hj; subst.
      rewrite hasEmail_roundtrip. unfold hasEmail. rewrite total_lookup, Hupd.
      simpl default. now apply falsy_not_text.
    - rewrite list_lookup_insert_ne in Hj by congruence.
      destruct (users !! j) as [y|] eqn:Hy; [|discriminate]. inversion Hj; subst.
      rewrite hasEmail_roundtrip. exact (Hothers j y Hji Hy). }
  rewrite Hval. cbn [fst snd]. split; [|split].
  - eexists _, _. split; [reflexivity|].
    split; [rewrite list_lookup_fmap, list_lookup_insert_eq by exact Hlt; reflexivity|].
    split; [|split].
    + unfold stringifyObject. rewrite lookup_omap, Hupd. reflexivity.
    + intros k v Hk Hv. unfold stringifyObject. rewrite lookup_omap.
      subst upd. unfold spread.
      rewrite (lookup_union_Some_l payload stored k (Some v)); [reflexivity|].
      subst payload. unfold contextPayload. now rewrite lookup_insert_ne by congruence.
    + intros j Hj. rewrite list_lookup_fmap, list_lookup_insert_ne by congruence.
      reflexivity.
  - intros password. unfold login. rewrite (getUsersDB_saved _ Hne).
    rewrite find_all_false; [reflexivity|].
    intros x Hx. now rewrite (Hnone x Hx).
  - unfold getUser. rewrite (getUsersDB_saved _ Hne).
    rewrite find_all_false; [reflexivity | exact Hnone].
Qed.

End MockApiFacts.

Section TaskStorageFacts.
Import JsString Types TaskStore TaskProvider MockApi.

#[local] Arguments String.append !_ _ / : simpl nomatch.

Lemma tasksKey_injective (a b : string) :
  getStorageKey ("tasks_" ++ a) = getStorageKey ("tasks_" ++ b) -> a = b.
Proof. unfold getStorageKey. simpl. intros H. now inversion H. Qed.

(** X16.  Saving a batch of tasks returns the batch; reading the tasks of the
    same user gives the batch back, and those of a user with another id
    are what they were.  A missing or empty email stands for the id 1, so
    it shares its tasks with a user whose email is the text 1.  The key
    written is never the key of the users database.  The task provider
    reads the tasks back only for a user that has an email: without one it
    empties its list, although the batch was saved under the id 1. *)
Theorem tasks_saved_per_user (storage : TaskStorage) (batch : list Task)
    (a b : option string) (st : State) :
  let out := tasks_saveBatch storage batch a in
  out.1 = batch
  /\ tasks_getAll out.2 a = batch
  /\ (mockId a <> mockId b -> tasks_getAll out.2 b = tasks_getAll storage b)
  /\ (mockId a = mockId b -> tasks_getAll out.2 b = batch)
  /\ mockId None = "1" /\ mockId (Some EmptyString) = "1"
  /\ getStorageKey ("tasks_" ++ mockId a) <> getStorageKey "users_db"
  /\ tasks (fetchTasks a (Ok (tasks_getAll out.2 a)) st)
     = match a with
       | Some (String _ _) => batch
       | _ => []
       end.
Proof.
  cbv zeta. unfold tasks_saveBatch, tasks_getAll, saveTasks, getTasks. cbn [fst snd].
  split; [reflexivity|]. split; [now rewrite lookup_insert_eq|]. split.
  - intros H. rewrite lookup_insert_ne; [reflexivity|].
    intros E. apply tasksKey_injective in E. congruence.
  - split; [intros <-; now rewrite lookup_insert_eq|].
    split; [reflexivity|]. split; [reflexivity|]. split.
    + unfold getStorageKey. simpl. discriminate.
    + rewrite lookup_insert_eq. destruct a as [[|c r]|]; reflexivity.
Qed.

End TaskStorageFacts.

Lemma newcomer_email : MockApi.newcomer !!! "email" = MockBackend.str "sam@example.com".
Proof. vm_compute. reflexivity. Qed.

Lemma demoOnly_users :
  MockBackend.getUsersDB "/avatars/default.png" "November 2026" MockApi.demoOnly
  = (MockApi.demoUsers, MockApi.demoOnly).
Proof. reflexivity. Qed.

Lemma demoOnly_index :
  MockBackend.findIndex (MockBackend.hasEmail "alex@example.com") MockApi.demoUsers = Some 0.
Proof. vm_compute. reflexivity. Qed.

Lemma demoOnly_single (j : nat) (u : MockBackend.JsObject) :
  j <> 0 -> MockApi.demoUsers !! j = Some u ->
  MockBackend.hasEmail "alex@example.com" u = false.
Proof. intros Hj H. destruct j as [|[|j]]; [congruence | discriminate H | discriminate H]. Qed.

Lemma newcomer_registers :
  MockApi.register "/avatars/default.png" "November 2026" MockApi.demoOnly
    MockApi.newcomer "hunter2"
  = (Ok MockApi.registeredProfile,
     MockBackend.saveUsersDB
       (MockApi.demoUsers
        ++ [<["password" := MockBackend.str "hunter2"]> MockApi.registeredProfile])%list).
Proof.
  unfold MockApi.register. rewrite demoOnly_users, newcomer_email.
  assert (Hfind : List.find
                    (fun u => MockApi.strictEq (u !!! "email")
                                (MockBackend.str "sam@example.com"))
                    MockApi.demoUsers = None) by (vm_compute; reflexivity).
  assert (Hname : MockApi.newcomer !!! "name" = MockBackend.str "Sam")
    by (vm_compute; reflexivity).
  rewrite Hfind, Hname. reflexivity.
Qed.

Lemma register_then_login_witness :
  MockApi.registeredProfile !! "password" = None
  /\ exists profile',
       MockBackend.login "/avatars/default.png" "November 2026"
         (MockBackend.saveUsersDB
            (MockApi.demoUsers
             ++ [<["password" := MockBackend.str "hunter2"]> MockApi.registeredProfile])%list)
         "sam@example.com" "hunter2"
       = (Ok profile',
          MockBackend.saveUsersDB
            (MockApi.demoUsers
             ++ [<["password" := MockBackend.str "hunter2"]> MockApi.registeredProfile])%list).
Proof.
  destruct (register_then_login "/avatars/default.png" "November 2026" MockApi.demoOnly
              MockApi.newcomer "sam@example.com" "hunter2" _ _
              newcomer_email newcomer_registers) as (H1 & _ & (p & H3 & _) & _).
  split; [exact H1 | exists p; exact H3].
Defined.

Lemma context_update_keeps_email_witness :
  (MockApi.context_updateUser "/avatars/default.png" "November 2026" MockApi.demoOnly
     (MockBackend.str "alex@example.com") {[ "email" := MockBackend.str "eve@example.com" ]}).1
    !!! "email" = MockBackend.str "alex@example.com".
Proof.
  refine (proj1 (context_update_keeps_email "/avatars/default.png" "November 2026"
                   MockApi.demoOnly "alex@example.com"
                   {[ "email" := MockBackend.str "eve@example.com" ]}
                   MockApi.demoUsers MockApi.demoOnly 0 _ demoOnly_users demoOnly_index)).
  discriminate.
Defined.

Lemma context_update_without_email_witness :
  (MockBackend.login "/avatars/default.png" "November 2026"
     (MockApi.context_updateUser "/avatars/default.png" "November 2026" MockApi.demoOnly
        None {[ "bio" := MockBackend.str "New bio" ]}).2
     "alex@example.com" "password").1
  = Throw "Invalid credentials".
Proof.
  exact (proj1 (proj2 (context_update_without_email "/avatars/default.png" "November 2026"
                         MockApi.demoOnly None {[ "bio" := MockBackend.str "New bio" ]}
                         MockApi.demoUsers MockApi.demoOnly 0 eq_refl demoOnly_users
                         demoOnly_index demoOnly_single)) "password").
Defined.

(** ** The backend: what an update leaves alone, and reading it back *)
Section ServerRouteFacts.
Import JsString Types Server ServerRoutes.

#[local] Arguments String.append !_ _ / : simpl nomatch.

Variable fails : nat -> bool.
Variable sameEmail : string -> string -> bool.

(** *** Joining with commas and splitting again *)

Lemma splitComma_length (s : string) : length (splitComma s) = S (commas s).
Proof.
  induction s as [|c s IH]; simpl; [reflexivity|].
  destruct (Ascii.eqb c ","); simpl; [now rewrite IH|].
  destruct (splitComma s); simpl in *; [discriminate | exact IH].
Qed.

Lemma splitComma_piece (x : string) : commas x = 0 -> splitComma x = [x].
Proof.
  induction x as [|c x IH]; simpl; [reflexivity|].
  destruct (Ascii.eqb c ","); simpl; intros H; [discriminate|].
  now rewrite IH.
Qed.

Lemma splitComma_app (x rest : string) :
  commas x = 0 -> splitComma (x ++ String "," rest) = x :: splitComma rest.
Proof.
  induction x as [|c x IH]; simpl; [reflexivity|].
  destruct (Ascii.eqb c ","); simpl; intros H; [discriminate|].
  now rewrite IH.
Qed.

Lemma commas_app (a b : string) : commas (a ++ b) = commas a + commas b.
Proof. induction a as [|c a IH]; simpl; [reflexivity|]. rewrite IH. lia. Qed.

Lemma join_cons (x y : string) (ys : list string) :
  join (x :: y :: ys) = x ++ String "," (join (y :: ys)).
Proof. reflexivity. Qed.

Lemma commas_join (xs : list string) :
  xs <> [] -> S (commas (join xs)) = length xs + list_sum (List.map commas xs).
Proof.
  induction xs as [|x [|y ys] IH]; intros Hne; [congruence| |].
  - simpl. lia.
  - assert (Hs : forall a l, list_sum (a :: l) = a + list_sum l) by reflexivity.
    rewrite join_cons, commas_app. cbn [commas length List.map].
    specialize (IH ltac:(discriminate)). cbn [length List.map] in IH.
    rewrite !Hs in *. change (Ascii.eqb "," ",") with true. cbn iota. lia.
Qed.

Lemma splitComma_join (xs : list string) :
  xs <> [] -> Forall (fun x => commas x = 0) xs -> splitComma (join xs) = xs.
Proof.
  induction xs as [|x [|y ys] IH]; intros Hne Hall; [congruence| |].
  - inversion Hall; subst. now apply splitComma_piece.
  - inversion Hall; subst. rewrite join_cons, splitComma_app by assumption.
    f_equal. apply IH; [discriminate | assumption].
Qed.

Lemma no_commas (xs : list string) :
  list_sum (List.map commas xs) = 0 -> Forall (fun x => commas x = 0) xs.
Proof.
  induction xs as [|x xs IH]; simpl; intros H; constructor; [lia | apply IH; lia].
Qed.

Lemma join_empty (xs : list string) :
  join xs = EmptyString -> xs = [] \/ xs = [EmptyString].
Proof.
  destruct xs as [|x [|y ys]]; [auto | simpl; intros ->; auto |].
  rewrite join_cons. destruct x; simpl; discriminate.
Qed.

(** X17.  The [skillsUsed] of an experience and the [techStack] of a project are
    stored joined by commas and split again when the profile is read: the
    list read is the list stored exactly when no element contains a comma
    and the list is not the one-element list of the empty text. *)
Theorem skillsUsed_round_trip (xs : list string) :
  splitOrEmpty (join xs) = xs
  <-> Forall (fun x => commas x = 0) xs /\ xs <> [EmptyString].
Proof.
  split.
  - intros H. split.
    + destruct xs as [|x xs']; [constructor|]. set (xs := x :: xs') in *.
      assert (Hne : xs <> []) by discriminate.
      apply no_commas. pose proof (commas_join xs Hne) as Hc.
      unfold splitOrEmpty in H. destruct (join xs) as [|c r] eqn:Hj; [congruence|].
      apply (f_equal (@length string)) in H. rewrite splitComma_length in H. lia.
    + intros ->. discriminate H.
  - intros [Hall Hne]. destruct xs as [|x xs']; [reflexivity|].
    set (xs := x :: xs') in *. unfold splitOrEmpty.
    destruct (join xs) as [|c r] eqn:Hj.
    + destruct (join_empty xs Hj) as [E|E]; [discriminate E | congruence].
    + rewrite <- Hj. apply splitComma_join; [discriminate | exact Hall].
Qed.

(** *** What an update leaves alone *)

Lemma filter_fmap_comm {A} (P : A -> bool) (f : A -> A) (l : list A) :
  (forall r, P (f r) = P r) -> List.filter P (f <$> l) = f <$> List.filter P l.
Proof.
  intros H. induction l as [|r l IH]; simpl; [reflexivity|].
  rewrite H. destruct (P r); simpl; [f_equal|]; exact IH.
Qed.



Lemma rowsFrom_owned {A R} (T : Collection A R) (userId other start : Z) (l : list A) :
  Owned T ->
  List.filter (fun r => (owner T r =? other)%Z) (rowsFrom T userId start l)
  = if (userId =? other)%Z then rowsFrom T userId start l else [].
Proof.
  intros HT. revert start. induction l as [|x l IH]; intros start; simpl.
  - now destruct (userId =? other)%Z.
  - rewrite HT, IH. now destruct (userId =? other)%Z.
Qed.


Lemma replaced_own {A R} (T : Collection A R) (userId start : Z)
    (xs : option (list A)) (old : list R) :
  Owned T ->
  List.filter (fun r => (owner T r =? userId)%Z) (replaced T userId start xs old)
  = match xs with
    | Some l => rowsFrom T userId start l
    | None => List.filter (fun r => (owner T r =? userId)%Z) old
    end.
Proof.
  intros HT. destruct xs as [l|]; [|reflexivity]. unfold replaced.
  rewrite List.filter_app, rowsFrom_owned by exact HT. rewrite Z.eqb_refl.
  assert (Hnone : List.filter (fun r => (owner T r =? userId)%Z)
                    (List.filter (fun r => negb (owner T r =? userId)%Z) old) = []).
  { induction old as [|r old IH]; simpl; [reflexivity|].
    destruct (owner T r =? userId)%Z eqn:E; simpl; [exact IH|]. now rewrite E. }
  now rewrite Hnone.
Qed.

Lemma rowsFrom_fields {A R X} (T : Collection A R) (g : R -> X) (h : A -> X)
    (userId start : Z) (l : list A) :
  (forall id x, g (toRow T id userId x) = h x) ->
  g <$> rowsFrom T userId start l = h <$> l.
Proof.
  intros H. revert start. induction l as [|x l IH]; intros start; simpl; [reflexivity|].
  now rewrite H, IH.
Qed.

Lemma owned_skills : Owned skillsTable.
Proof. intros id userId x. reflexivity. Qed.
Lemma owned_experience : Owned experienceTable.
Proof. intros id userId x. reflexivity. Qed.
Lemma owned_projects : Owned projectsTable.
Proof. intros id userId x. reflexivity. Qed.
Lemma owned_education : Owned educationTable.
Proof. intros id userId x. reflexivity. Qed.
Lemma owned_certifications : Owned certificationsTable.
Proof. intros id userId x. reflexivity. Qed.

Lemma updatedRow_id (updates : Updates) (r : UserRow) :
  u_id (updatedRow updates r) = u_id r
  /\ u_email (updatedRow updates r) = u_email r
  /\ u_password (updatedRow updates r) = u_password r.
Proof.
  destruct (updatedRow_columns updates r) as ((H1 & H2 & H3 & _) & _). auto.
Qed.

Abbreviation rewritten userId updates :=
  (fun r => if (u_id r =? userId)%Z then updatedRow updates r else r).





(** *** Reading a profile back *)

Lemma getUser_never (email : string) (c : Conn) :
  pending c = None ->
  (getUser never sameEmail email c).1
  = match head (List.filter (fun r => sameEmail (u_email r) email) (users (committed c))) with
    | None => Failure 404 "User not found"
    | Some user =>
        let t := committed c in
        let userId := u_id user in
        Profile200 (profileOf user (ownedBy skillsTable userId t)
                      (experienceView <$> ownedBy experienceTable userId t)
                      (projectView <$> ownedBy projectsTable userId t)
                      (ownedBy educationTable userId t)
                      (ownedBy certificationsTable userId t))
    end.
Proof.
  intros Hp. destruct c as [cm pd k n]. simpl in Hp. subst pd.
  unfold getUser, respond, txBind, getUserByEmail, selectOwned, dbCall, never, view, tick.
  cbn [pending committed counters calls fst snd].
  destruct (head _); reflexivity.
Qed.

(** X19.  Reading the profile after an update that was answered 200, with no
    database failure: the profile is that of the first account found under
    the email, its texts replaced by the submitted ones that are not empty;
    every collection that was submitted comes back as submitted, element by
    element and in order, with [verified] false and [image] empty where they
    were absent, and [skillsUsed] and [techStack] joined and split again;
    every collection that was not submitted comes back as it was. *)
Theorem put_then_get (email : string) (updates : Updates) (c : Conn) :
  pending c = None ->
  (putUser fails sameEmail email updates c).1 = Json200 "Profile updated successfully" ->
  let c' := (putUser fails sameEmail email updates c).2 in
  let t := committed c in
  exists user profile,
    head (List.filter (fun r => sameEmail (u_email r) email) (users t)) = Some user
    /\ (getUser never sameEmail email c').1 = Profile200 profile
    /\ (p_id profile = u_id user /\ p_email profile = u_email user
        /\ p_name profile = textOr (up_name updates) (u_name user)
        /\ p_role profile = textOr (up_role updates) (u_role user)
        /\ p_bio profile = textOr (up_bio updates) (u_bio user)
        /\ p_location profile = textOr (up_location updates) (u_location user))
    /\ match up_skills updates with
       | Some l =>
           (fun r => (sk_name r, sk_category r, sk_level r, sk_verified r))
             <$> p_skills profile
           = (fun s => (skill_name s, skill_category s, skill_level s,
                        default false (skill_verified s))) <$> l
       | None => p_skills profile = ownedBy skillsTable (u_id user) t
       end
    /\ match up_experience updates with
       | Some l =>
           (fun v => (ev_company v, ev_role v, ev_startDate v, ev_endDate v,
                      ev_description v, ev_type v, ev_skillsUsed v))
             <$> p_experience profile
           = (fun e => (exp_company e, exp_role e, exp_startDate e, exp_endDate e,
                        exp_description e, exp_type e,
                        splitOrEmpty (join (exp_skillsUsed e)))) <$> l
       | None => p_experience profile
                 = experienceView <$> ownedBy experienceTable (u_id user) t
       end
    /\ match up_projects updates with
       | Some l =>
           (fun v => (pv_name v, pv_type v, pv_description v, pv_techStack v, pv_image v))
             <$> p_projects profile
           = (fun p => (proj_name p, proj_type p, proj_description p,
                        splitOrEmpty (join (proj_techStack p)),
                        match proj_image p with
                        | Some (String a b) => String a b
                        | _ => EmptyString
                        end)) <$> l
       | None => p_projects profile = projectView <$> ownedBy projectsTable (u_id user) t
       end
    /\ match up_education updates with
       | Some l =>
           (fun r => (ed_institution r, ed_degree r, ed_year r)) <$> p_education profile
           = (fun e => (edu_institution e, edu_degree e, edu_year e)) <$> l
       | None => p_education profile = ownedBy educationTable (u_id user) t
       end
    /\ match up_certifications updates with
       | Some l =>
           (fun r => (ce_name r, ce_issuer r, ce_date r)) <$> p_certifications profile
           = (fun x => (cert_name x, cert_issuer x, cert_date x)) <$> l
       | None => p_certifications profile = ownedBy certificationsTable (u_id user) t
       end.
Proof.
  intros Hp Hok c' t.
  destruct (putUser fails sameEmail email updates c) as [resp c0] eqn:Hput.
  pose proof (putUser_cases fails sameEmail _ _ _ _ _ Hp Hput) as Hcases.
  subst c' t. cbn [fst snd] in *.
  destruct Hcases
    as [(_ & Hp' & _ & userId & rest & s & Hfound & Hcom)
       | (_ & [(-> & _) | (-> & _)])];
    [|discriminate|discriminate].
  destruct (List.filter (fun r => sameEmail (u_email r) email) (users (committed c)))
    as [|user found] eqn:Hf; [discriminate|].
  assert (Hid : u_id user = userId) by (simpl in Hfound; congruence).
  exists user. rewrite (getUser_never email c0 Hp'), Hcom.
  assert (Hhead : head (List.filter (fun r => sameEmail (u_email r) email)
                          (users (updatedTables userId updates s (committed c))))
                  = Some (updatedRow updates user)).
  { cbn [users updatedTables]. rewrite filter_fmap_comm.
    - rewrite Hf. simpl. rewrite Hid, Z.eqb_refl. reflexivity.
    - intros r. destruct (u_id r =? userId)%Z; [|reflexivity].
      now rewrite (proj1 (proj2 (updatedRow_id updates r))). }
  rewrite Hhead. cbv zeta. eexists. split; [reflexivity|]. split; [reflexivity|].
  destruct (updatedRow_columns updates user)
    as ((Hi & He & _) & Hn & Hr & Hb & Hl & _).
  cbv zeta in Hi, He, Hn, Hr, Hb, Hl.
  cbn [profileOf p_id p_email p_name p_role p_bio p_location p_skills p_experience
       p_projects p_education p_certifications].
  split; [now rewrite Hi, He, Hn, Hr, Hb, Hl|].
  rewrite Hi, Hid. unfold ownedBy.
  cbn [rowsOf skillsTable experienceTable projectsTable educationTable
       certificationsTable updatedTables skills experience projects education
       certifications].
  rewrite (replaced_own skillsTable) by apply owned_skills.
  rewrite (replaced_own experienceTable) by apply owned_experience.
  rewrite (replaced_own projectsTable) by apply owned_projects.
  rewrite (replaced_own educationTable) by apply owned_education.
  rewrite (replaced_own certificationsTable) by apply owned_certifications.
  split; [|split; [|split; [|split]]].
  - destruct (up_skills updates); [|reflexivity].
    apply (rowsFrom_fields skillsTable). reflexivity.
  - destruct (up_experience updates); [|reflexivity].
    rewrite <- list_fmap_compose.
    apply (rowsFrom_fields experienceTable). reflexivity.
  - destruct (up_projects updates); [|reflexivity].
    rewrite <- list_fmap_compose.
    apply (rowsFrom_fields projectsTable). reflexivity.
  - destruct (up_education updates); [|reflexivity].
    apply (rowsFrom_fields educationTable). reflexivity.
  - destruct (up_certifications updates); [|reflexivity].
    apply (rowsFrom_fields certificationsTable). reflexivity.
Qed.

End ServerRouteFacts.

(** ** The backend: registration and login *)
Section RegistrationFacts.
Import JsString Types Server ServerRoutes.

Variable fails : nat -> bool.
Variable sameEmail : string -> string -> bool.

Abbreviation found email t :=
  (List.filter (fun r => sameEmail (u_email r) email) (users t)).

Lemma postLogin_never (email password : string) (c : Conn) :
  pending c = None ->
  (postLogin never sameEmail email password c).1
  = match head (found email (committed c)) with
    | Some user =>
        if String.eqb (u_password user) password
        then Profile200 (profileOf user [] [] [] [] [])
        else Failure 401 "Invalid credentials"
    | None => Failure 401 "Invalid credentials"
    end.
Proof.
  intros Hp. destruct c as [cm pd k n]. simpl in Hp. subst pd.
  unfold postLogin, respond, txBind, getUserByEmail, dbCall, never, view, tick.
  cbn [pending committed counters calls fst snd].
  destruct (head _) as [user|]; [|reflexivity].
  destruct (String.eqb (u_password user) password); reflexivity.
Qed.

Lemma postRegister_existing (newId : Z) (joinedDate name email password : string)
    (c : Conn) (user : UserRow) :
  pending c = None ->
  head (found email (committed c)) = Some user ->
  (postRegister never sameEmail newId joinedDate name email password c).1
  = Failure 400 "User already exists".
Proof.
  intros Hp Hu. destruct c as [cm pd k n]. simpl in Hp, Hu. subst pd.
  unfold postRegister, respond, txBind, getUserByEmail, dbCall, never, view, tick.
  cbn [pending committed counters calls fst snd]. now rewrite Hu.
Qed.

Lemma found_after_insert (email : string) (t : Tables) (row : UserRow) :
  sameEmail (u_email row) email = true ->
  found email t = [] ->
  found email (setUsers t (users t ++ [row])%list) = [row].
Proof.
  intros Hsame Hnone. cbn [users setUsers]. rewrite List.filter_app, Hnone.
  simpl. now rewrite Hsame.
Qed.

(** X20.  A registration under an email that no account has, with no database
    failure, adds one account and answers with its profile; the same email
    and password then log in to that profile, any other password is refused
    with 401, and a second registration under that email is refused with
    400. *)
Theorem postRegister_then_login (newId : Z) (joinedDate name email password : string)
    (c : Conn) :
  pending c = None ->
  sameEmail email email = true ->
  found email (committed c) = [] ->
  let row := registeredRow newId joinedDate name email password in
  let out := postRegister never sameEmail newId joinedDate name email password c in
  out.1 = Profile200 (profileOf row [] [] [] [] [])
  /\ committed out.2 = setUsers (committed c) (users (committed c) ++ [row])%list
  /\ (postLogin never sameEmail email password out.2).1 = out.1
  /\ (forall other, other <> password ->
        (postLogin never sameEmail email other out.2).1
        = Failure 401 "Invalid credentials")
  /\ (forall newId' joinedDate' name' password',
        (postRegister never sameEmail newId' joinedDate' name' email password' out.2).1
        = Failure 400 "User already exists").
Proof.
  intros Hp Hsame Hnone row out.
  pose proof (found_after_insert email (committed c) row Hsame Hnone) as Hrow.
  assert (Hout : out = (Profile200 (profileOf row [] [] [] [] []),
                        {| committed := setUsers (committed c)
                                          (users (committed c) ++ [row])%list;
                           pending := None; counters := counters c;
                           calls := S (S (S (calls c))) |})).
  { subst out. destruct c as [cm pd k n]. simpl in Hp, Hnone, Hrow. subst pd.
    unfold postRegister, respond, txBind, getUserByEmail, insertUser, dbCall, never,
      view, tick, write.
    cbn [pending committed counters calls fst snd]. rewrite Hnone.
    cbn [head pending committed counters calls fst snd users setUsers]. fold row.
    rewrite Hrow. reflexivity. }
  rewrite Hout. cbn [fst snd committed].
  split; [reflexivity|]. split; [reflexivity|]. split; [|split].
  - rewrite postLogin_never by reflexivity. cbn [committed]. rewrite Hrow.
    cbn [head]. subst row. cbn [u_password registeredRow].
    now rewrite String.eqb_refl.
  - intros other Hother. rewrite postLogin_never by reflexivity. cbn [committed].
    rewrite Hrow. cbn [head]. subst row. cbn [u_password registeredRow].
    destruct (String.eqb_spec password other); [congruence | reflexivity].
  - intros newId' joinedDate' name' password'.
    apply (postRegister_existing _ _ _ _ _ _ row); [reflexivity|].
    cbn [committed]. now rewrite Hrow.
Qed.

(** X21.  A registration is not all-or-nothing: when the database accepts the
    look-up and the [INSERT] and rejects the read that follows, the answer
    is 500, Registration failed, and yet the account is there; registering
    again under that email is refused with 400, and the email and password
    of the failed registration log in. *)
Theorem postRegister_not_atomic (newId : Z) (joinedDate name email password : string)
    (c : Conn) :
  pending c = None ->
  sameEmail email email = true ->
  found email (committed c) = [] ->
  fails (calls c) = false ->
  fails (S (calls c)) = false ->
  fails (S (S (calls c))) = true ->
  let row := registeredRow newId joinedDate name email password in
  let out := postRegister fails sameEmail newId joinedDate name email password c in
  out.1 = Failure 500 "Registration failed"
  /\ committed out.2 = setUsers (committed c) (users (committed c) ++ [row])%list
  /\ (forall newId' joinedDate' name' password',
        (postRegister never sameEmail newId' joinedDate' name' email password' out.2).1
        = Failure 400 "User already exists")
  /\ (postLogin never sameEmail email password out.2).1
     = Profile200 (profileOf row [] [] [] [] []).
Proof.
  intros Hp Hsame Hnone H0 H1 H2 row out.
  pose proof (found_after_insert email (committed c) row Hsame Hnone) as Hrow.
  assert (Hout : out = (Failure 500 "Registration failed",
                        {| committed := setUsers (committed c)
                                          (users (committed c) ++ [row])%list;
                           pending := None; counters := counters c;
                           calls := S (S (S (calls c))) |})).
  { subst out. destruct c as [cm pd k n]. simpl in Hp, Hnone, Hrow, H0, H1, H2. subst pd.
    unfold postRegister, respond, txBind, getUserByEmail, insertUser, dbCall,
      view, tick, write.
    cbn [pending committed counters calls fst snd]. rewrite H0.
    cbn [pending committed counters calls fst snd]. rewrite Hnone.
    cbn [head pending committed counters calls fst snd]. rewrite H1.
    cbn [pending committed counters calls fst snd]. rewrite H2. reflexivity. }
  rewrite Hout. cbn [fst snd committed].
  split; [reflexivity|]. split; [reflexivity|]. split.
  - intros newId' joinedDate' name' password'.
    apply (postRegister_existing _ _ _ _ _ _ row); [reflexivity|].
    cbn [committed]. now rewrite Hrow.
  - rewrite postLogin_never by reflexivity. cbn [committed]. rewrite Hrow.
    cbn [head]. subst row. cbn [u_password registeredRow].
    now rewrite String.eqb_refl.
Qed.

End RegistrationFacts.

Lemma sample_put_ok :
  (Server.putUser Server.never String.eqb "alex@example.com" Server.newRoleAndSkills
     Server.sampleConn).1 = Server.Json200 "Profile updated successfully".
Proof. vm_compute. reflexivity. Qed.


Lemma sample_no_sam :
  List.filter (fun r => String.eqb (Server.u_email r) "sam@example.com")
    (Server.users (Server.committed Server.sampleConn)) = [].
Proof. vm_compute. reflexivity. Qed.


Lemma put_then_get_witness :
  exists user profile,
    head (List.filter (fun r => String.eqb (Server.u_email r) "alex@example.com")
            (Server.users (Server.committed Server.sampleConn))) = Some user
    /\ (ServerRoutes.getUser Server.never String.eqb "alex@example.com"
          (Server.putUser Server.never String.eqb "alex@example.com"
             Server.newRoleAndSkills Server.sampleConn).2).1
       = ServerRoutes.Profile200 profile.
Proof.
  destruct (put_then_get Server.never String.eqb "alex@example.com"
              Server.newRoleAndSkills Server.sampleConn eq_refl sample_put_ok)
    as (user & profile & H1 & H2 & _).
  exists user, profile. split; [exact H1 | exact H2].
Defined.

Lemma postRegister_then_login_witness :
  (ServerRoutes.postRegister Server.never String.eqb 8 "November 2026" "Sam"
     "sam@example.com" "hunter2" Server.sampleConn).1
  = ServerRoutes.Profile200
      (ServerRoutes.profileOf
         (ServerRoutes.registeredRow 8 "November 2026" "Sam" "sam@example.com" "hunter2")
         [] [] [] [] []).
Proof.
  exact (proj1 (postRegister_then_login String.eqb 8 "November 2026" "Sam"
                  "sam@example.com" "hunter2" Server.sampleConn eq_refl
                  (String.eqb_refl _) sample_no_sam)).
Defined.

Lemma postRegister_not_atomic_witness :
  (ServerRoutes.postRegister (fun k => Nat.eqb k 2) String.eqb 8 "November 2026" "Sam"
     "sam@example.com" "hunter2" Server.sampleConn).1
  = ServerRoutes.Failure 500 "Registration failed".
Proof.
  exact (proj1 (postRegister_not_atomic (fun k => Nat.eqb k 2) String.eqb 8
                  "November 2026" "Sam" "sam@example.com" "hunter2" Server.sampleConn
                  eq_refl (String.eqb_refl _) sample_no_sam eq_refl eq_refl eq_refl)).
Defined.

(** ** The session *)
Section SessionFacts.
Import JsString Json MockBackend MockApi Session.

Variable DEFAULT_AVATAR : string.
Variable joinedNow : string.
Variable ToString_other : json -> string.

Lemma find_fmap {A} (P : A -> bool) (f : A -> A) (l : list A) :
  (forall x, P (f x) = P x) -> List.find P (f <$> l) = f <$> List.find P l.
Proof.
  intros H. induction l as [|x l IH]; simpl; [reflexivity|].
  rewrite H. destruct (P x); [reflexivity | exact IH].
Qed.

Lemma find_stronger {A} (P Q : A -> bool) (l : list A) (x : A) :
  List.find P l = Some x -> Q x = true ->
  List.find (fun y => P y && Q y) l = Some x.
Proof.
  induction l as [|y l IH]; simpl; [discriminate|].
  destruct (P y) eqn:E; simpl.
  - intros H HQ. inversion H; subst. now rewrite HQ.
  - auto.
Qed.

(** Reading the database a second time gives the users of the first read,
    as they are or as [JSON.parse] reads them back. *)
Lemma getUsersDB_again (entry : UsersEntry) :
  let users := (getUsersDB DEFAULT_AVATAR joinedNow entry).1 in
  let entry' := (getUsersDB DEFAULT_AVATAR joinedNow entry).2 in
  getUsersDB DEFAULT_AVATAR joinedNow entry' = (users, entry')
  \/ getUsersDB DEFAULT_AVATAR joinedNow entry'
     = ((fun u => parseObject (stringifyObject u)) <$> users, entry').
Proof.
  destruct entry as [| |[|u l]]; cbn [getUsersDB fst snd].
  - right. apply getUsersDB_saved. discriminate.
  - right. apply getUsersDB_saved. discriminate.
  - right. apply getUsersDB_saved. discriminate.
  - left. reflexivity.
Qed.

(** X22.  When the first stored user under a non-empty email has the password
    given, logging in succeeds and records that email; mounting the
    provider again restores the session, with a user whose every property
    reads as after the login; after a logout, mounting the provider again
    restores nothing, and the users database is what it was. *)
Theorem login_then_reload (email password : string) (b : Browser) (st : State)
    (u : JsObject) :
  email <> EmptyString ->
  List.find (hasEmail email) (getUsersDB DEFAULT_AVATAR joinedNow (usersEntry b)).1 = Some u ->
  hasPassword password u = true ->
  let '(outcome, st1, b1) := login DEFAULT_AVATAR joinedNow ToString_other email password b st in
  let '(st2, b2) := checkSession DEFAULT_AVATAR joinedNow b1 initialState in
  let '(st3, b3) := logout b1 st1 in
  outcome = Ok tt
  /\ isAuthenticated st1 = true
  /\ activeUser b1 = Some email
  /\ isAuthenticated st2 = true
  /\ (forall k, user st2 !!! k = user st1 !!! k)
  /\ isAuthenticated (checkSession DEFAULT_AVATAR joinedNow b3 initialState).1 = false
  /\ usersEntry b3 = usersEntry b1.
Proof.
  intros Hne Hfind Hpw.
  pose proof (getUsersDB_again (usersEntry b)) as Hagain. cbv zeta in Hagain.
  destruct (getUsersDB DEFAULT_AVATAR joinedNow (usersEntry b)) as [users e0] eqn:Hdb.
  cbn [fst snd] in *.
  assert (Hmail : u !!! "email" = Some (JStr email)).
  { apply List.find_some in Hfind as [_ Hf]. unfold hasEmail, strictEqStr in Hf.
    destruct (u !!! "email") as [[]|]; try discriminate.
    apply String.eqb_eq in Hf. now subst. }
  unfold login, MockBackend.login. rewrite Hdb.
  rewrite (find_stronger _ _ _ _ Hfind Hpw).
  assert (Hactive : activeEmail ToString_other (withoutPassword u) email = email).
  { unfold activeEmail, withoutPassword.
    rewrite total_lookup, lookup_delete_ne by discriminate.
    rewrite <- total_lookup, Hmail. simpl.
    destruct (String.eqb_spec email ""); [congruence | reflexivity]. }
  rewrite Hactive. unfold checkSession. cbn [activeUser usersEntry].
  destruct email as [|c r]; [congruence|]. unfold getUser.
  assert (Hread : exists u', List.find (hasEmail (String c r))
                               (getUsersDB DEFAULT_AVATAR joinedNow e0).1 = Some u'
                             /\ (getUsersDB DEFAULT_AVATAR joinedNow e0).2 = e0
                             /\ forall k, withoutPassword u' !!! k = withoutPassword u !!! k).
  { destruct Hagain as [-> | ->]; cbn [fst snd].
    - exists u. auto.
    - exists (parseObject (stringifyObject u)). split; [|split; [reflexivity|]].
      + rewrite find_fmap by (intros x; apply hasEmail_roundtrip). now rewrite Hfind.
      + intros k. apply without_roundtrip. }
  destruct Hread as (u' & Hfind' & He0 & Hsame).
  destruct (getUsersDB DEFAULT_AVATAR joinedNow e0) as [users' e1].
  cbn [fst snd] in Hfind', He0. subst e1. rewrite Hfind'.
  unfold logout. cbn [activeUser usersEntry user isAuthenticated fst].
  repeat split; auto.
Qed.

(** X23.  Mounting the provider with a recorded email that no stored user has
    still authenticates, as the built-in demo profile, whose email is
    alex@example.com whatever email was recorded. *)
Theorem reload_unknown_email (b : Browser) (st : State) (c : ascii) (r : string) :
  activeUser b = Some (String c r) ->
  List.find (hasEmail (String c r))
            (getUsersDB DEFAULT_AVATAR joinedNow (usersEntry b)).1 = None ->
  let st' := (checkSession DEFAULT_AVATAR joinedNow b st).1 in
  isAuthenticated st' = true
  /\ user st' = DEFAULT_USER_DATA DEFAULT_AVATAR
  /\ user st' !!! "email" = str "alex@example.com"
  /\ user st' !! "password" = None.
Proof.
  intros Ha Hfind. unfold checkSession. rewrite Ha. unfold getUser.
  destruct (getUsersDB DEFAULT_AVATAR joinedNow (usersEntry b)) as [users e0].
  cbn [fst] in Hfind. rewrite Hfind. cbn [fst user isAuthenticated].
  split; [reflexivity|]. split; [reflexivity|]. split; reflexivity.
Qed.

End SessionFacts.

Lemma demo_found :
  List.find (MockBackend.hasEmail "alex@example.com")
    (MockBackend.getUsersDB "/avatars/default.png" "November 2026" MockApi.demoOnly).1
  = Some Session.demoUser.
Proof. vm_compute. reflexivity. Qed.

Lemma demo_password : MockBackend.hasPassword "password" Session.demoUser = true.
Proof. vm_compute. reflexivity. Qed.

Lemma demo_no_sam :
  List.find (MockBackend.hasEmail "sam@example.com")
    (MockBackend.getUsersDB "/avatars/default.png" "November 2026" MockApi.demoOnly).1
  = None.
Proof. vm_compute. reflexivity. Qed.

Lemma login_then_reload_witness :
  let '(outcome, st1, b1) :=
    Session.login "/avatars/default.png" "November 2026" (fun _ => EmptyString)
      "alex@example.com" "password"
      {| Session.usersEntry := MockApi.demoOnly; Session.activeUser := None |}
      Session.initialState in
  outcome = Ok tt /\ Session.activeUser b1 = Some "alex@example.com".
Proof.
  pose proof (login_then_reload "/avatars/default.png" "November 2026"
                (fun _ => EmptyString) "alex@example.com" "password"
                {| Session.usersEntry := MockApi.demoOnly; Session.activeUser := None |}
                Session.initialState Session.demoUser
                ltac:(discriminate) demo_found demo_password) as H.
  destruct (Session.login _ _ _ _ _ _ _) as [[outcome st1] b1].
  destruct (Session.checkSession _ _ b1 _) as [st2 b2].
  destruct (Session.logout b1 st1) as [st3 b3].
  destruct H as (H1 & _ & H3 & _). split; [exact H1 | exact H3].
Defined.

Lemma reload_unknown_email_witness :
  Session.isAuthenticated
    (Session.checkSession "/avatars/default.png" "November 2026"
       {| Session.usersEntry := MockApi.demoOnly;
          Session.activeUser := Some "sam@example.com" |}
       Session.initialState).1 = true.
Proof.
  exact (proj1 (reload_unknown_email "/avatars/default.png" "November 2026"
                  {| Session.usersEntry := MockApi.demoOnly;
                     Session.activeUser := Some "sam@example.com" |}
                  Session.initialState "s" "am@example.com" eq_refl demo_no_sam)).
Defined.

(** ** Signing up, then signing in *)
Section FormFacts.
Import JsString Json MockBackend MockApi Session Forms.

Variable DEFAULT_AVATAR : string.
Variable joinedNow : string.
Variable ToString_other : json -> string.

Lemma find_app_last {A} (P : A -> bool) (l : list A) (x : A) :
  (forall y, In y l -> P y = false) ->
  List.find P (l ++ [x])%list = if P x then Some x else None.
Proof.
  induction l as [|y l IH]; simpl; intros H; [reflexivity|].
  rewrite (H y) by auto. apply IH. auto.
Qed.

(** What a registration that succeeds leaves in the database. *)
Lemma register_stores (entry : UsersEntry) (user : JsObject) (email password : string)
    (profile : JsObject) (entry' : UsersEntry) :
  user !!! "email" = str email ->
  MockApi.register DEFAULT_AVATAR joinedNow entry user password = (Ok profile, entry') ->
  exists users stored,
    getUsersDB DEFAULT_AVATAR joinedNow entry' = ((users ++ [stored])%list, entry')
    /\ (forall x, In x users -> hasEmail email x = false)
    /\ stored !!! "email" = str email
    /\ stored !!! "password" = str password
    /\ forall k, withoutPassword stored !!! k = profile !!! k.
Proof.
  intros Hemail. unfold MockApi.register. rewrite Hemail.
  destruct (getUsersDB DEFAULT_AVATAR joinedNow entry) as [users e0] eqn:Hdb.
  destruct (List.find _ users) as [u|] eqn:Hfind; [discriminate|].
  set (np := <["joinedDate" := str joinedNow]>
               (<["email" := orEmpty (str email)]>
                 (<["name" := orEmpty (user !!! "name")]>
                   (EMPTY_USER_DATA DEFAULT_AVATAR)))).
  intros H.
  assert (Hp : profile = np)
    by (apply (f_equal fst) in H; cbn [fst] in H; injection H as H; symmetry; exact H).
  assert (He : entry' = saveUsersDB (users ++ [<["password" := str password]> np])%list)
    by (apply (f_equal snd) in H; cbn [snd] in H; symmetry; exact H).
  clear H. subst profile entry'.
  set (stored := <["password" := str password]> np).
  assert (Hnopw : np !! "password" = None).
  { subst np. rewrite !lookup_insert_ne by discriminate.
    apply (empty_has_no_password DEFAULT_AVATAR). }
  exists ((fun u => parseObject (stringifyObject u)) <$> users),
         (parseObject (stringifyObject stored)).
  split; [|split; [|split; [|split]]].
  - rewrite (getUsersDB_saved DEFAULT_AVATAR joinedNow) by (destruct users; discriminate).
    now rewrite fmap_app.
  - intros x Hx. apply list_elem_of_In, list_elem_of_fmap in Hx as (y & -> & Hy).
    rewrite hasEmail_roundtrip.
    pose proof (List.find_none _ _ Hfind y (proj1 (list_elem_of_In _ _) Hy)) as Hy'.
    simpl in Hy'. now rewrite strictEq_text in Hy'.
  - rewrite total_roundtrip. subst stored np.
    rewrite total_lookup, !lookup_insert_ne, lookup_insert_eq by discriminate.
    apply orEmpty_text.
  - rewrite total_roundtrip. subst stored. now rewrite total_lookup, lookup_insert_eq.
  - intros k. rewrite without_roundtrip, !total_lookup. unfold withoutPassword.
    destruct (String.eqb_spec k "password") as [->|Hk].
    + now rewrite lookup_delete_eq, Hnopw.
    + subst stored. now rewrite lookup_delete_ne, lookup_insert_ne by congruence.
Qed.

Lemma isEmpty_false (s : string) : isEmpty s = false <-> s <> EmptyString.
Proof. destruct s; simpl; split; congruence. Qed.

(** X24.  The sign-up form takes the email and the password as typed, the sign-in
    form trims both.  After a sign-up that went through under an email
    without surrounding white space, signing in with the email and password
    typed at sign-up succeeds exactly when that password has no surrounding
    white space either; it then restores a user whose every property reads
    as after the sign-up. *)
Theorem signup_then_signin (name email password : string) (b : Browser)
    (st st' : State) :
  let up := signUp DEFAULT_AVATAR joinedNow ToString_other name email password b st in
  up.1.1 = None ->
  trim email = email ->
  let back := signIn DEFAULT_AVATAR joinedNow ToString_other email password up.2 st' in
  (6 <= String.length password)
  /\ (back.1.1 = None <-> trim password = password)
  /\ (back.1.1 = None ->
      isAuthenticated back.1.2 = true
      /\ forall k, user back.1.2 !!! k = user up.1.2 !!! k).
Proof.
  intros up Hup Htrim back. subst up back. unfold signUp in *.
  destruct (isEmpty name || isEmpty email || isEmpty password)%bool eqn:Hempty;
    [discriminate Hup|].
  apply orb_false_iff in Hempty as [Hempty Hpw].
  apply orb_false_iff in Hempty as [_ Hem].
  apply isEmpty_false in Hpw, Hem.
  destruct (Nat.ltb_spec (String.length password) 6) as [|Hlen]; [discriminate Hup|].
  split; [exact Hlen|].
  unfold register in *.
  destruct (MockApi.register DEFAULT_AVATAR joinedNow (usersEntry b)
              {[ "name" := str name; "email" := str email ]} password)
    as [[profile|e] entry'] eqn:Hreg; [|discriminate Hup].
  cbn [fst snd] in *. clear Hup.
  assert (Huser : ({[ "name" := str name; "email" := str email ]} : JsObject) !!! "email"
                  = str email).
  { rewrite total_lookup, lookup_insert_ne by discriminate.
    now rewrite lookup_singleton_eq. }
  destruct (register_stores _ _ _ _ _ _ Huser Hreg)
    as (users & stored & Hdb & Hothers & Hmail & Hpass & Hsame).
  unfold signIn. rewrite Htrim.
  assert (He : isEmpty email = false) by now apply isEmpty_false.
  rewrite He. cbn [orb].
  destruct (isEmpty (trim password)) eqn:Hclean.
  { cbn [fst snd]. split; [|discriminate]. split; [discriminate|].
    intros E. rewrite E in Hclean. apply isEmpty_false in Hpw. congruence. }
  unfold login, MockBackend.login. cbn [usersEntry]. rewrite Hdb.
  rewrite find_app_last
    by (intros y Hy; rewrite (Hothers y Hy); reflexivity).
  assert (Hhit : hasEmail email stored = true)
    by (unfold hasEmail; rewrite Hmail; simpl; apply String.eqb_refl).
  assert (Hcmp : hasPassword (trim password) stored = String.eqb password (trim password))
    by (unfold hasPassword; rewrite Hpass; reflexivity).
  rewrite Hhit, Hcmp. cbn [andb].
  destruct (String.eqb_spec password (trim password)) as [E|E]; cbn [fst snd].
  - split; [split; congruence|]. intros _. split; [reflexivity|].
    cbn [user]. exact Hsame.
  - split; [|discriminate]. split; [discriminate | congruence].
Qed.

End FormFacts.

Lemma sample_signup :
  (Forms.signUp "/avatars/default.png" "November 2026" (fun _ => EmptyString)
     "Sam" "sam@example.com" "hunter2"
     {| Session.usersEntry := MockApi.demoOnly; Session.activeUser := None |}
     Session.initialState).1.1 = None.
Proof.
  unfold Forms.signUp. cbn [Forms.isEmpty orb]. change (String.length "hunter2" <? 6)%nat with false.
  cbn iota. unfold Session.register. cbn [Session.usersEntry].
  change ({[ "name" := MockBackend.str "Sam"; "email" := MockBackend.str "sam@example.com" ]})
    with MockApi.newcomer.
  rewrite newcomer_registers. reflexivity.
Qed.

Lemma signup_then_signin_witness :
  (Forms.signIn "/avatars/default.png" "November 2026" (fun _ => EmptyString)
     "sam@example.com" "hunter2"
     (Forms.signUp "/avatars/default.png" "November 2026" (fun _ => EmptyString)
        "Sam" "sam@example.com" "hunter2"
        {| Session.usersEntry := MockApi.demoOnly; Session.activeUser := None |}
        Session.initialState).2
     Session.initialState).1.1 = None.
Proof.
  pose proof (signup_then_signin "/avatars/default.png" "November 2026"
                (fun _ => EmptyString) "Sam" "sam@example.com" "hunter2"
                {| Session.usersEntry := MockApi.demoOnly; Session.activeUser := None |}
                Session.initialState Session.initialState sample_signup eq_refl) as H.
  cbv zeta in H. destruct H as (_ & [_ H] & _). apply H. reflexivity.
Defined.

(** ** The task routes *)
Section TaskRouteFacts.
Import JsString Types Server TaskRoutes.

Variable fails : nat -> bool.
Variable sameEmail : string -> string -> bool.

Lemma postTask_accounts (email : string) (task : Task) (db : Db) :
  accounts (postTask fails sameEmail email task db).2 = accounts db.
Proof.
  unfold postTask. destruct (fails (queries db)); [reflexivity|].
  destruct (firstAccount sameEmail email db); [|reflexivity].
  destruct (fails (S (queries db))); reflexivity.
Qed.

Lemma firstAccount_accounts (email : string) (db db' : Db) :
  accounts db' = accounts db ->
  firstAccount sameEmail email db' = firstAccount sameEmail email db.
Proof. unfold firstAccount. now intros ->. Qed.

Lemma saveTasks_spec (email : string) (tasks : list Task) :
  forall db,
    let out := saveTasks fails sameEmail email tasks db in
    accounts out.2 = accounts db
    /\ exists added,
         taskRows out.2 = (taskRows db ++ added)%list
         /\ Forall (fun r => tk_status r = Todo) added
         /\ tk_title <$> added = task_title <$> out.1
         /\ sublist out.1 tasks
         /\ ((forall k, fails k = false) ->
             forall user, firstAccount sameEmail email db = Some user ->
               out.1 = tasks /\ Forall (fun r => tk_user_id r = u_id user) added).
Proof.
  induction tasks as [|task rest IH]; intros db; cbv zeta.
  - simpl. split; [reflexivity|]. exists []. rewrite app_nil_r.
    repeat split; auto; constructor.
  - cbn [saveTasks].
    pose proof (postTask_accounts email task db) as Hacc.
    destruct (postTask fails sameEmail email task db) as [reply db1] eqn:Hpost.
    cbn [snd] in Hacc.
    specialize (IH db1). cbv zeta in IH.
    destruct (saveTasks fails sameEmail email rest db1) as [saved db2].
    cbn [fst snd] in *. destruct IH as (Hacc2 & added & Hrows & Htodo & Htitles & Hsub & Hall).
    split; [congruence|].
    unfold postTask in Hpost.
    destruct (fails (queries db)) eqn:Hf0.
    { inversion Hpost; subst. cbn [taskRows asked] in *. exists added.
      repeat split; auto; try (now apply sublist_cons);
        match goal with
        | Hno : forall k : nat, fails k = false |- _ => rewrite Hno in Hf0; discriminate
        end. }
    destruct (firstAccount sameEmail email db) as [user|] eqn:Hu.
    2:{ inversion Hpost; subst. cbn [taskRows asked] in *. exists added.
        repeat split; auto; try (now apply sublist_cons); intros; discriminate. }
    destruct (fails (S (queries db))) eqn:Hf1.
    { inversion Hpost; subst. cbn [taskRows asked] in *. exists added.
      repeat split; auto; try (now apply sublist_cons);
        match goal with
        | Hno : forall k : nat, fails k = false |- _ => rewrite Hno in Hf1; discriminate
        end. }
    inversion Hpost; subst. cbn [taskRows accounts] in *.
    exists (insertedRow (next_task db) (u_id user) task :: added).
    split; [rewrite Hrows, <- app_assoc; reflexivity|].
    split; [constructor; [reflexivity | exact Htodo]|].
    split; [cbn [fmap list_fmap]; f_equal; exact Htitles|].
    split; [now apply sublist_skip|].
    intros Hno user' Hu'. inversion Hu'; subst user'.
    destruct (Hall Hno user) as [-> Hown].
    { unfold firstAccount in *. cbn [accounts]. exact Hu. }
    split; [reflexivity|]. constructor; [reflexivity | exact Hown].
Qed.

(** X25.  Saving tasks through the backend only ever adds rows: the rows
    there were stay in place, each added row has the status Todo whatever
    status was sent, the rows added are those of the tasks the client got
    back, which are some of the tasks sent, and no account changes.  When
    the database rejects nothing and the email has an account, every task
    sent comes back, and reading the tasks of that email afterwards gives
    the rows read before followed by the added ones: a task sent as Done is
    stored as Todo, and saving a list again stores it again. *)
Theorem saveTasks_appends_todo (email : string) (tasks : list Task) (db : Db) :
  let out := saveTasks fails sameEmail email tasks db in
  accounts out.2 = accounts db
  /\ exists added,
       taskRows out.2 = (taskRows db ++ added)%list
       /\ Forall (fun r => tk_status r = Todo) added
       /\ tk_title <$> added = task_title <$> out.1
       /\ sublist out.1 tasks
       /\ ((forall k, fails k = false) ->
           forall user, firstAccount sameEmail email db = Some user ->
             out.1 = tasks
             /\ (getTasks fails sameEmail email out.2).1
                = ((getTasks fails sameEmail email db).1 ++ added)%list).
Proof.
  cbv zeta. destruct (saveTasks_spec email tasks db)
    as (Hacc & added & Hrows & Htodo & Htitles & Hsub & Hall).
  cbv zeta in *. split; [exact Hacc|]. exists added.
  split; [exact Hrows|]. split; [exact Htodo|]. split; [exact Htitles|].
  split; [exact Hsub|].
  intros Hno user Hu. destruct (Hall Hno user Hu) as [Hsaved Hown].
  split; [exact Hsaved|].
  unfold getTasks. rewrite !Hno.
  rewrite (firstAccount_accounts email db _ Hacc), Hu. cbn [fst].
  rewrite Hrows, List.filter_app. f_equal.
  clear -Hown. induction Hown as [|r l Hr _ IH]; simpl; [reflexivity|].
  rewrite Hr, Z.eqb_refl. now rewrite IH.
Qed.

End TaskRouteFacts.
